(** * Mock_Mantra client script (src/script.js): a shallow embedding

    The script is a set of event handlers over global variables, the DOM and
    the browser's schedulers.  The embedding keeps that shape: one state
    record for the script's globals and the part of the browser they touch,
    a state-and-exception monad for the bodies of the functions, and one
    Rocq function per source function or callback.

    What the browser does is taken from its specifications:
    - the elements the script looks up by id are in the page, and
      [navigator.mediaDevices] is there;
    - the body of an answer is a parsed JSON text: it holds no function, so
      that ToString of an object with a property [toString] of its own
      throws;
    - [requestAnimationFrame], [setTimeout] and [setInterval] hand out
      positive handles and call back later, never during the call;
    - [MediaRecorder.stop()] makes the recorder inactive at once and fires
      [dataavailable] and [stop] from a queued task; a recorder that records
      can also end by itself, on an error or when its tracks have all ended:
      it becomes inactive and fires the two events; [start()] of an inactive
      recorder succeeds, the stream being taken to be active whenever the
      script starts a recording;
    - a number is a binary64 float, and [Math.sin] is whatever the engine
      computes.

    Left out, as nothing below depends on them: the bodies of the blink and
    progress interval callbacks and of the upload's callbacks, which assign
    no variable of the script; the styling of the canvas; the handler of
    page load, whose outcome is the loaded page, and that of [beforeunload],
    after which the page is gone; and what becomes of a recorder once the
    script holds it no more.  The two observers of cheating detection, which
    only read the state, come after the vocabulary, each with the report it
    posts. *)

From Stdlib Require Import List String Ascii NArith ZArith Arith Bool Lia Floats.
From Stdlib Require Import DecimalString.
Import ListNotations.

Set Implicit Arguments.
Set Warnings "-register-all,-inexact-float".

(** ** JavaScript strings

    A string is a sequence of UTF-16 code units. *)
Module JsStr.

Definition codeunit := N.
Definition jsstring := list codeunit.

(** A literal of the script (ASCII). *)
Definition lit (s : string) : jsstring :=
  map N_of_ascii (list_ascii_of_string s).

Definition LF : codeunit := 10%N.
Definition SP : codeunit := 32%N.

(** ECMAScript WhiteSpace and LineTerminator, the code units that
    [String.prototype.trim] strips. *)
Definition is_ws (c : codeunit) : bool :=
  ((9 <=? c) && (c <=? 13) || (c =? 32) || (c =? 160) || (c =? 5760)
   || (8192 <=? c) && (c <=? 8202) || (c =? 8232) || (c =? 8233)
   || (c =? 8239) || (c =? 8287) || (c =? 12288) || (c =? 65279))%N.

Fixpoint trimStart (s : jsstring) : jsstring :=
  match s with
  | c :: s' => if is_ws c then trimStart s' else s
  | [] => []
  end.

Definition trimEnd (s : jsstring) : jsstring := rev (trimStart (rev s)).

(** [s.trim()] *)
Definition trim (s : jsstring) : jsstring := trimEnd (trimStart s).

(** A string is truthy when it is not empty. *)
Definition truthy (s : jsstring) : bool :=
  match s with [] => false | _ :: _ => true end.

Fixpoint is_prefix (p s : jsstring) : bool :=
  match p, s with
  | [], _ => true
  | a :: p', b :: s' => (a =? b)%N && is_prefix p' s'
  | _ :: _, [] => false
  end.

(** [s.split(sep)] for a non-empty separator [sep]: the pieces between the
    occurrences of [sep], found from left to right without overlap.  [skip]
    counts the code units of a separator still to be passed over and [cur]
    holds the piece being read, reversed. *)
Fixpoint split_go (sep : jsstring) (skip : nat) (cur s : jsstring)
  : list jsstring :=
  match s with
  | [] => [rev cur]
  | c :: s' =>
      match skip with
      | S k => split_go sep k cur s'
      | O =>
          if is_prefix sep s
          then rev cur :: split_go sep (List.length sep - 1) [] s'
          else split_go sep 0 (c :: cur) s'
      end
  end.

Definition split (sep s : jsstring) : list jsstring := split_go sep 0 [] s.

(** [String(n)] for a non-negative integer. *)
Definition of_nat (n : nat) : jsstring :=
  lit (NilEmpty.string_of_uint (Nat.to_uint n)).

End JsStr.
Import JsStr.

(** ** The local question parser of [startSetup]'s success callback *)

Definition is_digit (c : codeunit) : bool := ((48 <=? c) && (c <=? 57))%N.

(** The character class [[\.\):]]. *)
Definition is_marker (c : codeunit) : bool :=
  ((c =? 46) || (c =? 41) || (c =? 58))%N.

Fixpoint skip_digits (s : jsstring) : jsstring :=
  match s with
  | c :: s' => if is_digit c then skip_digits s' else s
  | [] => []
  end.

(** [/^\d+[\.\):]/.test(line)]: one or more digits at the start of the
    line, then one of the three markers.  The marker class and the digits
    are disjoint, so the greedy [\d+] never has to give a digit back. *)
Definition numbered_re (line : jsstring) : bool :=
  match line with
  | c :: rest =>
      is_digit c &&
      match skip_digits rest with
      | m :: _ => is_marker m
      | [] => false
      end
  | [] => false
  end.

Definition non_blank (line : jsstring) : bool := truthy (trim line).

(** [questionsText.split('\n').filter(line => line.trim() !== '')] *)
Definition questionLines (questionsText : jsstring) : list jsstring :=
  filter non_blank (split [LF] questionsText).

(** One turn of the [for (const line of questionLines)] loop over the pair
    ([allQuestions], [currentQuestion]). *)
Definition parse_step (st : list jsstring * jsstring) (line : jsstring)
  : list jsstring * jsstring :=
  let (allQuestions, currentQuestion) := st in
  if numbered_re line then
    ((if truthy currentQuestion
      then allQuestions ++ [trim currentQuestion]
      else allQuestions),
     line)
  else (allQuestions, currentQuestion ++ SP :: line).

(** The [if (currentQuestion)] after the loop. *)
Definition parse_flush (st : list jsstring * jsstring) : list jsstring :=
  let (allQuestions, currentQuestion) := st in
  if truthy currentQuestion
  then allQuestions ++ [trim currentQuestion]
  else allQuestions.

(** The loop and the flush from given values of the two variables. *)
Definition numbered_from (st : list jsstring * jsstring)
  (lines : list jsstring) : list jsstring :=
  parse_flush (fold_left parse_step lines st).

Definition numbered (lines : list jsstring) : list jsstring :=
  numbered_from ([], []) lines.

(** [questionsText.split('\n\n').filter(q => q.trim() !== '')] *)
Definition paragraphs (questionsText : jsstring) : list jsstring :=
  filter non_blank (split [LF; LF] questionsText).

(** The body of [if (allQuestions.length === 0) { ... }], entered with
    [allQuestions] empty. *)
Definition parseQuestionsText (questionsText : jsstring) : list jsstring :=
  let allQuestions := numbered (questionLines questionsText) in
  match allQuestions with
  | [] => paragraphs questionsText
  | _ :: _ => allQuestions
  end.


(** ** Values received from the services *)

(** A value of a parsed response body.  A number is kept by the text
    [String] gives for it, which is all the script does with one. *)
Inductive Value :=
| VUndefined
| VNull
| VBool (b : bool)
| VNum (repr : jsstring)
| VStr (s : jsstring)
| VArr (items : list Value)
| VObj (props : list (string * Value)).

Fixpoint jsstring_eqb (a b : jsstring) : bool :=
  match a, b with
  | [], [] => true
  | x :: a', y :: b' => (x =? y)%N && jsstring_eqb a' b'
  | _, _ => false
  end.

(** ToBoolean *)
Definition to_boolean (v : Value) : bool :=
  match v with
  | VUndefined | VNull => false
  | VBool b => b
  | VNum repr => negb (jsstring_eqb repr (lit "0") || jsstring_eqb repr (lit "NaN"))
  | VStr s => truthy s
  | VArr _ | VObj _ => true
  end.

Fixpoint assoc (k : string) (props : list (string * Value)) : Value :=
  match props with
  | [] => VUndefined
  | (k', v) :: rest => if String.eqb k k' then v else assoc k rest
  end.

(** Whether the object has a property [k] of its own. *)
Definition has_own (k : string) (props : list (string * Value)) : bool :=
  existsb (fun p => String.eqb k (fst p)) props.

(** ToString, as a template literal, a concatenation with a string and the
    assignment to a string attribute apply it.  [None] stands for its
    [TypeError]: an object with a property [toString] of its own, which is
    not callable, is asked for [valueOf] next, and the inherited one returns
    the object itself.  An array is joined with commas, [null] and
    [undefined] giving the empty string there. *)
Fixpoint to_string (v : Value) : option jsstring :=
  match v with
  | VUndefined => Some (lit "undefined")
  | VNull => Some (lit "null")
  | VBool true => Some (lit "true")
  | VBool false => Some (lit "false")
  | VNum repr => Some repr
  | VStr s => Some s
  | VArr items =>
      (fix join (l : list Value) : option jsstring :=
         match l with
         | [] => Some []
         | x :: rest =>
             match
               match x with
               | VUndefined | VNull => Some []
               | _ => to_string x
               end
             with
             | None => None
             | Some sx =>
                 match rest with
                 | [] => Some sx
                 | _ :: _ =>
                     match join rest with
                     | None => None
                     | Some sr => Some (sx ++ lit "," ++ sr)
                     end
                 end
             end
         end) items
  | VObj props =>
      if has_own "toString" props then None else Some (lit "[object Object]")
  end.

(** [v.length] of a value that is neither [undefined] nor [null]. *)
Definition length_of (v : Value) : Value :=
  match v with
  | VArr items => VNum (of_nat (List.length items))
  | VStr s => VNum (of_nat (List.length s))
  | VObj props => assoc "length" props
  | _ => VUndefined
  end.

(** [v === 0] *)
Definition is_zero (v : Value) : bool :=
  match v with
  | VNum repr => jsstring_eqb repr (lit "0")
  | _ => false
  end.

(** The object with its property [k] set to [v]. *)
Fixpoint with_prop (k : string) (v : Value) (props : list (string * Value))
  : list (string * Value) :=
  match props with
  | [] => [(k, v)]
  | (k', v') :: rest =>
      if String.eqb k k' then (k, v) :: rest
      else (k', v') :: with_prop k v rest
  end.

(** An entry of the global [questions], read as [questions[i].question]. *)
Record QuestionObj := { question : jsstring }.

Definition Blob := list N.

(** The requests the script sends, with the fields of their bodies, and
    the request for the camera and the microphone, with the [role] its
    callback closes over. *)
Inductive Request :=
| PostStartInterview (role : jsstring)
| PostSpeakQuestion (question_text candidate_id : jsstring)
| PostUploadRecording (video : Blob) (question_index : nat)
                      (candidate_id : jsstring)
| PostAnalyzeInterview (candidate_id : jsstring) (question_count : nat)
| PostGeneratePdf (candidate_id : jsstring)
| GetUserMedia (role : jsstring).

(** ** The browser objects the script holds *)

Inductive RecorderState := inactive | rs_recording | rs_paused.

(** A [MediaRecorder]: its [state] and the media gathered since [start]. *)
Record MediaRecorder := {
  state : RecorderState;
  gathered : Blob
}.

(** The [Audio] element. *)
Record Audio := {
  src : option jsstring;
  playing : bool
}.

(** The closure [animateSpeech] returns: the variables [drawMouth] closes
    over.  [frameCount] is the closure's own counter. *)
Record DrawMouth := {
  canvas : nat;
  intensity : float;
  mouthX : float;
  mouthY : float;
  mouthWidth : float;
  mouthBaseHeight : float;
  frameCount : float
}.

Inductive MsgType := info | success | error.

(** What [setTimeout] was given to call. *)
Inductive TimerCb :=
| RemoveMessage (n : nat)
| StartNextQuestion
| RetryAnalysis
| HideProgress.

(** What [setInterval] was given to call: the blink of [startSpeaking],
    the progress bar of [stopInterview], the focus check of
    [startCheatingDetection]. *)
Inductive IntervalCb := Blink | AnalysisProgress | TabFocusCheck.

(** A task the browser has queued for the script: the two events a
    recorder fires after [stop()], [dataavailable] with the gathered media and
    then [stop]. *)
Inductive Task := RecorderStopped (data : Blob).

(** The markup the script builds, with the interpolated values. *)
Inductive Html :=
| QuestionList (items : list jsstring)
| ResultSummary (overall_assessment overall_score : jsstring)
| BreakdownHeading
| QuestionEvaluation (number : nat) (q assessment score : jsstring)
| ResultSection (title : string) (items : list jsstring)
| DownloadButton
| PdfGenerating
| PdfDownloaded
| PdfNoUrl
| PdfFailed.

(** A jQuery call that changes the document. *)
Inductive DomOp :=
| AddClass (id cls : string)
| RemoveClass (id cls : string)
| SetText (id : string) (text : jsstring)
| SetDisabled (id : string) (b : bool)
| SetWidth (id : string) (w : jsstring)
| SetHtml (id : string) (h : list Html)
| BindClick (id : string)
| ClickLink (href : jsstring) (download : jsstring).

(** A call on a canvas or its 2D context.  [Lips] is the filled path of the
    two Bezier curves drawn from the four numbers, [InnerMouth] the filled
    ellipse. *)
Inductive CanvasOp :=
| SetDimensions (c : nat) (w h : float)
| ClearRect (c : nat)
| Lips (c : nat) (x y w h : float)
| InnerMouth (c : nat) (x y rx ry : float).

Inductive exn := TypeError | InvalidStateError | NotSupportedError.

(** ** The state: the script's globals and the browser around them *)

(** The recorder's variables; [stream] says whether the media stream has
    been assigned. *)
Record Recording := {
  mediaRecorder : option MediaRecorder;
  recordedChunks : list Blob;
  recording : bool;
  stream : bool;
  tabFocusInterval : option nat
}.

(** The session's variables. *)
Record Session := {
  currentQuestionIndex : nat;
  questions : list QuestionObj;
  allQuestions : Value;
  interviewData : option Value;
  candidateId : jsstring
}.

(** The avatar's and the audio's variables. *)
Record Speech := {
  isSpeaking : bool;
  audioElement : Audio;
  expressionCanvas : option nat;
  animationFrame : option nat
}.

(** The variables of the analysis and of the PDF download. *)
Record Analysis := {
  analyzingData : bool;
  analysisRetryCount : nat;
  downloadingPdf : bool
}.

(** The document: the jQuery calls made on it, the status messages shown,
    the console, the canvases with id [expressionCanvas] it holds, whether the
    element [mouthAnimation] is in it, the canvas calls made, and the bounding
    box of [avatarContainer]. *)
Record Page := {
  dom : list DomOp;
  messages : list (jsstring * MsgType);
  console : list string;
  canvases : list nat;
  mouthAnimation : bool;
  drawing : list CanvasOp;
  containerRect : float * float
}.

(** The browser: the [resize] listeners of [window] (each the
    [setCanvasDimensions] of the canvas named), the callbacks given to
    [requestAnimationFrame] with their handles, the timeouts and intervals
    set, the queued tasks, the requests sent, the next fresh handle, the
    exceptions no handler caught, the engine's [Math.sin], and whether
    [MediaRecorder] accepts the script's MIME type. *)
Record Browser := {
  resizeListeners : list nat;
  frameRequests : list (nat * DrawMouth);
  timers : list (nat * TimerCb);
  intervals : list (nat * IntervalCb);
  tasks : list Task;
  sent : list Request;
  nextId : nat;
  uncaught : list exn;
  Math_sin : float -> float;
  mimeSupported : bool
}.

Record State := {
  rec : Recording;
  ses : Session;
  sp : Speech;
  an : Analysis;
  page : Page;
  br : Browser
}.

(** Assignments to one variable. *)
Definition upd_rec (f : Recording -> Recording) (s : State) : State :=
  {| rec := f (rec s); ses := ses s; sp := sp s; an := an s; page := page s; br := br s |}.
Definition set_mediaRecorder (v : option MediaRecorder) : State -> State :=
  upd_rec (fun x =>
  {| mediaRecorder := v;
     recordedChunks := recordedChunks x;
     recording := recording x;
     stream := stream x;
     tabFocusInterval := tabFocusInterval x |}).
Definition set_recordedChunks (v : list Blob) : State -> State :=
  upd_rec (fun x =>
  {| mediaRecorder := mediaRecorder x;
     recordedChunks := v;
     recording := recording x;
     stream := stream x;
     tabFocusInterval := tabFocusInterval x |}).
Definition set_recording (v : bool) : State -> State :=
  upd_rec (fun x =>
  {| mediaRecorder := mediaRecorder x;
     recordedChunks := recordedChunks x;
     recording := v;
     stream := stream x;
     tabFocusInterval := tabFocusInterval x |}).
Definition set_stream (v : bool) : State -> State :=
  upd_rec (fun x =>
  {| mediaRecorder := mediaRecorder x;
     recordedChunks := recordedChunks x;
     recording := recording x;
     stream := v;
     tabFocusInterval := tabFocusInterval x |}).
Definition set_tabFocusInterval (v : option nat) : State -> State :=
  upd_rec (fun x =>
  {| mediaRecorder := mediaRecorder x;
     recordedChunks := recordedChunks x;
     recording := recording x;
     stream := stream x;
     tabFocusInterval := v |}).
Definition upd_ses (f : Session -> Session) (s : State) : State :=
  {| rec := rec s; ses := f (ses s); sp := sp s; an := an s; page := page s; br := br s |}.
Definition set_currentQuestionIndex (v : nat) : State -> State :=
  upd_ses (fun x =>
  {| currentQuestionIndex := v;
     questions := questions x;
     allQuestions := allQuestions x;
     interviewData := interviewData x;
     candidateId := candidateId x |}).
Definition set_questions (v : list QuestionObj) : State -> State :=
  upd_ses (fun x =>
  {| currentQuestionIndex := currentQuestionIndex x;
     questions := v;
     allQuestions := allQuestions x;
     interviewData := interviewData x;
     candidateId := candidateId x |}).
Definition set_allQuestions (v : Value) : State -> State :=
  upd_ses (fun x =>
  {| currentQuestionIndex := currentQuestionIndex x;
     questions := questions x;
     allQuestions := v;
     interviewData := interviewData x;
     candidateId := candidateId x |}).
Definition set_interviewData (v : option Value) : State -> State :=
  upd_ses (fun x =>
  {| currentQuestionIndex := currentQuestionIndex x;
     questions := questions x;
     allQuestions := allQuestions x;
     interviewData := v;
     candidateId := candidateId x |}).
Definition upd_sp (f : Speech -> Speech) (s : State) : State :=
  {| rec := rec s; ses := ses s; sp := f (sp s); an := an s; page := page s; br := br s |}.
Definition set_isSpeaking (v : bool) : State -> State :=
  upd_sp (fun x =>
  {| isSpeaking := v;
     audioElement := audioElement x;
     expressionCanvas := expressionCanvas x;
     animationFrame := animationFrame x |}).
Definition set_audioElement (v : Audio) : State -> State :=
  upd_sp (fun x =>
  {| isSpeaking := isSpeaking x;
     audioElement := v;
     expressionCanvas := expressionCanvas x;
     animationFrame := animationFrame x |}).
Definition set_expressionCanvas (v : option nat) : State -> State :=
  upd_sp (fun x =>
  {| isSpeaking := isSpeaking x;
     audioElement := audioElement x;
     expressionCanvas := v;
     animationFrame := animationFrame x |}).
Definition set_animationFrame (v : option nat) : State -> State :=
  upd_sp (fun x =>
  {| isSpeaking := isSpeaking x;
     audioElement := audioElement x;
     expressionCanvas := expressionCanvas x;
     animationFrame := v |}).
Definition upd_an (f : Analysis -> Analysis) (s : State) : State :=
  {| rec := rec s; ses := ses s; sp := sp s; an := f (an s); page := page s; br := br s |}.
Definition set_analyzingData (v : bool) : State -> State :=
  upd_an (fun x =>
  {| analyzingData := v;
     analysisRetryCount := analysisRetryCount x;
     downloadingPdf := downloadingPdf x |}).
Definition set_analysisRetryCount (v : nat) : State -> State :=
  upd_an (fun x =>
  {| analyzingData := analyzingData x;
     analysisRetryCount := v;
     downloadingPdf := downloadingPdf x |}).
Definition set_downloadingPdf (v : bool) : State -> State :=
  upd_an (fun x =>
  {| analyzingData := analyzingData x;
     analysisRetryCount := analysisRetryCount x;
     downloadingPdf := v |}).
Definition upd_page (f : Page -> Page) (s : State) : State :=
  {| rec := rec s; ses := ses s; sp := sp s; an := an s; page := f (page s); br := br s |}.
Definition set_dom (v : list DomOp) : State -> State :=
  upd_page (fun x =>
  {| dom := v;
     messages := messages x;
     console := console x;
     canvases := canvases x;
     mouthAnimation := mouthAnimation x;
     drawing := drawing x;
     containerRect := containerRect x |}).
Definition set_messages (v : list (jsstring * MsgType)) : State -> State :=
  upd_page (fun x =>
  {| dom := dom x;
     messages := v;
     console := console x;
     canvases := canvases x;
     mouthAnimation := mouthAnimation x;
     drawing := drawing x;
     containerRect := containerRect x |}).
Definition set_console (v : list string) : State -> State :=
  upd_page (fun x =>
  {| dom := dom x;
     messages := messages x;
     console := v;
     canvases := canvases x;
     mouthAnimation := mouthAnimation x;
     drawing := drawing x;
     containerRect := containerRect x |}).
Definition set_canvases (v : list nat) : State -> State :=
  upd_page (fun x =>
  {| dom := dom x;
     messages := messages x;
     console := console x;
     canvases := v;
     mouthAnimation := mouthAnimation x;
     drawing := drawing x;
     containerRect := containerRect x |}).
Definition set_mouthAnimation (v : bool) : State -> State :=
  upd_page (fun x =>
  {| dom := dom x;
     messages := messages x;
     console := console x;
     canvases := canvases x;
     mouthAnimation := v;
     drawing := drawing x;
     containerRect := containerRect x |}).
Definition set_drawing (v : list CanvasOp) : State -> State :=
  upd_page (fun x =>
  {| dom := dom x;
     messages := messages x;
     console := console x;
     canvases := canvases x;
     mouthAnimation := mouthAnimation x;
     drawing := v;
     containerRect := containerRect x |}).
Definition set_containerRect (v : float * float) : State -> State :=
  upd_page (fun x =>
  {| dom := dom x;
     messages := messages x;
     console := console x;
     canvases := canvases x;
     mouthAnimation := mouthAnimation x;
     drawing := drawing x;
     containerRect := v |}).
Definition upd_br (f : Browser -> Browser) (s : State) : State :=
  {| rec := rec s; ses := ses s; sp := sp s; an := an s; page := page s; br := f (br s) |}.
Definition set_resizeListeners (v : list nat) : State -> State :=
  upd_br (fun x =>
  {| resizeListeners := v;
     frameRequests := frameRequests x;
     timers := timers x;
     intervals := intervals x;
     tasks := tasks x;
     sent := sent x;
     nextId := nextId x;
     uncaught := uncaught x;
     Math_sin := Math_sin x;
     mimeSupported := mimeSupported x |}).
Definition set_frameRequests (v : list (nat * DrawMouth)) : State -> State :=
  upd_br (fun x =>
  {| resizeListeners := resizeListeners x;
     frameRequests := v;
     timers := timers x;
     intervals := intervals x;
     tasks := tasks x;
     sent := sent x;
     nextId := nextId x;
     uncaught := uncaught x;
     Math_sin := Math_sin x;
     mimeSupported := mimeSupported x |}).
Definition set_timers (v : list (nat * TimerCb)) : State -> State :=
  upd_br (fun x =>
  {| resizeListeners := resizeListeners x;
     frameRequests := frameRequests x;
     timers := v;
     intervals := intervals x;
     tasks := tasks x;
     sent := sent x;
     nextId := nextId x;
     uncaught := uncaught x;
     Math_sin := Math_sin x;
     mimeSupported := mimeSupported x |}).
Definition set_intervals (v : list (nat * IntervalCb)) : State -> State :=
  upd_br (fun x =>
  {| resizeListeners := resizeListeners x;
     frameRequests := frameRequests x;
     timers := timers x;
     intervals := v;
     tasks := tasks x;
     sent := sent x;
     nextId := nextId x;
     uncaught := uncaught x;
     Math_sin := Math_sin x;
     mimeSupported := mimeSupported x |}).
Definition set_tasks (v : list Task) : State -> State :=
  upd_br (fun x =>
  {| resizeListeners := resizeListeners x;
     frameRequests := frameRequests x;
     timers := timers x;
     intervals := intervals x;
     tasks := v;
     sent := sent x;
     nextId := nextId x;
     uncaught := uncaught x;
     Math_sin := Math_sin x;
     mimeSupported := mimeSupported x |}).
Definition set_sent (v : list Request) : State -> State :=
  upd_br (fun x =>
  {| resizeListeners := resizeListeners x;
     frameRequests := frameRequests x;
     timers := timers x;
     intervals := intervals x;
     tasks := tasks x;
     sent := v;
     nextId := nextId x;
     uncaught := uncaught x;
     Math_sin := Math_sin x;
     mimeSupported := mimeSupported x |}).
Definition set_nextId (v : nat) : State -> State :=
  upd_br (fun x =>
  {| resizeListeners := resizeListeners x;
     frameRequests := frameRequests x;
     timers := timers x;
     intervals := intervals x;
     tasks := tasks x;
     sent := sent x;
     nextId := v;
     uncaught := uncaught x;
     Math_sin := Math_sin x;
     mimeSupported := mimeSupported x |}).
Definition set_uncaught (v : list exn) : State -> State :=
  upd_br (fun x =>
  {| resizeListeners := resizeListeners x;
     frameRequests := frameRequests x;
     timers := timers x;
     intervals := intervals x;
     tasks := tasks x;
     sent := sent x;
     nextId := nextId x;
     uncaught := v;
     Math_sin := Math_sin x;
     mimeSupported := mimeSupported x |}).

(** ** Function bodies: state and exceptions *)

Inductive Res (A : Type) :=
| Ok (a : A) (s : State)
| Thrown (e : exn) (s : State).
Arguments Thrown {A} e s.

Definition M (A : Type) := State -> Res A.

Definition ret {A} (a : A) : M A := fun s => Ok a s.

Definition bind {A B} (m : M A) (k : A -> M B) : M B :=
  fun s => match m s with
           | Ok a s' => k a s'
           | Thrown e s' => Thrown e s'
           end.

Definition throw {A} (e : exn) : M A := fun s => Thrown e s.

(** [try { m } catch (e) { h e }] *)
Definition try_catch {A} (m : M A) (h : exn -> M A) : M A :=
  fun s => match m s with
           | Ok a s' => Ok a s'
           | Thrown e s' => h e s'
           end.

Definition gets {A} (f : State -> A) : M A := fun s => Ok (f s) s.
Definition modify (f : State -> State) : M unit := fun s => Ok tt (f s).

Declare Scope js_scope.
Delimit Scope js_scope with js.
Notation "x <- m ;; k" := (bind m (fun x => k))
  (at level 61, m at next level, right associativity) : js_scope.
Notation "m ;; k" := (bind m (fun _ => k))
  (at level 61, right associativity) : js_scope.
Open Scope js_scope.

Definition skip : M unit := ret tt.

(** The state a body leaves, whether it returned or threw. *)
Definition state_of {A} (r : Res A) : State :=
  match r with Ok _ s => s | Thrown _ s => s end.

Definition returned {A} (r : Res A) : bool :=
  match r with Ok _ _ => true | Thrown _ _ => false end.

(** *** What the browser offers *)

(** A jQuery call, a canvas call, [console.error]: each is written to its
    log. *)
Definition jq (op : DomOp) : M unit :=
  modify (fun s => set_dom (dom (page s) ++ [op]) s).

Definition draw (op : CanvasOp) : M unit :=
  modify (fun s => set_drawing (drawing (page s) ++ [op]) s).

Definition console_error (what : string) : M unit :=
  modify (fun s => set_console (console (page s) ++ [what]) s).

(** [$.ajax] and [getUserMedia]: the request leaves, the callbacks run
    later. *)
Definition ajax (r : Request) : M unit :=
  modify (fun s => set_sent (sent (br s) ++ [r]) s).

(** A handle the browser has not given out yet; handles are positive. *)
Definition fresh : M nat :=
  n <- gets (fun s => S (nextId (br s))) ;;
  modify (set_nextId n) ;;
  ret n.

(** The timeout is pending until [timer_fires] takes it out. *)
Definition setTimeout (cb : TimerCb) (ms : nat) : M unit :=
  modify (fun s => set_timers (timers (br s) ++ [(ms, cb)]) s).

Definition setInterval (cb : IntervalCb) : M nat :=
  h <- fresh ;;
  modify (fun s => set_intervals (intervals (br s) ++ [(h, cb)]) s) ;;
  ret h.

Definition remove_handle {A} (h : nat) (l : list (nat * A)) : list (nat * A) :=
  filter (fun p => negb (fst p =? h)) l.

Definition clearInterval (h : nat) : M unit :=
  modify (fun s => set_intervals (remove_handle h (intervals (br s))) s).

Definition requestAnimationFrame (cb : DrawMouth) : M nat :=
  h <- fresh ;;
  modify (fun s => set_frameRequests (frameRequests (br s) ++ [(h, cb)]) s) ;;
  ret h.

Definition cancelAnimationFrame (h : nat) : M unit :=
  modify (fun s => set_frameRequests (remove_handle h (frameRequests (br s))) s).

(** ** The script *)

Definition MAX_RETRY_ATTEMPTS : nat := 3.

(** [showMessage]: the message is appended to [statusMessages]; one that is
    not an error is taken out again after 5000 ms. *)
Definition showMessage (message : jsstring) (type : MsgType) : M unit :=
  n <- gets (fun s => List.length (messages (page s))) ;;
  modify (fun s => set_messages (messages (page s) ++ [(message, type)]) s) ;;
  match type with
  | error => skip
  | _ => setTimeout (RemoveMessage n) 5000
  end.

(** *** Avatar animation *)

(** [setCanvasDimensions] of the canvas [c]. *)
Definition setCanvasDimensions (c : nat) : M unit :=
  r <- gets (fun s => containerRect (page s)) ;;
  draw (SetDimensions c (fst r) (snd r)).

(** The canvas is known by a fresh number; [getElementById] finds the
    first canvas with the id, the new one is appended after the others. *)
Definition setupAvatarAnimations : M nat :=
  (* if (mouthContainer) mouthContainer.remove() *)
  modify (set_mouthAnimation false) ;;
  (* if (existingCanvas) existingCanvas.remove() *)
  modify (fun s => set_canvases (tl (canvases (page s))) s) ;;
  c <- fresh ;;
  modify (fun s => set_canvases (canvases (page s) ++ [c]) s) ;;
  setCanvasDimensions c ;;
  (* window.addEventListener('resize', setCanvasDimensions) *)
  modify (fun s => set_resizeListeners (resizeListeners (br s) ++ [c]) s) ;;
  ret c.

(** The canvas covers [avatarContainer] (100% of its width and height),
    so its bounding box is the container's. *)
Definition animateSpeech (canvas : option nat) (intensity : float)
  : M (option DrawMouth) :=
  match canvas with
  | None => ret None
  | Some c =>
      containerRect <- gets (fun s => containerRect (page s)) ;;
      ret (Some {| canvas := c;
                   intensity := intensity;
                   mouthX := (fst containerRect * 0.5)%float;
                   mouthY := (snd containerRect * 0.67)%float;
                   mouthWidth := (fst containerRect * 0.25)%float;
                   mouthBaseHeight := (snd containerRect * 0.04)%float;
                   frameCount := 0%float |})
  end.

Definition openAmount (sin : float -> float) (d : DrawMouth) : float :=
  (sin (frameCount d * 0.3) * intensity d + intensity d)%float.

Definition mouthHeight (sin : float -> float) (d : DrawMouth) : float :=
  (mouthBaseHeight d + (mouthBaseHeight d * 3 * openAmount sin d))%float.

(** [frameCount++] in the closure. *)
Definition next_frame (d : DrawMouth) : DrawMouth :=
  {| canvas := canvas d; intensity := intensity d;
     mouthX := mouthX d; mouthY := mouthY d;
     mouthWidth := mouthWidth d; mouthBaseHeight := mouthBaseHeight d;
     frameCount := (frameCount d + 1)%float |}.

Definition drawMouth (d : DrawMouth) : M unit :=
  draw (ClearRect (canvas d)) ;;
  speaking <- gets (fun s => isSpeaking (sp s)) ;;
  if negb speaking then skip
  else
    sin <- gets (fun s => Math_sin (br s)) ;;
    let mouthHeight := mouthHeight sin d in
    draw (Lips (canvas d) (mouthX d) (mouthY d) (mouthWidth d) mouthHeight) ;;
    let innerWidth := (mouthWidth d * 0.7)%float in
    let innerHeight := (mouthHeight * 0.7)%float in
    draw (InnerMouth (canvas d) (mouthX d) (mouthY d)
            (innerWidth / 2)%float (innerHeight / 2)%float) ;;
    h <- requestAnimationFrame (next_frame d) ;;
    modify (set_animationFrame (Some h)).

Definition startSpeaking : M unit :=
  modify (set_isSpeaking true) ;;
  jq (AddClass "avatarContainer" "avatar-speaking") ;;
  c <- gets (fun s => expressionCanvas (sp s)) ;;
  match c with
  | None => c' <- setupAvatarAnimations ;; modify (set_expressionCanvas (Some c'))
  | Some _ => skip
  end ;;
  c <- gets (fun s => expressionCanvas (sp s)) ;;
  closure <- animateSpeech c 0.8%float ;;
  match closure with
  | Some d => drawMouth d
  | None => skip
  end ;;
  _ <- setInterval Blink ;;
  skip.

Definition stopSpeaking : M unit :=
  modify (set_isSpeaking false) ;;
  jq (RemoveClass "avatarContainer" "avatar-speaking") ;;
  c <- gets (fun s => expressionCanvas (sp s)) ;;
  match c with
  | Some c => draw (ClearRect c)
  | None => skip
  end ;;
  h <- gets (fun s => animationFrame (sp s)) ;;
  match h with
  | Some (S _ as h) =>
      cancelAnimationFrame h ;;
      modify (set_animationFrame None)
  | _ => skip
  end.

(** *** Reading the answers *)

(** [v.k] for a [v] that is neither [undefined] nor [null], and a [k] that
    names no built-in property: the script reads response fields only. *)
Definition prop (v : Value) (k : string) : Value :=
  match v with
  | VObj props => assoc k props
  | _ => VUndefined
  end.

(** [v.k]: reading a property of [undefined] or [null] throws. *)
Definition get_prop (v : Value) (k : string) : M Value :=
  match v with
  | VUndefined | VNull => throw TypeError
  | _ => ret (prop v k)
  end.

(** ToString where the script applies it. *)
Definition str (v : Value) : M jsstring :=
  match to_string v with
  | Some s => ret s
  | None => throw TypeError
  end.

(** [v.forEach(...)] and [v.map(...)] exist on arrays only. *)
Definition as_array (v : Value) : M (list Value) :=
  match v with
  | VArr items => ret items
  | _ => throw TypeError
  end.

Fixpoint mapM {A B} (f : A -> M B) (l : list A) : M (list B) :=
  match l with
  | [] => ret []
  | x :: rest => y <- f x ;; ys <- mapM f rest ;; ret (y :: ys)
  end.

(** [v.split(...)] exists on strings only. *)
Definition as_string (v : Value) : M jsstring :=
  match v with
  | VStr s => ret s
  | _ => throw TypeError
  end.

(** *** Setup *)

(** [displayQuestions]: [allQuestions.forEach] appends, for each entry,
    ['<li class="question-item">' + question + '</li>']. *)
Definition displayQuestions : M unit :=
  all <- gets (fun s => allQuestions (ses s)) ;;
  entries <- as_array all ;;
  qs <- mapM str entries ;;
  jq (SetHtml "questions-container" [QuestionList qs]).

(** [startSetup], up to the request for the camera and the microphone.
    [role] is the value of [roleSelect]. *)
Definition startSetup (role : jsstring) : M unit :=
  if negb (truthy role) then showMessage (lit "Please select a role") error
  else
    showMessage (lit "Setting up interview for " ++ role ++ lit " role...") info ;;
    ajax (GetUserMedia role).

(** The [then] of [getUserMedia]: the stream is kept and shown in the
    preview, and the questions are requested. *)
Definition startSetup_granted (role : jsstring) : M unit :=
  modify (set_stream true) ;;
  ajax (PostStartInterview role).

(** The [catch] of [getUserMedia]. *)
Definition startSetup_denied : M unit :=
  console_error "Media error:" ;;
  showMessage (lit "Error accessing camera or microphone. Please ensure you have granted permissions.") error.

(** [target.push(...)] exists on arrays only. *)
Definition can_push (target : Value) : M unit :=
  match target with
  | VArr _ => skip
  | _ => throw TypeError
  end.

(** The response once questions have been pushed into its [question_list]. *)
Definition with_question_list (response : Value) (qs : list jsstring) : Value :=
  match response with
  | VObj props => VObj (with_prop "question_list" (VArr (map VStr qs)) props)
  | _ => response
  end.

(** The [success] callback of [/start-interview].  The questions the loop
    stores are those [numbered] lists, pushed in that order into the array
    [allQuestions] holds: the response's own when it sent one, so that
    [interviewData], the same object, shows them too.  [parseQuestionsText]
    is what [allQuestions] holds after the second test of its length. *)
Definition startSetup_success (response : Value) : M unit :=
  modify (set_interviewData (Some response)) ;;
  questionsText <- get_prop response "questions" ;;
  question_list <- get_prop response "question_list" ;;
  (* allQuestions = response.question_list || [] *)
  modify (set_allQuestions
            (if to_boolean question_list then question_list else VArr [])) ;;
  all <- gets (fun s => allQuestions (ses s)) ;;
  (if is_zero (length_of all) then
     (* questionsText.split('\n') *)
     text <- as_string questionsText ;;
     match numbered (questionLines text) with
     | [] => skip
     | (_ :: _) as pushed =>
         can_push all ;;
         if to_boolean question_list
         then modify (set_interviewData
                        (Some (with_question_list response pushed)))
         else skip
     end ;;
     modify (set_allQuestions (VArr (map VStr (parseQuestionsText text))))
   else skip) ;;
  displayQuestions ;;
  jq (AddClass "setup-step" "hidden") ;;
  jq (RemoveClass "questions-step" "hidden") ;;
  jq (RemoveClass ".step" "active") ;;
  jq (AddClass "step-1" "completed") ;;
  jq (AddClass "step-2" "active").

(** The [error] callback of [/start-interview]. *)
Definition startSetup_error : M unit :=
  console_error "Setup error:" ;;
  showMessage (lit "Error setting up interview. Please try again.") error.

(** *** Speech *)

Definition speakQuestion (questionText : jsstring) : M unit :=
  jq (SetText "speechBubble" questionText) ;;
  startSpeaking ;;
  cid <- gets (fun s => candidateId (ses s)) ;;
  ajax (PostSpeakQuestion questionText cid).

(** The rejection of [audioElement.play()]. *)
Definition speakQuestion_play_rejected : M unit :=
  console_error "Audio playback error:" ;;
  stopSpeaking.

(** The [success] callback of [/speak_question]. *)
Definition speakQuestion_success (data : Value) : M unit :=
  audio_url <- get_prop data "audio_url" ;;
  if to_boolean audio_url then
    (* audioElement.src = data.audio_url; audioElement.play() *)
    url <- str audio_url ;;
    modify (set_audioElement {| src := Some url; playing := true |})
  else
    stopSpeaking ;;
    showMessage (lit "Error: No audio URL received") error.

(** The [error] callback of [/speak_question]. *)
Definition speakQuestion_error : M unit :=
  console_error "TTS error:" ;;
  stopSpeaking ;;
  showMessage (lit "Error generating speech. Continuing with text only.") error.

(** The listener of the audio element's [ended] event. *)
Definition audio_ended : M unit :=
  modify (fun s => set_audioElement
                     {| src := src (audioElement (sp s)); playing := false |} s) ;;
  stopSpeaking.

(** [audioElement.pause()] *)
Definition audio_pause : M unit :=
  modify (fun s => set_audioElement
                     {| src := src (audioElement (sp s)); playing := false |} s).

(** *** Cheating detection *)

Definition startCheatingDetection : M unit :=
  h <- setInterval TabFocusCheck ;;
  modify (set_tabFocusInterval (Some h)).

Definition stopCheatingDetection : M unit :=
  h <- gets (fun s => tabFocusInterval (rec s)) ;;
  match h with
  | Some (S _ as h) =>
      clearInterval h ;;
      modify (set_tabFocusInterval None)
  | _ => skip
  end.

(** *** Recording *)

(** [new MediaRecorder(stream, {mimeType: ...})] *)
Definition new_MediaRecorder : M MediaRecorder :=
  ok <- gets (fun s => mimeSupported (br s)) ;;
  if ok then ret {| state := inactive; gathered := [] |}
  else throw NotSupportedError.

(** [mediaRecorder.start()] *)
Definition mr_start : M unit :=
  mr <- gets (fun s => mediaRecorder (rec s)) ;;
  match mr with
  | None => throw TypeError
  | Some r =>
      match state r with
      | inactive =>
          modify (set_mediaRecorder
                    (Some {| state := rs_recording; gathered := [] |}))
      | _ => throw InvalidStateError
      end
  end.

(** [mediaRecorder.stop()]: the recorder becomes inactive at once; the
    events [dataavailable] and [stop] are fired from a queued task. *)
Definition mr_stop : M unit :=
  mr <- gets (fun s => mediaRecorder (rec s)) ;;
  match mr with
  | None => throw TypeError
  | Some r =>
      match state r with
      | inactive => throw InvalidStateError
      | _ =>
          modify (set_mediaRecorder
                    (Some {| state := inactive; gathered := [] |})) ;;
          modify (fun s => set_tasks (tasks (br s) ++ [RecorderStopped (gathered r)]) s)
      end
  end.

Definition setupRecording : M unit :=
  st <- gets (fun s => stream (rec s)) ;;
  if negb st then
    showMessage (lit "No media stream available. Please refresh and try again.") error
  else
    try_catch
      (r <- new_MediaRecorder ;;
       modify (set_mediaRecorder (Some r)) ;;
       modify (set_recordedChunks []))
      (fun _ =>
         console_error "MediaRecorder error:" ;;
         showMessage (lit "Error setting up recording. Your browser may not support this feature.") error).

Definition startRecording : M unit :=
  mr <- gets (fun s => mediaRecorder (rec s)) ;;
  match mr with
  | None => showMessage (lit "Recording not set up") error
  | Some _ =>
      modify (set_recordedChunks []) ;;
      try_catch
        (mr_start ;;
         modify (set_recording true) ;;
         jq (SetText "recordingStatus" (lit "Recording")) ;;
         jq (AddClass "recordingStatus" "status-recording") ;;
         startCheatingDetection)
        (fun _ =>
           console_error "Recording start error:" ;;
           showMessage (lit "Error starting recording") error)
  end.

Definition is_inactive (r : MediaRecorder) : bool :=
  match state r with inactive => true | _ => false end.

Definition stopRecording : M unit :=
  mr <- gets (fun s => mediaRecorder (rec s)) ;;
  match mr with
  | Some r =>
      if negb (is_inactive r) then
        try_catch
          (mr_stop ;;
           modify (set_recording false) ;;
           jq (SetText "recordingStatus" []) ;;
           jq (RemoveClass "recordingStatus" "status-recording") ;;
           stopCheatingDetection)
          (fun _ =>
             console_error "Recording stop error:" ;;
             showMessage (lit "Error stopping recording") error)
      else skip
  | None => skip
  end.

Definition saveRecording : M unit :=
  chunks <- gets (fun s => recordedChunks (rec s)) ;;
  if List.length chunks =? 0 then
    showMessage (lit "No recording data available") error
  else
    try_catch
      (let blob : Blob := List.concat chunks in
       i <- gets (fun s => currentQuestionIndex (ses s)) ;;
       cid <- gets (fun s => candidateId (ses s)) ;;
       jq (RemoveClass "progressContainer" "hidden") ;;
       jq (SetWidth "progressBar" (lit "0%")) ;;
       jq (SetText "progressBar" (lit "0%")) ;;
       ajax (PostUploadRecording blob i cid))
      (fun _ =>
         console_error "Save recording error:" ;;
         showMessage (lit "Error processing recording") error).

(** [mediaRecorder.ondataavailable] *)
Definition ondataavailable (data : Blob) : M unit :=
  if 0 <? List.length data
  then modify (fun s => set_recordedChunks (recordedChunks (rec s) ++ [data]) s)
  else skip.

(** [mediaRecorder.onstop] *)
Definition onstop : M unit := saveRecording.

(** *** Results *)

(** The markup of one entry of [question_assessments]. *)
Definition question_evaluation (p : nat * Value) : M Html :=
  let (index, assessment) := p in
  q <- get_prop assessment "question" ;;
  q <- str q ;;
  a <- get_prop assessment "assessment" ;;
  a <- str a ;;
  sc <- get_prop assessment "score" ;;
  sc <- str sc ;;
  ret (QuestionEvaluation (index + 1) q a sc).

(** [data.k.map(x => `<li>${x}</li>`).join('')] under its heading. *)
Definition result_section (data : Value) (k title : string) : M Html :=
  v <- get_prop data k ;;
  items <- as_array v ;;
  items <- mapM str items ;;
  ret (ResultSection title items).

(** [!data || !data.overall_assessment || !data.question_assessments]:
    the properties are read of a truthy [data] only. *)
Definition invalid_result (data : Value) : bool :=
  negb (to_boolean data)
  || negb (to_boolean (prop data "overall_assessment"))
  || negb (to_boolean (prop data "question_assessments")).

Definition displayResults (data : Value) : M unit :=
  if invalid_result data then
    showMessage (lit "Error: Invalid result data received") error
  else
    jq (AddClass "interviewContainer" "hidden") ;;
    jq (RemoveClass "resultsContainer" "hidden") ;;
    overall_assessment <- get_prop data "overall_assessment" ;;
    overall_assessment <- str overall_assessment ;;
    overall_score <- get_prop data "overall_score" ;;
    overall_score <- str overall_score ;;
    let summary := ResultSummary overall_assessment overall_score in
    qa <- get_prop data "question_assessments" ;;
    entries <- as_array qa ;;
    evaluations <- mapM question_evaluation
                     (combine (seq 0 (List.length entries)) entries) ;;
    strengths <- result_section data "strengths" "Strengths" ;;
    areas <- result_section data "areas_for_improvement" "Areas for Improvement" ;;
    resources <- result_section data "recommended_resources" "Recommended Resources" ;;
    let resultsHTML :=
      [summary; BreakdownHeading] ++ evaluations
      ++ [strengths; areas; resources; DownloadButton] in
    jq (SetHtml "resultsContent" resultsHTML) ;;
    jq (BindClick "downloadPdfBtn").

(** *** PDF download *)

Definition downloadPdf : M unit :=
  busy <- gets (fun s => downloadingPdf (an s)) ;;
  if busy then skip
  else
    modify (set_downloadingPdf true) ;;
    jq (SetHtml "pdfDownloadStatus" [PdfGenerating]) ;;
    cid <- gets (fun s => candidateId (ses s)) ;;
    ajax (PostGeneratePdf cid).

(** The [success] callback of [/generate_pdf]. *)
Definition downloadPdf_success (response : Value) : M unit :=
  pdf_url <- get_prop response "pdf_url" ;;
  if to_boolean pdf_url then
    (* link.href = response.pdf_url; the link is added to the body, clicked
       and removed *)
    href <- str pdf_url ;;
    jq (ClickLink href (lit "Interview_Results.pdf")) ;;
    jq (SetHtml "pdfDownloadStatus" [PdfDownloaded]) ;;
    modify (set_downloadingPdf false)
  else
    jq (SetHtml "pdfDownloadStatus" [PdfNoUrl]) ;;
    modify (set_downloadingPdf false).

(** The [error] callback of [/generate_pdf]. *)
Definition downloadPdf_error : M unit :=
  console_error "PDF generation error:" ;;
  jq (SetHtml "pdfDownloadStatus" [PdfFailed]) ;;
  modify (set_downloadingPdf false).

(** *** Analysis *)

Definition analyzeInterviewResponses : M unit :=
  cid <- gets (fun s => candidateId (ses s)) ;;
  n <- gets (fun s => List.length (questions (ses s))) ;;
  ajax (PostAnalyzeInterview cid n).

(** The [success] callback of [/analyze_interview]. *)
Definition analyze_success (data : Value) : M unit :=
  modify (set_analyzingData false) ;;
  jq (SetWidth "progressBar" (lit "100%")) ;;
  jq (SetText "progressBar" (lit "Complete!")) ;;
  setTimeout HideProgress 1000 ;;
  displayResults data.

(** The [error] callback of [/analyze_interview]. *)
Definition analyze_error : M unit :=
  console_error "Analysis error:" ;;
  n <- gets (fun s => analysisRetryCount (an s)) ;;
  if n <? MAX_RETRY_ATTEMPTS then
    modify (set_analysisRetryCount (n + 1)) ;;
    n <- gets (fun s => analysisRetryCount (an s)) ;;
    showMessage (lit "Analysis failed. Retrying (" ++ of_nat n ++ lit "/"
                 ++ of_nat MAX_RETRY_ATTEMPTS ++ lit ")...") error ;;
    setTimeout RetryAnalysis 5000
  else
    modify (set_analyzingData false) ;;
    showMessage (lit "Failed to analyze interview after multiple attempts. Please try again later.") error ;;
    jq (AddClass "progressContainer" "hidden").

(** *** The interview *)

(** [questions[i].question] *)
Definition question_at (i : nat) : M jsstring :=
  qs <- gets (fun s => questions (ses s)) ;;
  match nth_error qs i with
  | Some q => ret (question q)
  | None => throw TypeError
  end.

Definition startInterview : M unit :=
  i <- gets (fun s => currentQuestionIndex (ses s)) ;;
  n <- gets (fun s => List.length (questions (ses s))) ;;
  if n <=? i then showMessage (lit "No more questions available") error
  else
    setupRecording ;;
    jq (SetDisabled "startBtn" true) ;;
    jq (SetDisabled "nextBtn" false) ;;
    jq (SetDisabled "stopBtn" false) ;;
    startRecording ;;
    q <- question_at i ;;
    speakQuestion q.

Definition stopInterview : M unit :=
  stopRecording ;;
  jq (SetDisabled "startBtn" true) ;;
  jq (SetDisabled "nextBtn" true) ;;
  jq (SetDisabled "stopBtn" true) ;;
  showMessage (lit "Analyzing interview responses...") info ;;
  jq (RemoveClass "progressContainer" "hidden") ;;
  jq (SetWidth "progressBar" (lit "0%")) ;;
  jq (SetText "progressBar" (lit "Analyzing...")) ;;
  audio_pause ;;
  stopSpeaking ;;
  modify (set_analyzingData true) ;;
  modify (set_analysisRetryCount 0) ;;
  _ <- setInterval AnalysisProgress ;;
  analyzeInterviewResponses.

Definition nextQuestion : M unit :=
  stopRecording ;;
  modify (fun s => set_currentQuestionIndex (currentQuestionIndex (ses s) + 1) s) ;;
  i <- gets (fun s => currentQuestionIndex (ses s)) ;;
  n <- gets (fun s => List.length (questions (ses s))) ;;
  if n <=? i then stopInterview
  else
    q <- question_at i ;;
    jq (SetText "currentQuestion" q) ;;
    setTimeout StartNextQuestion 1000.

(** The callback [nextQuestion] gives to [setTimeout]. *)
Definition nextQuestion_timeout : M unit :=
  setupRecording ;;
  startRecording ;;
  i <- gets (fun s => currentQuestionIndex (ses s)) ;;
  q <- question_at i ;;
  speakQuestion q.

(** ** Events

    What happens to the page: the user's clicks, the answers to its
    requests, and what the browser's schedulers run. *)

Inductive Event :=
| ClickStartSetup (role : jsstring)
| MediaGranted (role : jsstring)
| MediaDenied
| StartInterviewAnswered (response : option Value)
| ClickStart
| ClickNext
| ClickStop
| SpeakAnswered (data : option Value)
| PlayRejected
| AudioEnded
| MediaGathered (data : Blob)
| RecorderEnds
| RunTask
| TimerFires (i : nat)
| AnalyzeAnswered (data : option Value)
| ClickDownloadPdf
| PdfAnswered (response : option Value)
| AnimationFrame
| WindowResized (rect : float * float)
| ImageLoaded
| ImageFailed.

(** The recorder gathers media while it is recording. *)
Definition media_gathered (data : Blob) : M unit :=
  mr <- gets (fun s => mediaRecorder (rec s)) ;;
  match mr with
  | Some {| state := rs_recording; gathered := g |} =>
      modify (set_mediaRecorder
                (Some {| state := rs_recording; gathered := g ++ data |}))
  | _ => skip
  end.

(** The recorder ends by itself, its tracks having all ended or the
    recording having failed: it becomes inactive and fires [dataavailable],
    with what it has gathered, and [stop]. *)
Definition recorder_ends : M unit :=
  mr <- gets (fun s => mediaRecorder (rec s)) ;;
  match mr with
  | Some {| state := rs_recording; gathered := g |} =>
      modify (set_mediaRecorder (Some {| state := inactive; gathered := [] |})) ;;
      ondataavailable g ;;
      onstop
  | _ => skip
  end.

(** The browser runs the callbacks requested for this frame, in the order
    of the requests; what they request runs in the next frame. *)
Fixpoint run_frame (cbs : list (nat * DrawMouth)) : M unit :=
  match cbs with
  | [] => skip
  | (_, d) :: rest => drawMouth d ;; run_frame rest
  end.

Definition animation_frame : M unit :=
  cbs <- gets (fun s => frameRequests (br s)) ;;
  modify (set_frameRequests []) ;;
  run_frame cbs.

(** The [resize] event of [window]: every listener runs. *)
Fixpoint run_listeners (ls : list nat) : M unit :=
  match ls with
  | [] => skip
  | c :: rest => setCanvasDimensions c ;; run_listeners rest
  end.

Definition window_resized (rect : float * float) : M unit :=
  modify (set_containerRect rect) ;;
  ls <- gets (fun s => resizeListeners (br s)) ;;
  run_listeners ls.

(** The oldest queued task. *)
Definition run_task : M unit :=
  ts <- gets (fun s => tasks (br s)) ;;
  match ts with
  | [] => skip
  | RecorderStopped data :: rest =>
      modify (set_tasks rest) ;;
      ondataavailable data ;;
      onstop
  end.

Definition timer_callback (cb : TimerCb) : M unit :=
  match cb with
  | RemoveMessage _ => skip
  | StartNextQuestion => nextQuestion_timeout
  | RetryAnalysis => analyzeInterviewResponses
  | HideProgress => jq (AddClass "progressContainer" "hidden")
  end.

Fixpoint remove_nth {A} (i : nat) (l : list A) : list A :=
  match i, l with
  | _, [] => []
  | O, _ :: rest => rest
  | S j, x :: rest => x :: remove_nth j rest
  end.

(** The [i]-th pending timeout expires: it is pending no more and its
    callback runs. *)
Definition timer_fires (i : nat) : M unit :=
  ts <- gets (fun s => timers (br s)) ;;
  match nth_error ts i with
  | None => skip
  | Some (_, cb) =>
      modify (set_timers (remove_nth i ts)) ;;
      timer_callback cb
  end.

(** [avatarImage.onload] and [avatarImage.onerror]. *)
Definition avatar_image_ready : M unit :=
  c <- setupAvatarAnimations ;;
  modify (set_expressionCanvas (Some c)).

Definition handler (e : Event) : M unit :=
  match e with
  | ClickStartSetup role => startSetup role
  | MediaGranted role => startSetup_granted role
  | MediaDenied => startSetup_denied
  | StartInterviewAnswered (Some r) => startSetup_success r
  | StartInterviewAnswered None => startSetup_error
  | ClickStart => startInterview
  | ClickNext => nextQuestion
  | ClickStop => stopInterview
  | SpeakAnswered (Some data) => speakQuestion_success data
  | SpeakAnswered None => speakQuestion_error
  | PlayRejected => speakQuestion_play_rejected
  | AudioEnded => audio_ended
  | MediaGathered data => media_gathered data
  | RecorderEnds => recorder_ends
  | RunTask => run_task
  | TimerFires i => timer_fires i
  | AnalyzeAnswered (Some data) => analyze_success data
  | AnalyzeAnswered None => analyze_error
  | ClickDownloadPdf => downloadPdf
  | PdfAnswered (Some response) => downloadPdf_success response
  | PdfAnswered None => downloadPdf_error
  | AnimationFrame => animation_frame
  | WindowResized rect => window_resized rect
  | ImageLoaded => avatar_image_ready
  | ImageFailed => avatar_image_ready
  end.

(** One turn of the event loop: the handler runs to its end; an exception
    it does not catch ends it and is reported. *)
Definition step (s : State) (e : Event) : State :=
  match handler e s with
  | Ok _ s' => s'
  | Thrown x s' => set_uncaught (uncaught (br s') ++ [x]) s'
  end.

Definition run (s : State) (es : list Event) : State := fold_left step es s.

(** The page as it is loaded: the script's initial values. *)
Definition loaded (cid : jsstring) (rect : float * float)
  (sin : float -> float) (mime : bool) : State :=
  {| rec := {| mediaRecorder := None; recordedChunks := []; recording := false;
               stream := false; tabFocusInterval := None |};
     ses := {| currentQuestionIndex := 0; questions := [];
               allQuestions := VArr [];
               interviewData := None; candidateId := cid |};
     sp := {| isSpeaking := false;
              audioElement := {| src := None; playing := false |};
              expressionCanvas := None; animationFrame := None |};
     an := {| analyzingData := false; analysisRetryCount := 0;
              downloadingPdf := false |};
     page := {| dom := []; messages := []; console := []; canvases := [];
                mouthAnimation := true; drawing := []; containerRect := rect |};
     br := {| resizeListeners := []; frameRequests := []; timers := [];
              intervals := []; tasks := []; sent := []; nextId := 0;
              uncaught := []; Math_sin := sin; mimeSupported := mime |} |}.

(** ** Vocabulary of the properties *)

(** [pieces.join(sep)] *)
Fixpoint join (sep : jsstring) (pieces : list jsstring) : jsstring :=
  match pieces with
  | [] => []
  | [p] => p
  | p :: rest => p ++ sep ++ join sep rest
  end.

(** A line with the lines that follow it appended, each after a space. *)
Definition accumulate (line : jsstring) (rest : list jsstring) : jsstring :=
  fold_left (fun cur l => cur ++ SP :: l) rest line.

(** A list of lines that is empty or begins with a numbered line. *)
Definition at_question (lines : list jsstring) : Prop :=
  match lines with
  | [] => True
  | l :: _ => numbered_re l = true
  end.

(** A body that leaves a part [f] of the state as it found it, whether it
    returns or throws. *)
Definition keeps {A B} (f : State -> B) (m : M A) : Prop :=
  forall s, f (state_of (m s)) = f s.

(** A body that never throws. *)
Definition safe {A} (m : M A) : Prop := forall s, returned (m s) = true.

(** A loaded page for the examples.  None of them depends on the candidate
    id, the size of the avatar or the engine's sine, for which the identity
    stands in. *)
Definition example_page : State :=
  loaded (lit "candidate_1") (400, 450)%float (fun x => x) true.

(** *** The analysis *)

Definition is_analyze (r : Request) : bool :=
  match r with PostAnalyzeInterview _ _ => true | _ => false end.

(** How many analysis requests have been sent. *)
Definition analysis_requests (s : State) : nat :=
  List.length (filter is_analyze (sent (br s))).

Definition is_retry (t : nat * TimerCb) : bool :=
  match snd t with RetryAnalysis => true | _ => false end.

(** The pending timeouts that will send the analysis request again. *)
Definition pending_retries (s : State) : list (nat * TimerCb) :=
  filter is_retry (timers (br s)).

Fixpoint retry_index (ts : list (nat * TimerCb)) : option nat :=
  match ts with
  | [] => None
  | t :: rest =>
      if is_retry t then Some 0
      else match retry_index rest with Some i => Some (S i) | None => None end
  end.

(** The delay before a retry passes, when a retry is pending. *)
Definition await_retry (s : State) : State :=
  match retry_index (timers (br s)) with
  | Some i => step s (TimerFires i)
  | None => s
  end.

(** The request in flight fails, and the retry it leads to is sent. *)
Definition failed_attempt (s : State) : State :=
  await_retry (step s (AnalyzeAnswered None)).

Fixpoint fail_times (n : nat) (s : State) : State :=
  match n with
  | O => s
  | S k => failed_attempt (fail_times k s)
  end.

Definition give_up_message : jsstring * MsgType :=
  (lit "Failed to analyze interview after multiple attempts. Please try again later.",
   error).

Definition retry_message (n : nat) : jsstring * MsgType :=
  (lit "Analysis failed. Retrying (" ++ of_nat n ++ lit "/3)...", error).

Definition is_give_up (m : jsstring * MsgType) : bool :=
  jsstring_eqb (fst m) (fst give_up_message).

(** The newest status message. *)
Definition newest (s : State) : option (jsstring * MsgType) :=
  match rev (messages (page s)) with
  | m :: _ => Some m
  | [] => None
  end.

(** *** The avatar *)

(** What may happen to the animation: a call of [startSpeaking], a call of
    [stopSpeaking], or the browser's next frame. *)
Inductive AvatarCall := CallStart | CallStop | Frame.

Definition avatar_call (c : AvatarCall) : M unit :=
  match c with
  | CallStart => startSpeaking
  | CallStop => stopSpeaking
  | Frame => animation_frame
  end.

Definition after_call (s : State) (c : AvatarCall) : State :=
  state_of (avatar_call c s).

Definition after_calls (s : State) (cs : list AvatarCall) : State :=
  fold_left after_call cs s.

(** The draw loops alive: each is a callback waiting for the next frame. *)
Definition live_loops (s : State) : nat := List.length (frameRequests (br s)).

Definition is_start (c : AvatarCall) : bool :=
  match c with CallStart => true | _ => false end.

Definition is_stop (c : AvatarCall) : bool :=
  match c with CallStop => true | _ => false end.

(** One loop is alive and [animationFrame] holds its handle. *)
Definition one_loop (s : State) : Prop :=
  isSpeaking (sp s) = true
  /\ exists h d, frameRequests (br s) = [(S h, d)]
                 /\ animationFrame (sp s) = Some (S h).

(** [n] calls of [setupAvatarAnimations], one after the other. *)
Fixpoint setup_times (n : nat) (s : State) : State :=
  match n with
  | O => s
  | S k => state_of (setupAvatarAnimations (setup_times k s))
  end.

Definition surfaces (s : State) : nat := List.length (canvases (page s)).

Definition resize_listeners (s : State) : nat :=
  List.length (resizeListeners (br s)).

Definition is_set_dimensions (op : CanvasOp) : bool :=
  match op with SetDimensions _ _ _ => true | _ => false end.

(** How often the dimensions of a canvas have been set. *)
Definition dimension_settings (s : State) : nat :=
  List.length (filter is_set_dimensions (drawing (page s))).

(** *** The recordings *)

Definition is_upload (r : Request) : bool :=
  match r with PostUploadRecording _ _ _ => true | _ => false end.

(** The recordings uploaded, oldest first. *)
Definition uploads (s : State) : list Request :=
  filter is_upload (sent (br s)).


(** No recorder exists, or the recorder is inactive. *)
Definition recorder_idle (r : Recording) : Prop :=
  match mediaRecorder r with
  | None => True
  | Some mr => state mr = inactive
  end.

(** What recording and uploading rest on: the recorder's variables, the
    session's, the queued recorder events and the recordings uploaded. *)
Definition recorder_view (s : State)
  : Recording * Session * list Task * list Request :=
  (rec s, ses s, tasks (br s), uploads s).

(** A body that leaves the part [f] of the state alone when started where
    [P] holds of that part. *)
Definition keeps_if {A B} (f : State -> B) (P : B -> Prop) (m : M A) : Prop :=
  forall s, P (f s) -> f (state_of (m s)) = f s.

(** [n] calls of [stopInterview], one after the other. *)
Fixpoint stop_times (n : nat) (s : State) : State :=
  match n with
  | O => s
  | S k => state_of (stopInterview (stop_times k s))
  end.

(** *** The results *)

Definition op_target (op : DomOp) : string :=
  match op with
  | AddClass id _ | RemoveClass id _ | SetText id _ | SetDisabled id _
  | SetWidth id _ | SetHtml id _ | BindClick id => id
  | ClickLink _ _ => "body"
  end.

(** The changes made to the results container and what it holds. *)
Definition results_mutations (s : State) : list DomOp :=
  filter (fun op => String.eqb (op_target op) "resultsContainer"
                    || String.eqb (op_target op) "resultsContent"
                    || String.eqb (op_target op) "downloadPdfBtn")
         (dom (page s)).

Definition invalid_result_message : jsstring * MsgType :=
  (lit "Error: Invalid result data received", error).

(** A result with its assessments and score but without [strengths]. *)
Definition result_without_strengths : Value :=
  VObj [("overall_assessment"%string, VStr (lit "Good"));
        ("overall_score"%string, VNum (lit "7"));
        ("question_assessments"%string, VArr [])].

(** A result without [overall_assessment]. *)
Definition result_without_overall_assessment : Value :=
  VObj [("overall_score"%string, VNum (lit "7"));
        ("question_assessments"%string, VArr []);
        ("strengths"%string, VArr []);
        ("areas_for_improvement"%string, VArr []);
        ("recommended_resources"%string, VArr [])].

(** *** The page as it is shipped *)

Definition is_next_timer (t : nat * TimerCb) : bool :=
  match snd t with StartNextQuestion => true | _ => false end.

(** The pending timeouts that will start the recording of a next
    question. *)
Definition next_timers (s : State) : list (nat * TimerCb) :=
  filter is_next_timer (timers (br s)).

(** What a recording starts from and leaves behind: the questions, the
    recorder, its queued events, the uploads, and the recordings about to
    start. *)
Definition recording_view (s : State)
  : list QuestionObj * option MediaRecorder * list Task * list Request
    * list (nat * TimerCb) :=
  (questions (ses s), mediaRecorder (rec s), tasks (br s), uploads s,
   next_timers s).

(** No question is held, no recorder exists, none of its events is queued
    and no recording is about to start. *)
Definition nothing_to_record
  (v : list QuestionObj * option MediaRecorder * list Task * list Request
       * list (nat * TimerCb)) : Prop :=
  fst (fst (fst (fst v))) = []
  /\ snd (fst (fst (fst v))) = None
  /\ snd (fst (fst v)) = []
  /\ snd v = [].

(** *** The PDF download *)

Definition is_pdf_request (r : Request) : bool :=
  match r with PostGeneratePdf _ => true | _ => false end.

(** How many PDF requests have been sent. *)
Definition pdf_requests (s : State) : nat :=
  List.length (filter is_pdf_request (sent (br s))).

(** ** Further vocabulary and functions of the script *)

(** *** The parser's questions *)

(** A string that does not begin with white space. *)
Definition starts_clean (u : jsstring) : bool :=
  match u with
  | [] => true
  | c :: _ => negb (is_ws c)
  end.

(** A string with no white space at either end. *)
Definition trimmed (u : jsstring) : bool :=
  starts_clean u && starts_clean (rev u).

(** How many of the lines are numbered. *)
Definition count_numbered (lines : list jsstring) : nat :=
  List.length (filter numbered_re lines).

(** The line that opens the text without a number, if there is one: the loop
    of [startSetup] stores it, with the unnumbered lines after it, as a
    question of its own. *)
Definition preamble (lines : list jsstring) : nat :=
  match lines with
  | l :: _ => if numbered_re l then 0 else 1
  | [] => 0
  end.

(** A line of a well-formed list: numbered, trimmed, and on one line. *)
Definition list_line (l : jsstring) : bool :=
  numbered_re l && trimmed l && negb (existsb (N.eqb LF) l).

(** *** A recording from its start to its upload *)

(** What [startInterview] and the timeout of [nextQuestion] do to record. *)
Definition begin_recording : M unit := setupRecording ;; startRecording.

(** The recorder gathers the pieces [ds], one after the other. *)
Definition gathering (ds : list Blob) : list Event := map MediaGathered ds.

(** Every interval of the page has a handle the browser has given out. *)
Definition handles_given (s : State) : Prop :=
  Forall (fun p => fst p <= nextId (br s)) (intervals (br s)).

Definition no_data_message : jsstring * MsgType :=
  (lit "No recording data available", error).

(** The page with the camera and the microphone granted. *)
Definition granted_page : State := set_stream true example_page.

(** *** The interview with questions to ask *)

(** A recorder exists only once the stream is granted and the format
    supported: [setupRecording] makes no recorder otherwise. *)
Definition recorder_needs_stream (s : State) : Prop :=
  stream (rec s) && mimeSupported (br s) = false ->
  mediaRecorder (rec s) = None.

(** What [setupRecording] says when it cannot make a recorder. *)
Definition setup_failure (stream : bool) : jsstring * MsgType :=
  if stream
  then (lit "Error setting up recording. Your browser may not support this feature.", error)
  else (lit "No media stream available. Please refresh and try again.", error).

Definition not_set_up_message : jsstring * MsgType :=
  (lit "Recording not set up", error).

(** The page with [qs] as its questions. *)
Definition asking (qs : list jsstring) (s : State) : State :=
  set_questions (map (fun q => {| question := q |}) qs) s.

Definition two_questions : list jsstring :=
  [lit "Tell me about yourself"; lit "Why this role?"].

(** The events whose handlers end normally in every state. *)
Definition quiet (e : Event) : bool :=
  match e with
  | StartInterviewAnswered (Some _) | SpeakAnswered (Some _)
  | AnalyzeAnswered (Some _) | PdfAnswered (Some _) | TimerFires _ => false
  | _ => true
  end.

(** *** What the events leave alone *)

(** What no function of the script assigns: the questions the interview
    asks, the candidate's id, and what the browser supports. *)
Definition constants (s : State) : list QuestionObj * jsstring * bool :=
  (questions (ses s), candidateId (ses s), mimeSupported (br s)).

(** The constants and the exceptions reported so far. *)
Definition fixed (s : State)
  : list QuestionObj * jsstring * bool * list exn :=
  (constants s, uncaught (br s)).

(** *** The recording flag *)

(** The variables the recording rests on. *)
Definition recorder_vars (s : State)
  : option MediaRecorder * bool * bool * option nat * bool :=
  (mediaRecorder (rec s), recording (rec s), stream (rec s),
   tabFocusInterval (rec s), mimeSupported (br s)).

Definition is_recording (mr : option MediaRecorder) : bool :=
  match mr with
  | Some {| state := rs_recording |} => true
  | _ => false
  end.

(** The flag [recording] is up, and [tabFocusInterval] holds a handle,
    exactly while the recorder records; and a recorder exists only with a
    stream and a supported format. *)
Definition agrees (v : option MediaRecorder * bool * bool * option nat * bool)
  : bool :=
  let '(mr, recg, st, tfi, mi) := v in
  match mr, tfi with
  | None, None => negb recg
  | Some {| state := inactive |}, None => negb recg && st && mi
  | Some {| state := rs_recording |}, Some (S _) => recg && st && mi
  | _, _ => false
  end.

Definition flag_agrees (s : State) : bool := agrees (recorder_vars s).

(** The same, but for a recorder that has ended by itself: [recording] and
    [tabFocusInterval] are then as they were while it recorded. *)
Definition covers (v : option MediaRecorder * bool * bool * option nat * bool)
  : bool :=
  let '(mr, recg, st, tfi, mi) := v in
  match mr, tfi with
  | None, None => negb recg
  | Some {| state := inactive |}, None => negb recg && st && mi
  | Some {| state := inactive |}, Some (S _) => recg && st && mi
  | Some {| state := rs_recording |}, Some (S _) => recg && st && mi
  | _, _ => false
  end.

Definition flag_covers (s : State) : bool := covers (recorder_vars s).

(** The events in which the recorder does not end by itself. *)
Definition scripted (e : Event) : bool :=
  match e with RecorderEnds => false | _ => true end.

(** The events whose handlers leave the variables of the recording
    alone. *)
Definition calm (e : Event) : bool :=
  match e with
  | ClickStart | ClickNext | ClickStop | MediaGranted _ | MediaGathered _
  | RecorderEnds | TimerFires _ => false
  | _ => true
  end.

(** A body that keeps a property of the state, whether it returns or
    throws. *)
Definition preserves {A} (P : State -> Prop) (m : M A) : Prop :=
  forall s, P s -> P (state_of (m s)).

(** *** Cheating detection: the two observers

    The listener of [visibilitychange] set at page load and the callback
    [startCheatingDetection] gives to [setInterval] read [recording] and
    post a report; neither writes a variable of the script.  Each is given
    here with the report it posts, if any (the time stamp left out). *)

Inductive Report :=
| LogTabSwitch (candidate_id : jsstring)
| LogCheating (candidate_id : jsstring) (question_index : nat).

(** The listener of [visibilitychange]; [hidden] is [document.hidden]. *)
Definition visibilitychange (hidden : bool) : M (option Report) :=
  recording <- gets (fun s => recording (rec s)) ;;
  if hidden && recording then
    cid <- gets (fun s => candidateId (ses s)) ;;
    ret (Some (LogTabSwitch cid))
  else ret None.

(** The callback of [tabFocusInterval]; [focus] is [document.hasFocus()]. *)
Definition tabFocusCheck (focus : bool) : M (option Report) :=
  recording <- gets (fun s => recording (rec s)) ;;
  if negb focus && recording then
    cid <- gets (fun s => candidateId (ses s)) ;;
    i <- gets (fun s => currentQuestionIndex (ses s)) ;;
    ret (Some (LogCheating cid i))
  else ret None.

(** The focus checks that are pending. *)
Definition is_focus_check (p : nat * IntervalCb) : bool :=
  match snd p with TabFocusCheck => true | _ => false end.

Definition focus_checks (s : State) : nat :=
  List.length (filter is_focus_check (intervals (br s))).

(** *** Results that can be shown *)

(** A value whose properties can be read. *)
Definition readable (v : Value) : bool :=
  match v with
  | VUndefined | VNull => false
  | _ => true
  end.

Definition is_array (v : Value) : bool :=
  match v with VArr _ => true | _ => false end.

Definition items_of (v : Value) : list Value :=
  match v with VArr items => items | _ => [] end.

(** A value ToString returns for, and what it returns. *)
Definition stringable (v : Value) : bool :=
  match to_string v with Some _ => true | None => false end.

Definition text_of (v : Value) : jsstring :=
  match to_string v with Some s => s | None => [] end.

(** An assessment [displayResults] can write: its properties can be read
    and the three it shows have a text. *)
Definition entry_ok (a : Value) : bool :=
  readable a
  && stringable (prop a "question")
  && stringable (prop a "assessment")
  && stringable (prop a "score").

(** A list [displayResults] can write: an array of values with a text. *)
Definition list_ok (v : Value) : bool :=
  is_array v && forallb stringable (items_of v).

(** What [displayResults] needs of a result it has not refused: the two
    values of the summary have a text, the assessments are an array of
    entries it can write, and the strengths, the areas for improvement and
    the resources are lists it can write. *)
Definition renderable (data : Value) : bool :=
  stringable (prop data "overall_assessment")
  && stringable (prop data "overall_score")
  && is_array (prop data "question_assessments")
  && forallb entry_ok (items_of (prop data "question_assessments"))
  && list_ok (prop data "strengths")
  && list_ok (prop data "areas_for_improvement")
  && list_ok (prop data "recommended_resources").

(** The markup of the entries from number [i + 1] on. *)
Fixpoint evaluations_from (i : nat) (entries : list Value) : list Html :=
  match entries with
  | [] => []
  | a :: rest =>
      QuestionEvaluation (i + 1) (text_of (prop a "question"))
        (text_of (prop a "assessment")) (text_of (prop a "score"))
      :: evaluations_from (S i) rest
  end.

Definition section_of (data : Value) (k title : string) : Html :=
  ResultSection title (map text_of (items_of (prop data k))).

(** The page of results. *)
Definition results_html (data : Value) : list Html :=
  [ResultSummary (text_of (prop data "overall_assessment"))
     (text_of (prop data "overall_score"));
   BreakdownHeading]
  ++ evaluations_from 0 (items_of (prop data "question_assessments"))
  ++ [section_of data "strengths" "Strengths";
      section_of data "areas_for_improvement" "Areas for Improvement";
      section_of data "recommended_resources" "Recommended Resources";
      DownloadButton].

(** A result with one assessment. *)
Definition sample_result : Value :=
  VObj [("overall_assessment", VStr (lit "Good"));
        ("overall_score", VNum (lit "7"));
        ("question_assessments",
         VArr [VObj [("question", VStr (lit "Q"));
                     ("assessment", VStr (lit "Clear"));
                     ("score", VNum (lit "7"))]]);
        ("strengths", VArr [VStr (lit "Clarity")]);
        ("areas_for_improvement", VArr []);
        ("recommended_resources", VArr [])]%string.

(** A result whose summary holds an object with a [toString] of its own. *)
Definition result_without_text : Value :=
  VObj [("overall_assessment", VObj [("toString", VNum (lit "1"))]);
        ("overall_score", VNum (lit "7"));
        ("question_assessments", VArr []);
        ("strengths", VArr []);
        ("areas_for_improvement", VArr []);
        ("recommended_resources", VArr [])]%string.

(** *** The answer of an analysis *)

(** A result that [displayResults] neither refuses nor can render. *)
Definition breaks_display (data : Value) : bool :=
  negb (invalid_result data || renderable data).

(** *** The answer to a PDF request *)

(** The answers [downloadPdf]'s success callback ends normally on: their
    properties can be read, and the locator, if there is one, has a text to
    give to [link.href]. *)
Definition pdf_unlocks (response : Value) : bool :=
  readable response
  && (negb (to_boolean (prop response "pdf_url"))
      || stringable (prop response "pdf_url")).

(** An answer whose locator is an object with a [toString] of its own. *)
Definition pdf_without_text : Value :=
  VObj [("pdf_url"%string, VObj [("toString"%string, VNum (lit "1"))])].

(** *** The list shown after the setup *)

(** [response.question_list || []] *)
Definition wanted_list (response : Value) : Value :=
  if to_boolean (prop response "question_list")
  then prop response "question_list"
  else VArr [].

(** Whether the callback turns to the text: [allQuestions.length === 0]. *)
Definition setup_parses (response : Value) : bool :=
  is_zero (length_of (wanted_list response)).

(** The text the parser reads, when the response holds one. *)
Definition questions_text (response : Value) : option jsstring :=
  match prop response "questions" with
  | VStr text => Some text
  | _ => None
  end.

(** The responses the callback ends normally on: an object, or any other
    value but [null] and [undefined]; when it turns to the text, a string
    to split, and an array to push into if the parser finds a question;
    when it does not, an array of values with a text. *)
Definition setup_ok (response : Value) : bool :=
  readable response
  && if setup_parses response
     then match questions_text response with
          | Some text =>
              match numbered (questionLines text) with
              | [] => true
              | _ :: _ => is_array (wanted_list response)
              end
          | None => false
          end
     else list_ok (wanted_list response).

(** What [allQuestions] holds after the callback. *)
Definition received_questions (response : Value) : Value :=
  if setup_parses response
  then match questions_text response with
       | Some text => VArr (map VStr (parseQuestionsText text))
       | None => wanted_list response
       end
  else wanted_list response.

(** What [interviewData] holds after the callback: the response, with the
    questions pushed into its own list, if any were. *)
Definition kept_response (response : Value) : Value :=
  if setup_parses response && to_boolean (prop response "question_list")
  then match questions_text response with
       | Some text =>
           match numbered (questionLines text) with
           | [] => response
           | (_ :: _) as pushed => with_question_list response pushed
           end
       | None => response
       end
  else response.

(** A response with the text of two questions and an empty list. *)
Definition two_question_response : Value :=
  VObj [("questions"%string,
         VStr (lit "1. Tell me about yourself" ++ LF
                 :: lit "2. Describe a challenge you solved"));
        ("question_list"%string, VArr [])].

Definition setup_done : list DomOp :=
  [AddClass "setup-step" "hidden"; RemoveClass "questions-step" "hidden";
   RemoveClass ".step" "active"; AddClass "step-1" "completed";
   AddClass "step-2" "active"].

(** *** From one question to the next *)

(** The events [stopRecording] queues: those of a recorder that records. *)
Definition stop_task (s : State) : list Task :=
  match mediaRecorder (rec s) with
  | Some {| state := rs_recording; gathered := g |} => [RecorderStopped g]
  | _ => []
  end.

(** What [ondataavailable] leaves in [recordedChunks] when the recorder
    hands over [g]. *)
Definition chunks_with (chunks : list Blob) (g : Blob) : list Blob :=
  chunks ++ (if 0 <? List.length g then [g] else []).

(** What [saveRecording] uploads of [chunks] with the index [i]. *)
Definition upload_of (chunks : list Blob) (i : nat) (cid : jsstring)
  : list Request :=
  match chunks with
  | [] => []
  | _ :: _ => [PostUploadRecording (List.concat chunks) i cid]
  end.

(** The upload of the recording a click on the next button stops: the
    index is the one [nextQuestion] has advanced to. *)
Definition next_upload (s : State) : list Request :=
  match mediaRecorder (rec s) with
  | Some {| state := rs_recording; gathered := g |} =>
      upload_of (chunks_with (recordedChunks (rec s)) g)
        (currentQuestionIndex (ses s) + 1) (candidateId (ses s))
  | _ => []
  end.


Unset Implicit Arguments.

(** ** Properties of the question parser *)

Lemma split_go_skip (sep pre cur rest : jsstring) :
  split_go sep (List.length pre) cur (pre ++ rest) = split_go sep 0 cur rest.
Proof.
  revert cur; induction pre as [|c pre IH]; intros cur; simpl.
  - destruct rest; reflexivity.
  - apply IH.
Qed.

Lemma is_prefix_app (p s : jsstring) :
  is_prefix p s = true -> exists rest, s = p ++ rest.
Proof.
  revert s; induction p as [|a p IH]; intros s H.
  - exists s; reflexivity.
  - destruct s as [|b s]; [discriminate|].
    simpl in H. apply andb_prop in H as [Hab Hp].
    apply N.eqb_eq in Hab; subst b.
    destruct (IH _ Hp) as [rest ->]. exists rest; reflexivity.
Qed.

Lemma split_go_not_nil (sep : jsstring) (k : nat) (cur s : jsstring) :
  split_go sep k cur s <> [].
Proof.
  revert k cur; induction s as [|c s IH]; intros k cur; simpl.
  - discriminate.
  - destruct k; [|apply IH].
    destruct (is_prefix sep (c :: s)); [discriminate|apply IH].
Qed.

Lemma join_cons (sep p : jsstring) (ps : list jsstring) :
  ps <> [] -> join sep (p :: ps) = p ++ sep ++ join sep ps.
Proof. destruct ps; [congruence|reflexivity]. Qed.

(** Joining the pieces with the separator gives the string back. *)
Lemma split_go_join (sep : jsstring) (n : nat) :
  sep <> [] ->
  forall s cur, List.length s <= n ->
    join sep (split_go sep 0 cur s) = rev cur ++ s.
Proof.
  intros Hsep; induction n as [|n IH]; intros s cur Hn.
  - destruct s; [|simpl in Hn; lia]. simpl. now rewrite app_nil_r.
  - destruct s as [|c s]; [simpl; now rewrite app_nil_r|].
    cbn [split_go].
    destruct (is_prefix sep (c :: s)) eqn:Hp.
    + destruct (is_prefix_app _ _ Hp) as [rest Hrest].
      destruct sep as [|a sep']; [congruence|].
      simpl in Hrest. injection Hrest as Hc Hs. subst c s.
      replace (List.length (a :: sep') - 1) with (List.length sep')
        by (simpl; lia).
      rewrite split_go_skip.
      rewrite join_cons by apply split_go_not_nil.
      rewrite IH.
      * reflexivity.
      * simpl in Hn. rewrite length_app in Hn. lia.
    + rewrite IH by (simpl in Hn; lia).
      simpl. now rewrite <- app_assoc.
Qed.

Lemma split_join (sep s : jsstring) : sep <> [] -> join sep (split sep s) = s.
Proof.
  intros H. unfold split.
  now rewrite (split_go_join sep (List.length s)) by auto.
Qed.



Lemma numbered_re_truthy (l : jsstring) : numbered_re l = true -> truthy l = true.
Proof. destruct l; [discriminate|reflexivity]. Qed.

(** The loop only appends to [allQuestions]. *)
Lemma numbered_from_acc (lines : list jsstring) :
  forall acc cur,
    numbered_from (acc, cur) lines = acc ++ numbered_from ([], cur) lines.
Proof.
  unfold numbered_from.
  induction lines as [|l lines IH]; intros acc cur.
  - simpl. destruct (truthy cur); [reflexivity|now rewrite app_nil_r].
  - cbn [fold_left parse_step].
    destruct (numbered_re l), (truthy cur).
    + rewrite IH, (IH [trim cur]). now rewrite app_assoc.
    + apply IH.
    + apply IH.
    + apply IH.
Qed.

(** Lines that are not numbered are appended to [currentQuestion]. *)
Lemma fold_unnumbered (rest : list jsstring) :
  Forall (fun l => numbered_re l = false) rest ->
  forall acc cur,
    fold_left parse_step rest (acc, cur) = (acc, accumulate cur rest).
Proof.
  unfold accumulate.
  induction 1 as [|l rest Hl _ IH]; intros acc cur; [reflexivity|].
  cbn [fold_left parse_step]. rewrite Hl. apply IH.
Qed.

Lemma accumulate_truthy (rest : list jsstring) :
  forall cur, truthy cur = true -> truthy (accumulate cur rest) = true.
Proof.
  unfold accumulate.
  induction rest as [|l rest IH]; intros cur H; [exact H|].
  simpl. apply IH. destruct cur; [discriminate|reflexivity].
Qed.

(** A numbered line closes the question before it and opens its own. *)
Lemma numbered_from_question (l : jsstring) (lines : list jsstring) :
  numbered_re l = true ->
  forall acc cur,
    numbered_from (acc, cur) (l :: lines)
    = parse_flush (acc, cur) ++ numbered_from ([], l) lines.
Proof.
  intros Hl acc cur. unfold numbered_from at 1.
  cbn [fold_left parse_step]. rewrite Hl.
  fold (numbered_from ((if truthy cur then acc ++ [trim cur] else acc), l) lines).
  now rewrite numbered_from_acc.
Qed.

Lemma numbered_at_question (tail : list jsstring) :
  at_question tail ->
  forall cur, truthy cur = true ->
    numbered_from ([], cur) tail = trim cur :: numbered tail.
Proof.
  intros Ht cur Hcur. destruct tail as [|t tail].
  - unfold numbered, numbered_from. simpl. now rewrite Hcur.
  - simpl in Ht. rewrite numbered_from_question by assumption.
    unfold numbered. rewrite numbered_from_question by assumption.
    simpl. now rewrite Hcur.
Qed.


(** Lines before the first numbered one make a question of their own. *)
Lemma numbered_preamble (l : jsstring) (rest tail : list jsstring) :
  numbered_re l = false ->
  Forall (fun x => numbered_re x = false) rest ->
  at_question tail ->
  numbered (l :: rest ++ tail)
  = trim (accumulate (SP :: l) rest) :: numbered tail.
Proof.
  intros Hl Hrest Htail.
  unfold numbered at 1, numbered_from.
  cbn [fold_left parse_step]. rewrite Hl.
  rewrite fold_left_app, fold_unnumbered by assumption.
  fold (numbered_from ([], accumulate ([] ++ SP :: l) rest) tail).
  apply numbered_at_question; [assumption|].
  now apply accumulate_truthy.
Qed.


(** ** The paragraph split is taken only where it finds nothing *)

Lemma fold_keeps_current (lines : list jsstring) :
  forall acc cur,
    truthy cur = true ->
    truthy (snd (fold_left parse_step lines (acc, cur))) = true.
Proof.
  induction lines as [|l lines IH]; intros acc cur H; [exact H|].
  cbn [fold_left parse_step].
  destruct (numbered_re l) eqn:E.
  - apply IH, numbered_re_truthy, E.
  - apply IH. destruct cur; [discriminate|reflexivity].
Qed.

Lemma parse_flush_not_nil (st : list jsstring * jsstring) :
  truthy (snd st) = true -> parse_flush st <> [].
Proof.
  destruct st as [acc cur]. simpl. intros ->.
  destruct acc; discriminate.
Qed.

(** One line is enough for a question. *)
Lemma numbered_cons_not_nil (l : jsstring) (lines : list jsstring) :
  numbered (l :: lines) <> [].
Proof.
  unfold numbered, numbered_from. cbn [fold_left parse_step].
  apply parse_flush_not_nil.
  destruct (numbered_re l) eqn:E.
  - apply fold_keeps_current, numbered_re_truthy, E.
  - now apply fold_keeps_current.
Qed.

Lemma trimStart_head (s : jsstring) (c : codeunit) (t : jsstring) :
  trimStart s = c :: t -> is_ws c = false.
Proof.
  induction s as [|a s IH]; [discriminate|].
  cbn [trimStart]. destruct (is_ws a) eqn:E; [exact IH|].
  intros H. injection H as -> _. exact E.
Qed.

Lemma trimStart_nil (s : jsstring) :
  trimStart s = [] <-> forallb is_ws s = true.
Proof.
  induction s as [|a s IH]; [easy|].
  cbn [trimStart forallb]. destruct (is_ws a); [exact IH|easy].
Qed.

Lemma forallb_reverse {A} (f : A -> bool) (l : list A) :
  forallb f (rev l) = forallb f l.
Proof.
  induction l as [|a l IH]; [reflexivity|].
  cbn [rev forallb]. rewrite forallb_app, IH. cbn [forallb].
  rewrite andb_true_r. apply andb_comm.
Qed.

(** A string is blank when it holds white space only. *)
Lemma non_blank_false (s : jsstring) :
  non_blank s = false <-> forallb is_ws s = true.
Proof.
  unfold non_blank, trim, trimEnd. split.
  - intros H.
    destruct (rev (trimStart (rev (trimStart s)))) eqn:E; [|discriminate].
    apply (f_equal (@rev _)) in E. rewrite rev_involutive in E.
    cbn [rev] in E. apply trimStart_nil in E. rewrite forallb_reverse in E.
    destruct (trimStart s) as [|c t] eqn:Es; [now apply trimStart_nil|].
    apply trimStart_head in Es. cbn [forallb] in E. now rewrite Es in E.
  - intros H. apply trimStart_nil in H. now rewrite H.
Qed.

Lemma filter_none {A} (f : A -> bool) (l : list A) :
  filter f l = [] <-> Forall (fun x => f x = false) l.
Proof.
  induction l as [|a l IH]; [easy|].
  cbn [filter]. destruct (f a) eqn:E.
  - split; [discriminate|]. intros H. inversion H; congruence.
  - rewrite IH. split; [now constructor|]. intros H. now inversion H.
Qed.

Lemma forallb_join (f : codeunit -> bool) (sep : jsstring)
  (pieces : list jsstring) :
  forallb f sep = true ->
  Forall (fun p => forallb f p = true) pieces ->
  forallb f (join sep pieces) = true.
Proof.
  intros Hsep. induction 1 as [|p ps Hp _ IH]; [reflexivity|].
  destruct ps as [|q ps]; [exact Hp|].
  change (join sep (p :: q :: ps)) with (p ++ sep ++ join sep (q :: ps)).
  now rewrite !forallb_app, Hp, Hsep, IH.
Qed.

Lemma forallb_join_inv (f : codeunit -> bool) (sep : jsstring)
  (pieces : list jsstring) :
  forallb f (join sep pieces) = true ->
  Forall (fun p => forallb f p = true) pieces.
Proof.
  induction pieces as [|p ps IH]; [constructor|].
  destruct ps as [|q ps]; [intros H; now repeat constructor|].
  change (join sep (p :: q :: ps)) with (p ++ sep ++ join sep (q :: ps)).
  rewrite !forallb_app. intros H.
  apply andb_prop in H as [Hp H]. apply andb_prop in H as [_ H].
  constructor; [exact Hp|apply IH, H].
Qed.

(** When the numbered lines give no question the text is blank, and so is
    every paragraph of it: the paragraph split of [startSetup] never finds a
    question. *)
Theorem paragraph_split_finds_nothing (text : jsstring) :
  numbered (questionLines text) = [] ->
  forallb is_ws text = true
  /\ paragraphs text = []
  /\ parseQuestionsText text = [].
Proof.
  intros H.
  assert (Hl : questionLines text = []).
  { destruct (questionLines text) as [|l ls]; [reflexivity|].
    now apply numbered_cons_not_nil in H. }
  assert (Hws : forallb is_ws text = true).
  { rewrite <- (split_join [LF] text) by discriminate.
    apply forallb_join; [reflexivity|].
    apply filter_none in Hl.
    eapply Forall_impl; [|exact Hl]. intros p. apply non_blank_false. }
  assert (Hp : paragraphs text = []).
  { unfold paragraphs. apply filter_none.
    rewrite <- (split_join [LF; LF] text) in Hws by discriminate.
    apply forallb_join_inv in Hws.
    eapply Forall_impl; [|exact Hws]. intros p. apply non_blank_false. }
  split; [exact Hws|]. split; [exact Hp|].
  unfold parseQuestionsText. now rewrite H.
Qed.

Lemma paragraph_split_witness :
  parseQuestionsText [LF; LF; SP] = [].
Proof.
  exact (proj2 (proj2 (paragraph_split_finds_nothing [LF; LF; SP] eq_refl))).
Defined.

(** ** What [trim], the blank-line test and the numbered-line test compute *)

Lemma trimStart_clean (s : jsstring) : starts_clean (trimStart s) = true.
Proof.
  induction s as [|c s IH]; [reflexivity|].
  cbn [trimStart]. destruct (is_ws c) eqn:E; [exact IH|].
  cbn [starts_clean]. now rewrite E.
Qed.

Lemma trimStart_id (u : jsstring) : starts_clean u = true -> trimStart u = u.
Proof.
  destruct u as [|c u]; [reflexivity|].
  cbn [starts_clean trimStart]. now destruct (is_ws c).
Qed.

Lemma trimStart_suffix (s : jsstring) : exists pre, s = pre ++ trimStart s.
Proof.
  induction s as [|c s [pre IH]]; [now exists []|].
  cbn [trimStart]. destruct (is_ws c).
  - exists (c :: pre). cbn [app]. now f_equal.
  - now exists [].
Qed.

Lemma starts_clean_app (a b : jsstring) :
  starts_clean (a ++ b) = true -> a = [] \/ starts_clean a = true.
Proof. destruct a; [now left|now right]. Qed.

(** [trim] leaves no white space at either end, and leaves alone a string
    that has none there. *)
Lemma trim_trimmed (s : jsstring) : trimmed (trim s) = true.
Proof.
  unfold trimmed, trim, trimEnd. rewrite rev_involutive.
  rewrite trimStart_clean, andb_true_r.
  destruct (trimStart_suffix (rev (trimStart s))) as [pre E].
  pose proof (trimStart_clean s) as H.
  rewrite <- (rev_involutive (trimStart s)), E, rev_app_distr in H.
  destruct (starts_clean_app _ _ H) as [-> | H']; [reflexivity|exact H'].
Qed.

Lemma trimmed_trim (u : jsstring) : trimmed u = true -> trim u = u.
Proof.
  unfold trimmed, trim, trimEnd. intros H.
  apply andb_prop in H as [H1 H2].
  rewrite (trimStart_id u H1), (trimStart_id (rev u) H2).
  apply rev_involutive.
Qed.

Lemma trim_idempotent (s : jsstring) : trim (trim s) = trim s.
Proof. apply trimmed_trim, trim_trimmed. Qed.









(** ** What a body leaves alone *)

Section Keeps.

Context {B : Type} (f : State -> B).

Lemma keeps_ret {A} (a : A) : keeps f (ret a).
Proof. intros s; reflexivity. Qed.

Lemma keeps_throw {A} (e : exn) : keeps f (@throw A e).
Proof. intros s; reflexivity. Qed.

Lemma keeps_gets {A} (g : State -> A) : keeps f (gets g).
Proof. intros s; reflexivity. Qed.

Lemma keeps_modify (g : State -> State) :
  (forall s, f (g s) = f s) -> keeps f (modify g).
Proof. intros H s; apply H. Qed.

Lemma keeps_bind {A C} (m : M A) (k : A -> M C) :
  keeps f m -> (forall a, keeps f (k a)) -> keeps f (bind m k).
Proof.
  intros Hm Hk s. unfold bind. specialize (Hm s).
  destruct (m s) as [a s'|e s']; simpl in Hm.
  - now rewrite Hk.
  - exact Hm.
Qed.

Lemma keeps_try_catch {A} (m : M A) (h : exn -> M A) :
  keeps f m -> (forall e, keeps f (h e)) -> keeps f (try_catch m h).
Proof.
  intros Hm Hh s. unfold try_catch. specialize (Hm s).
  destruct (m s) as [a s'|e s']; simpl in Hm.
  - exact Hm.
  - now rewrite Hh.
Qed.

End Keeps.

Create HintDb keeps.

(** Walks through a body: sequencing, branches and the primitives; the
    functions already treated are taken from the hint database. *)
Ltac keeps_step :=
  first
    [ apply keeps_ret
    | apply keeps_throw
    | apply keeps_gets
    | solve [auto with keeps]
    | apply keeps_modify; intros; reflexivity
    | apply keeps_bind; [|intros]
    | apply keeps_try_catch; [|intros]
    | match goal with
      | |- keeps _ (if ?b then _ else _) => destruct b
      | |- keeps _ (match ?x with _ => _ end) => destruct x
      | |- keeps _ (let (_, _) := ?x in _) => destruct x
      end ].

Ltac keeps_body := intros; repeat keeps_step.

Lemma bind_Ok {A B} (m : M A) (k : A -> M B) (s s1 : State) (a : A) :
  m s = Ok a s1 -> bind m k s = k a s1.
Proof. unfold bind. now intros ->. Qed.

Lemma keeps_keeps_if {A B} (f : State -> B) (P : B -> Prop) (m : M A) :
  keeps f m -> keeps_if f P m.
Proof. intros H s _. apply H. Qed.

Lemma keeps_if_bind {A B C} (f : State -> B) (P : B -> Prop)
  (m : M A) (k : A -> M C) :
  keeps_if f P m -> (forall a, keeps_if f P (k a)) -> keeps_if f P (bind m k).
Proof.
  intros Hm Hk s HP. unfold bind. specialize (Hm s HP).
  destruct (m s) as [a s'|e s']; simpl in Hm; [|exact Hm].
  rewrite <- Hm in HP. rewrite (Hk a s' HP). exact Hm.
Qed.

(** ** Bodies that do not throw *)

Lemma safe_ret {A} (a : A) : safe (ret a).
Proof. intros s; reflexivity. Qed.

Lemma safe_gets {A} (g : State -> A) : safe (gets g).
Proof. intros s; reflexivity. Qed.

Lemma safe_modify (g : State -> State) : safe (modify g).
Proof. intros s; reflexivity. Qed.

Lemma safe_bind {A C} (m : M A) (k : A -> M C) :
  safe m -> (forall a, safe (k a)) -> safe (bind m k).
Proof.
  intros Hm Hk s. unfold bind. specialize (Hm s).
  destruct (m s) as [a s'|e s']; [apply Hk|discriminate].
Qed.

(** What a handler that does not throw catches does not escape. *)
Lemma safe_try_catch {A} (m : M A) (h : exn -> M A) :
  (forall e, safe (h e)) -> safe (try_catch m h).
Proof.
  intros Hh s. unfold try_catch.
  destruct (m s) as [a s'|e s']; [reflexivity|apply Hh].
Qed.

Create HintDb safe.

Ltac safe_step :=
  first
    [ apply safe_ret
    | apply safe_gets
    | apply safe_modify
    | solve [auto with safe]
    | apply safe_bind; [|intros]
    | apply safe_try_catch; intros
    | match goal with
      | |- safe (if ?b then _ else _) => destruct b
      | |- safe (match ?x with _ => _ end) => destruct x
      end ].

Ltac safe_body := intros; repeat safe_step.

Ltac unfold_prims :=
  unfold jq, draw, console_error, ajax, setTimeout, setInterval, clearInterval,
    requestAnimationFrame, cancelAnimationFrame, fresh, skip.

(** ** Single steps *)

Lemma bind_Thrown {A B} (m : M A) (k : A -> M B) (s s1 : State) (e : exn) :
  m s = Thrown e s1 -> bind m k s = Thrown e s1.
Proof. unfold bind. now intros ->. Qed.

Lemma bind_assoc {A B C} (m : M A) (k : A -> M B) (h : B -> M C) (s : State) :
  bind (bind m k) h s = bind m (fun a => bind (k a) h) s.
Proof. unfold bind. now destruct (m s). Qed.

Lemma jq_Ok (op : DomOp) (s : State) :
  jq op s = Ok tt (set_dom (dom (page s) ++ [op]) s).
Proof. reflexivity. Qed.

Lemma modify_Ok (f : State -> State) (s : State) : modify f s = Ok tt (f s).
Proof. reflexivity. Qed.

Lemma gets_Ok {A} (f : State -> A) (s : State) : gets f s = Ok (f s) s.
Proof. reflexivity. Qed.

Lemma get_prop_readable (v : Value) (k : string) (s : State) :
  readable v = true -> get_prop v k s = Ok (prop v k) s.
Proof. destruct v; try discriminate; reflexivity. Qed.

Lemma get_prop_unreadable (v : Value) (k : string) (s : State) :
  readable v = false -> get_prop v k s = Thrown TypeError s.
Proof. destruct v; try discriminate; reflexivity. Qed.

Lemma truthy_readable (v : Value) : to_boolean v = true -> readable v = true.
Proof. destruct v; try discriminate; reflexivity. Qed.

Lemma str_Ok (v : Value) (s : State) :
  stringable v = true -> str v s = Ok (text_of v) s.
Proof.
  unfold stringable, text_of, str. now destruct (to_string v).
Qed.

Lemma str_Thrown (v : Value) (s : State) :
  stringable v = false -> str v s = Thrown TypeError s.
Proof.
  unfold stringable, str. now destruct (to_string v).
Qed.

(** [mapM str]: the texts of the values, or the [TypeError] of the first
    that has none. *)
Lemma mapM_str (l : list Value) (s : State) :
  mapM str l s
  = if forallb stringable l then Ok (map text_of l) s else Thrown TypeError s.
Proof.
  induction l as [|v l IH]; [reflexivity|].
  cbn [mapM forallb map]. destruct (stringable v) eqn:Hv; cbn [andb].
  - rewrite (bind_Ok _ _ _ _ _ (str_Ok v s Hv)).
    unfold bind at 1. rewrite IH. now destruct (forallb stringable l).
  - now rewrite (bind_Thrown _ _ _ _ _ (str_Thrown v s Hv)).
Qed.

Lemma strings_stringable (l : list jsstring) :
  forallb stringable (map VStr l) = true /\ map text_of (map VStr l) = l.
Proof.
  induction l as [|x l [IH1 IH2]]; [now split|].
  cbn [map forallb]. rewrite IH1, IH2. now split.
Qed.

(** ** The success callback of the setup *)

Lemma displayQuestions_eq (s : State) :
  displayQuestions s
  = if list_ok (allQuestions (ses s))
    then jq (SetHtml "questions-container"
               [QuestionList (map text_of (items_of (allQuestions (ses s))))])
            s
    else Thrown TypeError s.
Proof.
  unfold displayQuestions, list_ok.
  rewrite (bind_Ok _ _ _ _ _ (gets_Ok _ s)).
  destruct (allQuestions (ses s)) as [| |b|repr|str0|items|props];
    try reflexivity.
  cbn [as_array is_array items_of andb].
  rewrite (bind_Ok _ _ _ _ _ (eq_refl : ret items s = Ok items s)).
  unfold bind at 1. rewrite mapM_str.
  now destruct (forallb stringable items).
Qed.

(** The callback from [displayQuestions] on. *)
Lemma setup_shows (s : State) :
  exists s1,
    (displayQuestions ;;
     jq (AddClass "setup-step" "hidden") ;;
     jq (RemoveClass "questions-step" "hidden") ;;
     jq (RemoveClass ".step" "active") ;;
     jq (AddClass "step-1" "completed") ;;
     jq (AddClass "step-2" "active")) s
    = (if list_ok (allQuestions (ses s)) then Ok tt s1 else Thrown TypeError s1)
    /\ rec s1 = rec s /\ ses s1 = ses s /\ sp s1 = sp s /\ an s1 = an s
    /\ br s1 = br s
    /\ messages (page s1) = messages (page s)
    /\ dom (page s1)
       = dom (page s)
         ++ if list_ok (allQuestions (ses s))
            then SetHtml "questions-container"
                   [QuestionList
                      (map text_of (items_of (allQuestions (ses s))))]
                 :: setup_done
            else [].
Proof.
  unfold bind at 1. rewrite displayQuestions_eq.
  destruct (list_ok (allQuestions (ses s))).
  - eexists. split; [reflexivity|]. cbn. repeat split.
    unfold setup_done. now rewrite <- !app_assoc.
  - exists s. rewrite app_nil_r. repeat split.
Qed.

Lemma list_ok_strings (l : list jsstring) :
  list_ok (VArr (map VStr l)) = true.
Proof. unfold list_ok. cbn. apply strings_stringable. Qed.

(** The body at hand begins with a step that throws a [TypeError]. *)
Ltac throws_at_once :=
  match goal with
  | |- context [bind ?m _ ?t] =>
      rewrite (bind_Thrown m _ t t TypeError eq_refl)
  end.

(** What the success callback does with any response. *)
Lemma startSetup_success_result (response : Value) (s : State) :
  exists s1,
    startSetup_success response s
    = (if setup_ok response then Ok tt s1 else Thrown TypeError s1)
    /\ rec s1 = rec s /\ sp s1 = sp s /\ an s1 = an s /\ br s1 = br s
    /\ questions (ses s1) = questions (ses s)
    /\ currentQuestionIndex (ses s1) = currentQuestionIndex (ses s)
    /\ candidateId (ses s1) = candidateId (ses s)
    /\ messages (page s1) = messages (page s)
    /\ if setup_ok response
       then allQuestions (ses s1) = received_questions response
            /\ interviewData (ses s1) = Some (kept_response response)
            /\ dom (page s1)
               = dom (page s)
                 ++ SetHtml "questions-container"
                      [QuestionList
                         (map text_of (items_of (received_questions response)))]
                 :: setup_done
       else interviewData (ses s1) = Some response
            /\ dom (page s1) = dom (page s).
Proof.
  unfold startSetup_success, setup_ok, received_questions, kept_response.
  rewrite (bind_Ok _ _ _ _ _ (modify_Ok _ s)).
  set (s0 := set_interviewData (Some response) s).
  destruct (readable response) eqn:Hr; cbn [andb];
    [|exists s0;
      rewrite (bind_Thrown _ _ _ _ _ (get_prop_unreadable response _ s0 Hr));
      repeat split].
  rewrite (bind_Ok _ _ _ _ _ (get_prop_readable response _ s0 Hr)).
  rewrite (bind_Ok _ _ _ _ _ (get_prop_readable response _ s0 Hr)).
  rewrite (bind_Ok _ _ _ _ _ (modify_Ok _ s0)).
  fold (wanted_list response).
  set (s2 := set_allQuestions (wanted_list response) s0).
  rewrite (bind_Ok _ _ _ _ _ (gets_Ok _ s2)).
  change (allQuestions (ses s2)) with (wanted_list response).
  unfold setup_parses, questions_text.
  destruct (is_zero (length_of (wanted_list response))) eqn:Hz;
    cbn [andb].
  - (* the text is parsed *)
    rewrite bind_assoc.
    destruct (prop response "questions") as [| |b|repr|text|items|props];
      try (exists s2; throws_at_once; repeat split).
    rewrite (bind_Ok _ _ _ _ _ (eq_refl : as_string (VStr text) s2 = Ok text s2)).
    rewrite bind_assoc.
    unfold parseQuestionsText.
    destruct (numbered (questionLines text)) as [|q pushed] eqn:En.
    + rewrite (bind_Ok _ _ _ _ _ (eq_refl : skip s2 = Ok tt s2)).
      rewrite (bind_Ok _ _ _ _ _ (modify_Ok _ s2)).
      match goal with |- context [bind displayQuestions _ ?t] =>
        destruct (setup_shows t)
          as (s1 & E & Hrec & Hses & Hsp & Han & Hbr & Hmsg & Hdom)
      end.
      cbn [set_allQuestions upd_ses ses allQuestions] in E, Hdom.
      rewrite list_ok_strings in E, Hdom.
      exists s1. split; [exact E|].
      rewrite Hrec, Hses, Hsp, Han, Hbr, Hmsg, Hdom.
      destruct (to_boolean (prop response "question_list"));
        repeat split.
    + rewrite bind_assoc.
      destruct (wanted_list response) as [| |b|repr|str0|items|props] eqn:Ew;
        cbn [is_array];
        try (exists s2; throws_at_once; repeat split).
      rewrite (bind_Ok _ _ _ _ _ (eq_refl : can_push (VArr items) s2 = Ok tt s2)).
      destruct (to_boolean (prop response "question_list")) eqn:Hql;
        cbn [andb].
      * rewrite (bind_Ok _ _ _ _ _ (modify_Ok _ s2)).
        rewrite (bind_Ok _ _ _ _ _ (modify_Ok _ _)).
        match goal with |- context [bind displayQuestions _ ?t] =>
          destruct (setup_shows t)
            as (s1 & E & Hrec & Hses & Hsp & Han & Hbr & Hmsg & Hdom)
        end.
        cbn [set_allQuestions set_interviewData upd_ses ses allQuestions]
          in E, Hdom.
        rewrite list_ok_strings in E, Hdom.
        exists s1. split; [exact E|].
        rewrite Hrec, Hses, Hsp, Han, Hbr, Hmsg, Hdom. repeat split.
      * rewrite (bind_Ok _ _ _ _ _ (eq_refl : skip s2 = Ok tt s2)).
        rewrite (bind_Ok _ _ _ _ _ (modify_Ok _ _)).
        match goal with |- context [bind displayQuestions _ ?t] =>
          destruct (setup_shows t)
            as (s1 & E & Hrec & Hses & Hsp & Han & Hbr & Hmsg & Hdom)
        end.
        cbn [set_allQuestions set_interviewData upd_ses ses allQuestions]
          in E, Hdom.
        rewrite list_ok_strings in E, Hdom.
        exists s1. split; [exact E|].
        rewrite Hrec, Hses, Hsp, Han, Hbr, Hmsg, Hdom. repeat split.
  - (* the list of the response is shown *)
    rewrite (bind_Ok _ _ _ _ _ (eq_refl : skip s2 = Ok tt s2)).
    destruct (setup_shows s2)
      as (s1 & E & Hrec & Hses & Hsp & Han & Hbr & Hmsg & Hdom).
    change (allQuestions (ses s2)) with (wanted_list response) in E, Hdom.
    exists s1. split; [exact E|].
    rewrite Hrec, Hses, Hsp, Han, Hbr, Hmsg, Hdom.
    destruct (list_ok (wanted_list response));
      rewrite ?app_nil_r; repeat split.
Qed.


(** ** Stopping without an active recording *)

(** With no recorder, or an inactive one, [stopRecording] does nothing. *)
Lemma stopRecording_idle (s : State) :
  recorder_idle (rec s) -> stopRecording s = Ok tt s.
Proof.
  unfold recorder_idle, stopRecording, bind, gets, is_inactive.
  destruct (mediaRecorder (rec s)) as [mr|]; [|reflexivity].
  now intros ->.
Qed.

Section RecorderView.

Let idle (v : Recording * Session * list Task * list Request) : Prop :=
  recorder_idle (fst (fst (fst v))).

Ltac prims :=
  unfold jq, draw, console_error, setTimeout, setInterval, clearInterval,
    requestAnimationFrame, cancelAnimationFrame, fresh, skip.

Lemma ajax_view (r : Request) :
  is_upload r = false -> keeps recorder_view (ajax r).
Proof.
  intros H s. unfold recorder_view, uploads, ajax, modify.
  cbn [state_of set_sent upd_br br sent rec ses tasks].
  rewrite filter_app. cbn [filter]. rewrite H. now rewrite app_nil_r.
Qed.

Lemma showMessage_view m t : keeps recorder_view (showMessage m t).
Proof. unfold showMessage; prims. keeps_body. Qed.
#[local] Hint Resolve showMessage_view : keeps.

Lemma stopSpeaking_view : keeps recorder_view stopSpeaking.
Proof. unfold stopSpeaking; prims. keeps_body. Qed.
#[local] Hint Resolve stopSpeaking_view : keeps.

Lemma audio_pause_view : keeps recorder_view audio_pause.
Proof. unfold audio_pause. keeps_body. Qed.
#[local] Hint Resolve audio_pause_view : keeps.

Lemma analyzeInterviewResponses_view : keeps recorder_view analyzeInterviewResponses.
Proof.
  unfold analyzeInterviewResponses. keeps_body. now apply ajax_view.
Qed.
#[local] Hint Resolve analyzeInterviewResponses_view : keeps.

Lemma question_at_view i : keeps recorder_view (question_at i).
Proof. unfold question_at. keeps_body. Qed.
#[local] Hint Resolve question_at_view : keeps.

Lemma stopRecording_view : keeps_if recorder_view idle stopRecording.
Proof.
  intros s H. now rewrite stopRecording_idle.
Qed.

Lemma stopInterview_view : keeps_if recorder_view idle stopInterview.
Proof.
  unfold stopInterview.
  apply keeps_if_bind; [exact stopRecording_view|intros _].
  apply keeps_keeps_if. prims. keeps_body.
Qed.

End RecorderView.

(** *** No exception *)

Lemma showMessage_safe m t : safe (showMessage m t).
Proof. unfold showMessage; unfold_prims. safe_body. Qed.
#[local] Hint Resolve showMessage_safe : safe.

Lemma stopCheatingDetection_safe : safe stopCheatingDetection.
Proof. unfold stopCheatingDetection; unfold_prims. safe_body. Qed.
#[local] Hint Resolve stopCheatingDetection_safe : safe.

Lemma stopRecording_safe : safe stopRecording.
Proof. unfold stopRecording; unfold_prims. safe_body. Qed.
#[local] Hint Resolve stopRecording_safe : safe.

Lemma stopSpeaking_safe : safe stopSpeaking.
Proof. unfold stopSpeaking; unfold_prims. safe_body. Qed.
#[local] Hint Resolve stopSpeaking_safe : safe.

Lemma stopInterview_safe : safe stopInterview.
Proof.
  unfold stopInterview, analyzeInterviewResponses, audio_pause; unfold_prims.
  safe_body.
Qed.
#[local] Hint Resolve stopInterview_safe : safe.

Lemma question_at_Ok (i : nat) (s : State) :
  i < List.length (questions (ses s)) ->
  exists q, question_at i s = Ok q s.
Proof.
  intros H. unfold question_at, bind, gets.
  destruct (nth_error (questions (ses s)) i) as [q|] eqn:E.
  - exists (question q). reflexivity.
  - apply nth_error_None in E. lia.
Qed.

(** What [nextQuestion] does after [stopRecording]. *)
Lemma nextQuestion_unfold (s s1 : State) :
  stopRecording s = Ok tt s1 ->
  let s2 := set_currentQuestionIndex (currentQuestionIndex (ses s1) + 1) s1 in
  nextQuestion s
  = if List.length (questions (ses s1)) <=? currentQuestionIndex (ses s1) + 1
    then stopInterview s2
    else (q <- question_at (currentQuestionIndex (ses s1) + 1) ;;
          jq (SetText "currentQuestion" q) ;;
          setTimeout StartNextQuestion 1000) s2.
Proof.
  intros H. unfold nextQuestion. rewrite (bind_Ok _ _ _ _ _ H).
  unfold bind at 1 2 3, modify, gets.
  cbn [set_currentQuestionIndex upd_ses ses currentQuestionIndex questions].
  now destruct (_ <=? _).
Qed.

(** [nextQuestion] reads [questions[i]] only for an [i] below the length. *)
Lemma nextQuestion_safe : safe nextQuestion.
Proof.
  intros s.
  pose proof (stopRecording_safe s) as H.
  destruct (stopRecording s) as [[] s1|] eqn:E; [clear H|discriminate].
  rewrite (nextQuestion_unfold _ _ E).
  destruct (_ <=? _) eqn:L; [apply stopInterview_safe|].
  apply Nat.leb_gt in L.
  destruct (question_at_Ok _ (set_currentQuestionIndex
                                 (currentQuestionIndex (ses s1) + 1) s1) L)
    as [q Hq].
  rewrite (bind_Ok _ _ _ _ _ Hq). reflexivity.
Qed.

Section RecorderView2.

Let idle (v : Recording * Session * list Task * list Request) : Prop :=
  recorder_idle (fst (fst (fst v))).

Lemma stopInterview_idle (s : State) :
  recorder_idle (rec s) ->
  recorder_view (state_of (stopInterview s)) = recorder_view s.
Proof. intros H. now apply stopInterview_view. Qed.

Lemma stop_times_idle (n : nat) (s : State) :
  recorder_idle (rec s) -> recorder_view (stop_times n s) = recorder_view s.
Proof.
  intros H. induction n as [|n IH]; [reflexivity|].
  cbn [stop_times]. rewrite <- IH. apply stopInterview_idle.
  change (rec (stop_times n s)) with (fst (fst (fst (recorder_view (stop_times n s))))).
  now rewrite IH.
Qed.

(** What [nextQuestion] does when it does not end the interview. *)
Lemma nextQuestion_shows_view (i : nat) :
  keeps recorder_view
    (q <- question_at i ;;
     jq (SetText "currentQuestion" q) ;;
     setTimeout StartNextQuestion 1000).
Proof. unfold jq, setTimeout. keeps_body. Qed.

Lemma nextQuestion_idle (s : State) :
  recorder_idle (rec s) ->
  recorder_view (state_of (nextQuestion s))
  = recorder_view
      (set_currentQuestionIndex (currentQuestionIndex (ses s) + 1) s).
Proof.
  intros H.
  rewrite (nextQuestion_unfold _ _ (stopRecording_idle s H)).
  destruct (_ <=? _).
  - now apply stopInterview_idle.
  - apply nextQuestion_shows_view.
Qed.

End RecorderView2.

(** C10. When no recorder exists or the recorder is inactive,
    [stopRecording] returns with the state as it was.  [stopInterview] and
    [nextQuestion], which call it first, then return without an exception,
    leave the recorder's variables as they were, queue no recorder event and
    upload nothing; and this holds of any number of calls of [stopInterview]
    one after the other. *)
Theorem C10_stop_without_active_recording (s : State) :
  recorder_idle (rec s) ->
  stopRecording s = Ok tt s
  /\ (returned (stopInterview s) = true
      /\ recorder_view (state_of (stopInterview s)) = recorder_view s)
  /\ (returned (nextQuestion s) = true
      /\ rec (state_of (nextQuestion s)) = rec s
      /\ tasks (br (state_of (nextQuestion s))) = tasks (br s)
      /\ uploads (state_of (nextQuestion s)) = uploads s)
  /\ (forall n,
        returned (stopInterview (stop_times n s)) = true
        /\ recorder_view (stop_times (S n) s) = recorder_view s).
Proof.
  intros H.
  split; [exact (stopRecording_idle s H)|].
  split; [split; [apply stopInterview_safe|exact (stopInterview_idle s H)]|].
  split.
  - split; [apply nextQuestion_safe|].
    pose proof (nextQuestion_idle s H) as E.
    unfold recorder_view in E. injection E as E1 _ E3 E4.
    auto.
  - intros n. split; [apply stopInterview_safe|].
    exact (stop_times_idle (S n) s H).
Qed.

Lemma C10_stop_witness :
  recorder_idle (rec example_page)
  /\ stopRecording example_page = Ok tt example_page.
Proof.
  split; [exact I|].
  exact (proj1 (C10_stop_without_active_recording example_page I)).
Defined.

(** ** Starting the interview *)

(** The guard of [startInterview] compares the index with the length of
    the global [questions]. *)
Lemma startInterview_refuses (s : State) :
  List.length (questions (ses s)) <= currentQuestionIndex (ses s) ->
  startInterview s = showMessage (lit "No more questions available") error s.
Proof.
  intros H. unfold startInterview, bind, gets.
  apply Nat.leb_le in H. now rewrite H.
Qed.

Lemma startInterview_proceeds (s : State) :
  currentQuestionIndex (ses s) < List.length (questions (ses s)) ->
  startInterview s
  = (setupRecording ;;
     jq (SetDisabled "startBtn" true) ;;
     jq (SetDisabled "nextBtn" false) ;;
     jq (SetDisabled "stopBtn" false) ;;
     startRecording ;;
     q <- question_at (currentQuestionIndex (ses s)) ;;
     speakQuestion q) s.
Proof.
  intros H. unfold startInterview at 1. unfold bind at 1 2, gets.
  apply Nat.leb_gt in H. now rewrite H.
Qed.

(** *** The page as it is shipped never records

    No function assigns [questions].  With no question there is no recorder
    either: [startInterview] is refused, and [nextQuestion] ends the
    interview instead of setting the timeout that records the next question.
    Every handler then leaves the questions, the recorder, its queued events,
    the uploads and the recordings about to start as they are. *)

Section Shipped.

Ltac prims :=
  unfold jq, draw, console_error, setInterval, clearInterval,
    requestAnimationFrame, cancelAnimationFrame, fresh, skip.

Lemma setTimeout_kept (cb : TimerCb) (ms : nat) :
  is_next_timer (ms, cb) = false -> keeps recording_view (setTimeout cb ms).
Proof.
  intros H s. unfold recording_view, next_timers, setTimeout, modify.
  cbn [state_of set_timers upd_br br timers].
  rewrite filter_app. cbn [filter]. rewrite H. now rewrite app_nil_r.
Qed.

Lemma ajax_kept (r : Request) :
  is_upload r = false -> keeps recording_view (ajax r).
Proof.
  intros H s. unfold recording_view, uploads, ajax, modify.
  cbn [state_of set_sent upd_br br sent].
  rewrite filter_app. cbn [filter]. rewrite H. now rewrite app_nil_r.
Qed.

#[local] Hint Extern 1 (keeps _ (setTimeout _ _)) =>
  (apply setTimeout_kept; reflexivity) : keeps.
#[local] Hint Extern 1 (keeps _ (ajax _)) =>
  (apply ajax_kept; reflexivity) : keeps.

Lemma showMessage_kept m t : keeps recording_view (showMessage m t).
Proof. unfold showMessage; prims. keeps_body. Qed.
#[local] Hint Resolve showMessage_kept : keeps.

Lemma setCanvasDimensions_kept c : keeps recording_view (setCanvasDimensions c).
Proof. unfold setCanvasDimensions; prims. keeps_body. Qed.
#[local] Hint Resolve setCanvasDimensions_kept : keeps.

Lemma setupAvatarAnimations_kept : keeps recording_view (setupAvatarAnimations).
Proof. unfold setupAvatarAnimations; prims. keeps_body. Qed.
#[local] Hint Resolve setupAvatarAnimations_kept : keeps.

Lemma animateSpeech_kept c i : keeps recording_view (animateSpeech c i).
Proof. unfold animateSpeech; prims. keeps_body. Qed.
#[local] Hint Resolve animateSpeech_kept : keeps.

Lemma drawMouth_kept d : keeps recording_view (drawMouth d).
Proof. unfold drawMouth; prims. keeps_body. Qed.
#[local] Hint Resolve drawMouth_kept : keeps.

Lemma startSpeaking_kept : keeps recording_view (startSpeaking).
Proof. unfold startSpeaking; prims. keeps_body. Qed.
#[local] Hint Resolve startSpeaking_kept : keeps.

Lemma stopSpeaking_kept : keeps recording_view (stopSpeaking).
Proof. unfold stopSpeaking; prims. keeps_body. Qed.
#[local] Hint Resolve stopSpeaking_kept : keeps.

Lemma get_prop_kept v k : keeps recording_view (get_prop v k).
Proof. unfold get_prop; prims. keeps_body. Qed.
#[local] Hint Resolve get_prop_kept : keeps.

Lemma as_array_kept v : keeps recording_view (as_array v).
Proof. unfold as_array; prims. keeps_body. Qed.
#[local] Hint Resolve as_array_kept : keeps.

Lemma str_kept v : keeps recording_view (str v).
Proof. unfold str; prims. keeps_body. Qed.
#[local] Hint Resolve str_kept : keeps.

Lemma as_string_kept v : keeps recording_view (as_string v).
Proof. unfold as_string; prims. keeps_body. Qed.
#[local] Hint Resolve as_string_kept : keeps.

Lemma can_push_kept v : keeps recording_view (can_push v).
Proof. unfold can_push; prims. keeps_body. Qed.
#[local] Hint Resolve can_push_kept : keeps.

Lemma mapM_kept {A C} (g : A -> M C) (l : list A) :
  (forall a, keeps recording_view (g a)) -> keeps recording_view (mapM g l).
Proof.
  intros Hg. induction l as [|x l IH]; simpl; keeps_body.
Qed.
#[local] Hint Resolve mapM_kept : keeps.

Lemma displayQuestions_kept : keeps recording_view (displayQuestions).
Proof. unfold displayQuestions; prims. keeps_body. Qed.
#[local] Hint Resolve displayQuestions_kept : keeps.

Lemma startSetup_kept role : keeps recording_view (startSetup role).
Proof. unfold startSetup; prims. keeps_body. Qed.
#[local] Hint Resolve startSetup_kept : keeps.

Lemma startSetup_granted_kept role : keeps recording_view (startSetup_granted role).
Proof. unfold startSetup_granted; prims. keeps_body. Qed.
#[local] Hint Resolve startSetup_granted_kept : keeps.

Lemma startSetup_denied_kept : keeps recording_view (startSetup_denied).
Proof. unfold startSetup_denied; prims. keeps_body. Qed.
#[local] Hint Resolve startSetup_denied_kept : keeps.

Lemma startSetup_success_kept r : keeps recording_view (startSetup_success r).
Proof. unfold startSetup_success; prims. keeps_body. Qed.
#[local] Hint Resolve startSetup_success_kept : keeps.

Lemma startSetup_error_kept : keeps recording_view (startSetup_error).
Proof. unfold startSetup_error; prims. keeps_body. Qed.
#[local] Hint Resolve startSetup_error_kept : keeps.

Lemma speakQuestion_kept q : keeps recording_view (speakQuestion q).
Proof. unfold speakQuestion; prims. keeps_body. Qed.
#[local] Hint Resolve speakQuestion_kept : keeps.

Lemma speakQuestion_play_rejected_kept : keeps recording_view (speakQuestion_play_rejected).
Proof. unfold speakQuestion_play_rejected; prims. keeps_body. Qed.
#[local] Hint Resolve speakQuestion_play_rejected_kept : keeps.

Lemma speakQuestion_success_kept data : keeps recording_view (speakQuestion_success data).
Proof. unfold speakQuestion_success; prims. keeps_body. Qed.
#[local] Hint Resolve speakQuestion_success_kept : keeps.

Lemma speakQuestion_error_kept : keeps recording_view (speakQuestion_error).
Proof. unfold speakQuestion_error; prims. keeps_body. Qed.
#[local] Hint Resolve speakQuestion_error_kept : keeps.

Lemma audio_ended_kept : keeps recording_view (audio_ended).
Proof. unfold audio_ended; prims. keeps_body. Qed.
#[local] Hint Resolve audio_ended_kept : keeps.

Lemma audio_pause_kept : keeps recording_view (audio_pause).
Proof. unfold audio_pause; prims. keeps_body. Qed.
#[local] Hint Resolve audio_pause_kept : keeps.

Lemma question_evaluation_kept p : keeps recording_view (question_evaluation p).
Proof. unfold question_evaluation; prims. keeps_body. Qed.
#[local] Hint Resolve question_evaluation_kept : keeps.

Lemma result_section_kept data k title : keeps recording_view (result_section data k title).
Proof. unfold result_section; prims. keeps_body. Qed.
#[local] Hint Resolve result_section_kept : keeps.

Lemma displayResults_kept data : keeps recording_view (displayResults data).
Proof. unfold displayResults; prims. keeps_body. Qed.
#[local] Hint Resolve displayResults_kept : keeps.

Lemma analyzeInterviewResponses_kept : keeps recording_view (analyzeInterviewResponses).
Proof. unfold analyzeInterviewResponses; prims. keeps_body. Qed.
#[local] Hint Resolve analyzeInterviewResponses_kept : keeps.

Lemma analyze_success_kept data : keeps recording_view (analyze_success data).
Proof. unfold analyze_success; prims. keeps_body. Qed.
#[local] Hint Resolve analyze_success_kept : keeps.

Lemma analyze_error_kept : keeps recording_view (analyze_error).
Proof. unfold analyze_error; prims. keeps_body. Qed.
#[local] Hint Resolve analyze_error_kept : keeps.

Lemma downloadPdf_kept : keeps recording_view downloadPdf.
Proof. unfold downloadPdf; prims. keeps_body. Qed.
#[local] Hint Resolve downloadPdf_kept : keeps.

Lemma downloadPdf_success_kept r : keeps recording_view (downloadPdf_success r).
Proof. unfold downloadPdf_success; prims. keeps_body. Qed.
#[local] Hint Resolve downloadPdf_success_kept : keeps.

Lemma downloadPdf_error_kept : keeps recording_view downloadPdf_error.
Proof. unfold downloadPdf_error; prims. keeps_body. Qed.
#[local] Hint Resolve downloadPdf_error_kept : keeps.

Lemma question_at_kept i : keeps recording_view (question_at i).
Proof. unfold question_at; prims. keeps_body. Qed.
#[local] Hint Resolve question_at_kept : keeps.

Lemma run_frame_kept cbs : keeps recording_view (run_frame cbs).
Proof. induction cbs as [|[h d] cbs IH]; simpl; prims; keeps_body. Qed.
#[local] Hint Resolve run_frame_kept : keeps.

Lemma animation_frame_kept : keeps recording_view (animation_frame).
Proof. unfold animation_frame; prims. keeps_body. Qed.
#[local] Hint Resolve animation_frame_kept : keeps.

Lemma run_listeners_kept ls : keeps recording_view (run_listeners ls).
Proof. induction ls as [|c ls IH]; simpl; prims; keeps_body. Qed.
#[local] Hint Resolve run_listeners_kept : keeps.

Lemma window_resized_kept rect : keeps recording_view (window_resized rect).
Proof. unfold window_resized; prims. keeps_body. Qed.
#[local] Hint Resolve window_resized_kept : keeps.

Lemma avatar_image_ready_kept : keeps recording_view (avatar_image_ready).
Proof. unfold avatar_image_ready; prims. keeps_body. Qed.
#[local] Hint Resolve avatar_image_ready_kept : keeps.

Lemma nothing_to_record_idle (s : State) :
  nothing_to_record (recording_view s) -> recorder_idle (rec s).
Proof.
  intros (_ & H & _). cbn in H. unfold recorder_idle. now rewrite H.
Qed.

Lemma stopRecording_kept :
  keeps_if recording_view nothing_to_record stopRecording.
Proof.
  intros s H. now rewrite (stopRecording_idle s (nothing_to_record_idle s H)).
Qed.

Lemma stopInterview_kept :
  keeps_if recording_view nothing_to_record stopInterview.
Proof.
  unfold stopInterview.
  apply keeps_if_bind; [exact stopRecording_kept|intros _].
  apply keeps_keeps_if. prims. keeps_body.
Qed.

Lemma startInterview_kept :
  keeps_if recording_view nothing_to_record startInterview.
Proof.
  intros s H. rewrite startInterview_refuses.
  - apply showMessage_kept.
  - destruct H as (Hq & _). cbn in Hq. rewrite Hq. apply Nat.le_0_l.
Qed.

Lemma nextQuestion_kept :
  keeps_if recording_view nothing_to_record nextQuestion.
Proof.
  intros s H.
  rewrite (nextQuestion_unfold s s
             (stopRecording_idle s (nothing_to_record_idle s H))).
  assert (Hq : questions (ses s) = []) by apply H.
  rewrite Hq. cbn [List.length Nat.leb].
  exact (stopInterview_kept
           (set_currentQuestionIndex (currentQuestionIndex (ses s) + 1) s) H).
Qed.

Lemma media_gathered_kept (data : Blob) :
  keeps_if recording_view nothing_to_record (media_gathered data).
Proof.
  intros s (_ & H & _). cbn in H.
  unfold media_gathered, bind, gets. now rewrite H.
Qed.

Lemma recorder_ends_kept :
  keeps_if recording_view nothing_to_record recorder_ends.
Proof.
  intros s (_ & H & _). cbn in H.
  unfold recorder_ends, bind, gets. now rewrite H.
Qed.

Lemma run_task_kept : keeps_if recording_view nothing_to_record run_task.
Proof.
  intros s (_ & _ & H & _). cbn in H.
  unfold run_task, bind, gets. now rewrite H.
Qed.

Lemma filter_none_nth {A} (f : A -> bool) (l : list A) (i : nat) (x : A) :
  filter f l = [] -> nth_error l i = Some x -> f x = false.
Proof.
  intros H E. apply filter_none in H.
  rewrite Forall_forall in H. apply H. eapply nth_error_In, E.
Qed.

Lemma filter_none_remove_nth {A} (f : A -> bool) (l : list A) (i : nat) :
  filter f l = [] -> filter f (remove_nth i l) = [].
Proof.
  revert i; induction l as [|a l IH]; intros i H; [now destruct i|].
  cbn [filter] in H. destruct (f a) eqn:E; [discriminate|].
  destruct i as [|i]; cbn [remove_nth filter]; [exact H|].
  rewrite E. now apply IH.
Qed.

Lemma timer_callback_kept (cb : TimerCb) :
  cb <> StartNextQuestion -> keeps recording_view (timer_callback cb).
Proof.
  intros H. destruct cb; [| congruence | |]; unfold timer_callback; prims;
    keeps_body.
Qed.

Lemma timer_fires_kept (i : nat) :
  keeps_if recording_view nothing_to_record (timer_fires i).
Proof.
  intros s H. assert (Hn : next_timers s = []) by apply H.
  unfold next_timers in Hn.
  unfold timer_fires, bind, gets.
  destruct (nth_error (timers (br s)) i) as [[ms cb]|] eqn:E; [|reflexivity].
  unfold modify.
  rewrite timer_callback_kept.
  - unfold recording_view, next_timers.
    cbn [set_timers upd_br br timers ses rec tasks uploads sent].
    unfold uploads. cbn [set_timers upd_br br sent].
    now rewrite Hn, (filter_none_remove_nth _ _ i Hn).
  - intros ->. now apply (filter_none_nth _ _ _ _ Hn) in E.
Qed.

Lemma handler_kept (e : Event) :
  keeps_if recording_view nothing_to_record (handler e).
Proof.
  destruct e as [role|role| |[r|]| | | |[data|]| | |data| | |i|[data|]|
                 |[response|]| |rect| |];
    cbn [handler];
    first [ apply startInterview_kept | apply nextQuestion_kept
          | apply stopInterview_kept | apply media_gathered_kept
          | apply recorder_ends_kept
          | apply run_task_kept | apply timer_fires_kept
          | apply keeps_keeps_if; auto with keeps ].
Qed.

Lemma step_recording_view (s : State) (e : Event) :
  nothing_to_record (recording_view s) ->
  recording_view (step s e) = recording_view s.
Proof.
  intros H. rewrite <- (handler_kept e s H).
  unfold step. now destruct (handler e s).
Qed.

Lemma run_recording_view (es : list Event) :
  forall s,
    nothing_to_record (recording_view s) ->
    recording_view (run s es) = recording_view s.
Proof.
  unfold run.
  induction es as [|e es IH]; intros s H; [reflexivity|].
  cbn [fold_left].
  rewrite IH; rewrite (step_recording_view s e H); [reflexivity|exact H].
Qed.

End Shipped.

(** C1. The success callback of [startSetup] stores the questions it
    received or parsed in [allQuestions]; [startInterview] looks for them in
    [questions], which nothing assigns.  So after any events on the loaded
    page [questions] is empty, [startInterview] is refused with the message
    for no questions, no recorder exists and nothing has been uploaded; in
    particular after a setup that parsed two questions, a click on the start
    button shows that error, creates no recorder and sends no question to be
    spoken. *)
Theorem C1_startInterview_after_setup :
  (forall cid rect sin mime es,
     let s := run (loaded cid rect sin mime) es in
     questions (ses s) = []
     /\ startInterview s
        = showMessage (lit "No more questions available") error s
     /\ mediaRecorder (rec s) = None
     /\ uploads s = [])
  /\ (forall cid rect sin mime,
        let role := lit "Backend Engineer" in
        let r := VObj [("questions"%string,
                        VStr (lit "1. Tell me about yourself" ++ LF
                                :: lit "2. Describe a challenge you solved"));
                       ("question_list"%string, VArr [])] in
        let s := run (loaded cid rect sin mime)
                     [ClickStartSetup role; MediaGranted role;
                      StartInterviewAnswered (Some r); ClickStart] in
        allQuestions (ses s)
        = VArr [VStr (lit "1. Tell me about yourself");
                VStr (lit "2. Describe a challenge you solved")]
        /\ currentQuestionIndex (ses s) = 0
        /\ last (messages (page s)) ([], info)
           = (lit "No more questions available", error)
        /\ mediaRecorder (rec s) = None
        /\ recording (rec s) = false
        /\ isSpeaking (sp s) = false
        /\ sent (br s) = [GetUserMedia role; PostStartInterview role]).
Proof.
  split.
  - intros cid rect sin mime es s.
    assert (V : recording_view s = recording_view (loaded cid rect sin mime)).
    { apply run_recording_view. repeat split. }
    unfold recording_view in V. injection V as Hq Hm _ Hu _.
    split; [exact Hq|]. split; [|split; [exact Hm|exact Hu]].
    apply startInterview_refuses. rewrite Hq. apply Nat.le_0_l.
  - intros cid rect sin mime role r s.
    repeat split; vm_compute; reflexivity.
Qed.

(** ** The analysis and its retries *)

Lemma retry_index_none (ts : list (nat * TimerCb)) :
  filter is_retry ts = [] -> retry_index ts = None.
Proof.
  induction ts as [|t ts IH]; simpl; [reflexivity|].
  destruct (is_retry t); [discriminate|].
  intros H. now rewrite IH.
Qed.

Lemma retry_index_last (ts : list (nat * TimerCb)) (d : nat) :
  filter is_retry ts = [] ->
  retry_index (ts ++ [(d, RetryAnalysis)]) = Some (List.length ts).
Proof.
  induction ts as [|t ts IH]; simpl; [reflexivity|].
  destruct (is_retry t); [discriminate|].
  intros H. now rewrite IH.
Qed.

Lemma nth_error_last {A} (l : list A) (x : A) :
  nth_error (l ++ [x]) (List.length l) = Some x.
Proof. induction l; simpl; auto. Qed.

Lemma remove_nth_last {A} (l : list A) (x : A) :
  remove_nth (List.length l) (l ++ [x]) = l.
Proof. induction l; simpl; [reflexivity|]. now f_equal. Qed.

(** A failure below the ceiling counts one retry, says so, and sets a
    timeout of 5000 ms for the next request. *)
Lemma analyze_error_below (s : State) :
  analysisRetryCount (an s) < MAX_RETRY_ATTEMPTS ->
  let s' := step s (AnalyzeAnswered None) in
  analysisRetryCount (an s') = analysisRetryCount (an s) + 1
  /\ analyzingData (an s') = analyzingData (an s)
  /\ timers (br s') = timers (br s) ++ [(5000, RetryAnalysis)]
  /\ sent (br s') = sent (br s)
  /\ messages (page s')
     = messages (page s) ++ [retry_message (analysisRetryCount (an s) + 1)]
  /\ ses s' = ses s.
Proof.
  intros H. apply Nat.ltb_lt in H.
  unfold step, handler, analyze_error, bind, gets, console_error, modify.
  cbn [set_console upd_page an page console]. rewrite H.
  repeat split.
Qed.

(** A failure at the ceiling ends the analysis: no timeout, no request. *)
Lemma analyze_error_at_ceiling (s : State) :
  MAX_RETRY_ATTEMPTS <= analysisRetryCount (an s) ->
  let s' := step s (AnalyzeAnswered None) in
  analyzingData (an s') = false
  /\ analysisRetryCount (an s') = analysisRetryCount (an s)
  /\ newest s' = Some give_up_message
  /\ timers (br s') = timers (br s)
  /\ sent (br s') = sent (br s).
Proof.
  intros H. apply Nat.ltb_ge in H.
  unfold step, handler, analyze_error, bind, gets, console_error, modify.
  cbn [set_console upd_page an page console]. rewrite H.
  repeat split. unfold newest. cbn. now rewrite rev_unit.
Qed.

(** When the delay has passed the request is sent again, once. *)
Lemma await_retry_sends (s : State) (ts : list (nat * TimerCb)) (d : nat) :
  timers (br s) = ts ++ [(d, RetryAnalysis)] ->
  filter is_retry ts = [] ->
  let s' := await_retry s in
  timers (br s') = ts
  /\ sent (br s')
     = sent (br s)
       ++ [PostAnalyzeInterview (candidateId (ses s))
             (List.length (questions (ses s)))]
  /\ an s' = an s
  /\ messages (page s') = messages (page s)
  /\ ses s' = ses s.
Proof.
  intros Hts Hno. unfold await_retry.
  rewrite Hts, retry_index_last by assumption.
  unfold step, handler, timer_fires, bind, gets.
  rewrite Hts, nth_error_last, remove_nth_last.
  repeat split.
Qed.

Lemma analysis_requests_sent (s s' : State) (r : Request) :
  sent (br s') = sent (br s) ++ [r] ->
  analysis_requests s' = analysis_requests s + (if is_analyze r then 1 else 0).
Proof.
  unfold analysis_requests. intros ->.
  rewrite filter_app, length_app. simpl.
  destruct (is_analyze r); reflexivity.
Qed.

(** One failed attempt below the ceiling: one retry counted, one request
    more, nothing left pending. *)
Lemma failed_attempt_below (s : State) :
  analysisRetryCount (an s) < MAX_RETRY_ATTEMPTS ->
  pending_retries s = [] ->
  let s' := failed_attempt s in
  analysisRetryCount (an s') = analysisRetryCount (an s) + 1
  /\ analyzingData (an s') = analyzingData (an s)
  /\ pending_retries s' = []
  /\ analysis_requests s' = analysis_requests s + 1
  /\ newest s' = Some (retry_message (analysisRetryCount (an s) + 1)).
Proof.
  intros Hn Hp. unfold failed_attempt.
  destruct (analyze_error_below s Hn) as (Hc & Hd & Ht & Hs & Hm & Hses).
  unfold pending_retries in Hp.
  destruct (await_retry_sends _ _ _ Ht Hp) as (Ht' & Hs' & Ha' & Hm' & _).
  cbv zeta. rewrite Ha'. repeat split; try assumption.
  - unfold pending_retries. now rewrite Ht'.
  - rewrite (analysis_requests_sent _ _ _ Hs'). simpl.
    unfold analysis_requests. now rewrite Hs.
  - unfold newest. rewrite Hm', Hm. now rewrite rev_unit.
Qed.

Lemma fail_times_below (s : State) :
  analysisRetryCount (an s) = 0 ->
  pending_retries s = [] ->
  forall k, k <= MAX_RETRY_ATTEMPTS ->
    analysisRetryCount (an (fail_times k s)) = k
    /\ analyzingData (an (fail_times k s)) = analyzingData (an s)
    /\ pending_retries (fail_times k s) = []
    /\ analysis_requests (fail_times k s) = analysis_requests s + k.
Proof.
  intros H0 Hp. induction k as [|k IH]; intros Hk.
  - simpl. rewrite H0, Nat.add_0_r. auto.
  - destruct IH as (Hc & Hd & Hr & Hq); [lia|].
    cbn [fail_times].
    destruct (failed_attempt_below (fail_times k s)) as (Hc' & Hd' & Hr' & Hq' & _);
      [lia|assumption|].
    rewrite Hc', Hd', Hq', Hc, Hd, Hq. repeat split; try assumption; lia.
Qed.

Lemma await_retry_none (s : State) : pending_retries s = [] -> await_retry s = s.
Proof.
  unfold pending_retries, await_retry. intros H.
  now rewrite (retry_index_none _ H).
Qed.

Lemma pending_retries_timers (s s' : State) :
  timers (br s') = timers (br s) -> pending_retries s' = pending_retries s.
Proof. unfold pending_retries. now intros ->. Qed.

Lemma analysis_requests_same (s s' : State) :
  sent (br s') = sent (br s) -> analysis_requests s' = analysis_requests s.
Proof. unfold analysis_requests. now intros ->. Qed.

Lemma pending_retries_added (s s' : State) (t : nat * TimerCb) :
  timers (br s') = timers (br s) ++ [t] ->
  pending_retries s' = pending_retries s ++ (if is_retry t then [t] else []).
Proof.
  unfold pending_retries. intros ->. rewrite filter_app. simpl.
  now destruct (is_retry t).
Qed.

(** From a state in which an analysis request has been sent and no retry
    is counted or pending: each of the first three consecutive failures sets
    one timeout of 5000 ms, after which the request is sent again; the fourth
    ends the analysis and sets none. *)
Lemma retries_then_give_up (s : State) :
  analysisRetryCount (an s) = 0 ->
  pending_retries s = [] ->
  (forall k, k < MAX_RETRY_ATTEMPTS ->
     let sk := fail_times k s in
     pending_retries (step sk (AnalyzeAnswered None)) = [(5000, RetryAnalysis)]
     /\ analyzingData (an (failed_attempt sk)) = analyzingData (an s)
     /\ newest (failed_attempt sk) = Some (retry_message (k + 1))
     /\ analysis_requests (failed_attempt sk) = analysis_requests s + (k + 1))
  /\ (let s4 := step (fail_times MAX_RETRY_ATTEMPTS s) (AnalyzeAnswered None) in
      analyzingData (an s4) = false
      /\ newest s4 = Some give_up_message
      /\ pending_retries s4 = []
      /\ await_retry s4 = s4
      /\ analysis_requests s4 = analysis_requests s + MAX_RETRY_ATTEMPTS).
Proof.
  intros H0 Hp. split.
  - intros k Hk sk.
    destruct (fail_times_below s H0 Hp k (Nat.lt_le_incl _ _ Hk))
      as (Hc & Hd & Hr & Hq).
    fold sk in Hc, Hd, Hr, Hq.
    assert (Hk' : analysisRetryCount (an sk) < MAX_RETRY_ATTEMPTS)
      by (rewrite Hc; exact Hk).
    destruct (failed_attempt_below sk Hk' Hr) as (Hc' & Hd' & Hr' & Hq' & Hm').
    destruct (analyze_error_below sk Hk') as (_ & _ & Ht & _).
    split; [|split; [|split]].
    + rewrite (pending_retries_added _ _ _ Ht), Hr. reflexivity.
    + rewrite Hd'. exact Hd.
    + rewrite Hm', Hc. reflexivity.
    + rewrite Hq', Hq. symmetry. apply Nat.add_assoc.
  - destruct (fail_times_below s H0 Hp MAX_RETRY_ATTEMPTS (Nat.le_refl _))
      as (Hc & Hd & Hr & Hq).
    assert (Hk : MAX_RETRY_ATTEMPTS
                 <= analysisRetryCount (an (fail_times MAX_RETRY_ATTEMPTS s)))
      by (rewrite Hc; apply Nat.le_refl).
    destruct (analyze_error_at_ceiling _ Hk) as (Hd' & Hc' & Hm' & Ht' & Hs').
    cbv zeta.
    assert (Hp' : pending_retries
                    (step (fail_times MAX_RETRY_ATTEMPTS s) (AnalyzeAnswered None))
                  = [])
      by (rewrite (pending_retries_timers _ _ Ht'); exact Hr).
    split; [exact Hd'|].
    split; [exact Hm'|].
    split; [exact Hp'|].
    split; [exact (await_retry_none _ Hp')|].
    rewrite (analysis_requests_same _ _ Hs'). exact Hq.
Qed.

(** Every call of [stopInterview] starts the count of retries again and
    sends one analysis request. *)
Lemma stopInterview_submits (s : State) :
  let s' := state_of (stopInterview s) in
  analysisRetryCount (an s') = 0
  /\ analyzingData (an s') = true
  /\ analysis_requests s' = analysis_requests s + 1
  /\ pending_retries s' = pending_retries s.
Proof.
  destruct s as [[mr chunks recg st tfi] se [spk au ec af] a p
                 [rl fr ti iv ta sn ni un ms mi]].
  unfold analysis_requests, pending_retries.
  destruct mr as [[[| |] g]|], tfi as [[|h]|], ec as [c|], af as [[|h']|].
  all: cbn.
  all: rewrite ?filter_app; cbn; rewrite ?length_app, ?app_nil_r; cbn.
  all: auto.
Qed.

(** C3, as the code has it.  [stopInterview], called where no retry is
    pending, sends the analysis request.  Each of the first three consecutive
    failures sets one timeout of 5000 ms, after which the request is sent
    again, the analysis still running; the fourth failure ends the analysis
    with the error message for giving up and sets no timeout, so that the
    requests stay at four: the first and its three retries. *)
Theorem C3_three_retries_then_gives_up (s0 : State) :
  pending_retries s0 = [] ->
  let s := state_of (stopInterview s0) in
  analysis_requests s = analysis_requests s0 + 1
  /\ analyzingData (an s) = true
  /\ (forall k, k < MAX_RETRY_ATTEMPTS ->
        let sk := fail_times k s in
        pending_retries (step sk (AnalyzeAnswered None))
        = [(5000, RetryAnalysis)]
        /\ analyzingData (an (failed_attempt sk)) = true
        /\ newest (failed_attempt sk) = Some (retry_message (k + 1))
        /\ analysis_requests (failed_attempt sk)
           = analysis_requests s0 + 1 + (k + 1))
  /\ (let s4 := step (fail_times MAX_RETRY_ATTEMPTS s) (AnalyzeAnswered None) in
      analyzingData (an s4) = false
      /\ newest s4 = Some give_up_message
      /\ pending_retries s4 = []
      /\ await_retry s4 = s4
      /\ analysis_requests s4 = analysis_requests s0 + 1 + MAX_RETRY_ATTEMPTS).
Proof.
  intros Hp0.
  destruct (stopInterview_submits s0) as (H0 & Hd & Hq & Hp).
  set (s := state_of (stopInterview s0)) in *.
  rewrite Hp0 in Hp.
  destruct (retries_then_give_up s H0 Hp) as [Hk H4].
  split; [exact Hq|]. split; [exact Hd|]. split.
  - intros k Hlt sk. destruct (Hk k Hlt) as (K1 & K2 & K3 & K4).
    split; [exact K1|]. split; [now rewrite <- Hd|]. split; [exact K3|].
    fold sk in K4. rewrite K4, Hq. reflexivity.
  - destruct H4 as (K1 & K2 & K3 & K4 & K5).
    split; [exact K1|]. split; [exact K2|]. split; [exact K3|].
    split; [exact K4|]. rewrite K5, Hq. reflexivity.
Qed.

Lemma C3_three_retries_witness :
  pending_retries example_page = []
  /\ (let s := state_of (stopInterview example_page) in
      let s4 := step (fail_times MAX_RETRY_ATTEMPTS s) (AnalyzeAnswered None) in
      analyzingData (an s4) = false
      /\ newest s4 = Some give_up_message
      /\ pending_retries s4 = []
      /\ await_retry s4 = s4
      /\ analysis_requests s4
         = analysis_requests example_page + 1 + MAX_RETRY_ATTEMPTS).
Proof.
  split; [reflexivity|].
  exact (proj2 (proj2 (proj2 (C3_three_retries_then_gives_up example_page eq_refl)))).
Defined.

(** C3 as stated fails: after three consecutive failures a fourth request
    has been sent, the analysis is still running and no terminal error has
    been shown. *)
Lemma C3_fourth_request_after_three_failures :
  let s := fail_times 3 (step example_page ClickStop) in
  analysis_requests s = 4
  /\ analyzingData (an s) = true
  /\ existsb is_give_up (messages (page s)) = false.
Proof. vm_compute. repeat split. Qed.

(** ** The draw loops *)

Lemma startSpeaking_returns (s : State) : returned (startSpeaking s) = true.
Proof.
  destruct s as [r se [spk au [c|] af] a p b]; reflexivity.
Qed.

(** Every call of [startSpeaking] starts a loop of its own. *)
Lemma startSpeaking_adds_loop (s : State) :
  let s' := state_of (startSpeaking s) in
  isSpeaking (sp s') = true
  /\ exists h d, frameRequests (br s') = frameRequests (br s) ++ [(S h, d)]
                 /\ animationFrame (sp s') = Some (S h).
Proof.
  destruct s as [r se [spk au [c|] af] a p b]; cbn; split; eauto.
Qed.

(** While the avatar speaks, a frame callback draws and asks for the next
    frame. *)
Lemma drawMouth_speaking (d : DrawMouth) (s : State) :
  isSpeaking (sp s) = true ->
  let s' := state_of (drawMouth d s) in
  isSpeaking (sp s') = true
  /\ frameRequests (br s')
     = frameRequests (br s) ++ [(S (nextId (br s)), next_frame d)]
  /\ animationFrame (sp s') = Some (S (nextId (br s))).
Proof.
  destruct s as [r se [spk au c af] a p b]. simpl. intros ->.
  cbn. auto.
Qed.

(** When it does not speak, the callback clears the canvas and ends. *)
Lemma drawMouth_silent (d : DrawMouth) (s : State) :
  isSpeaking (sp s) = false ->
  let s' := state_of (drawMouth d s) in
  isSpeaking (sp s') = false
  /\ frameRequests (br s') = frameRequests (br s)
  /\ animationFrame (sp s') = animationFrame (sp s).
Proof.
  destruct s as [r se [spk au c af] a p b]. simpl. intros ->.
  cbn. auto.
Qed.

Lemma drawMouth_returns (d : DrawMouth) (s : State) :
  exists s', drawMouth d s = Ok tt s'.
Proof.
  destruct s as [r se [[|] au c af] a p b]; cbn; eexists; reflexivity.
Qed.

Lemma run_frame_speaking (cbs : list (nat * DrawMouth)) :
  forall s, isSpeaking (sp s) = true ->
    let s' := state_of (run_frame cbs s) in
    isSpeaking (sp s') = true
    /\ List.length (frameRequests (br s'))
       = List.length (frameRequests (br s)) + List.length cbs.
Proof.
  induction cbs as [|[h d] cbs IH]; intros s Hs.
  - simpl. auto.
  - cbn [run_frame]. unfold bind.
    destruct (drawMouth_returns d s) as [s1 E].
    destruct (drawMouth_speaking d s Hs) as (H1 & H2 & _).
    rewrite E in *. simpl in H1, H2.
    destruct (IH s1 H1) as [H3 H4]. split; [exact H3|].
    cbv zeta in H4. rewrite H4, H2, length_app. simpl. lia.
Qed.

Lemma run_frame_silent (cbs : list (nat * DrawMouth)) :
  forall s, isSpeaking (sp s) = false ->
    let s' := state_of (run_frame cbs s) in
    isSpeaking (sp s') = false
    /\ frameRequests (br s') = frameRequests (br s).
Proof.
  induction cbs as [|[h d] cbs IH]; intros s Hs.
  - simpl. auto.
  - cbn [run_frame]. unfold bind.
    destruct (drawMouth_returns d s) as [s1 E].
    destruct (drawMouth_silent d s Hs) as (H1 & H2 & _).
    rewrite E in *. simpl in H1, H2.
    destruct (IH s1 H1) as [H3 H4]. split; [exact H3|].
    cbv zeta in H4. now rewrite H4.
Qed.

Lemma animation_frame_unfold (s : State) :
  animation_frame s
  = run_frame (frameRequests (br s)) (set_frameRequests [] s).
Proof. reflexivity. Qed.

(** A frame keeps the number of loops while the avatar speaks. *)
Lemma frame_speaking (s : State) :
  isSpeaking (sp s) = true ->
  isSpeaking (sp (after_call s Frame)) = true
  /\ live_loops (after_call s Frame) = live_loops s.
Proof.
  intros Hs. unfold after_call, avatar_call, live_loops.
  rewrite animation_frame_unfold.
  destruct (run_frame_speaking (frameRequests (br s)) (set_frameRequests [] s))
    as [H1 H2]; [exact Hs|].
  split; [exact H1|]. cbv zeta in H2. rewrite H2. reflexivity.
Qed.

(** A frame ends every loop once the avatar has stopped speaking. *)
Lemma frame_silent (s : State) :
  isSpeaking (sp s) = false ->
  isSpeaking (sp (after_call s Frame)) = false
  /\ live_loops (after_call s Frame) = 0.
Proof.
  intros Hs. unfold after_call, avatar_call, live_loops.
  rewrite animation_frame_unfold.
  destruct (run_frame_silent (frameRequests (br s)) (set_frameRequests [] s))
    as [H1 H2]; [exact Hs|].
  split; [exact H1|]. cbv zeta in H2. rewrite H2. reflexivity.
Qed.

Lemma start_adds_loop (s : State) :
  isSpeaking (sp (after_call s CallStart)) = true
  /\ live_loops (after_call s CallStart) = live_loops s + 1.
Proof.
  destruct (startSpeaking_adds_loop s) as (H1 & h & d & H2 & _).
  unfold after_call, avatar_call, live_loops.
  split; [exact H1|]. rewrite H2, length_app. reflexivity.
Qed.

(** Without a call of [stopSpeaking], the loops alive are those there were
    and one for each call of [startSpeaking]. *)
Lemma loops_count (cs : list AvatarCall) :
  forallb (fun c => negb (is_stop c)) cs = true ->
  forall s, live_loops s = 0 \/ isSpeaking (sp s) = true ->
    live_loops (after_calls s cs)
    = live_loops s + List.length (filter is_start cs).
Proof.
  unfold after_calls.
  induction cs as [|c cs IH]; intros Hcs s Hs; [simpl; lia|].
  simpl in Hcs. apply andb_prop in Hcs as [Hc Hcs].
  cbn [fold_left filter].
  destruct c; [| discriminate |].
  - destruct (start_adds_loop s) as [H1 H2].
    rewrite IH by auto. rewrite H2. simpl. lia.
  - simpl. destruct Hs as [H0|Hsp].
    + rewrite IH; auto.
      * f_equal. unfold after_call, avatar_call, live_loops in *.
        rewrite animation_frame_unfold.
        destruct (frameRequests (br s)); [reflexivity|discriminate].
      * left. unfold after_call, avatar_call, live_loops in *.
        rewrite animation_frame_unfold.
        destruct (frameRequests (br s)); [reflexivity|discriminate].
    + destruct (frame_speaking s Hsp) as [H1 H2].
      rewrite IH by auto. now rewrite H2.
Qed.

Lemma start_one_loop (s : State) :
  live_loops s = 0 -> one_loop (after_call s CallStart).
Proof.
  unfold live_loops. intros H0.
  destruct (startSpeaking_adds_loop s) as (H1 & h & d & H2 & H3).
  destruct (frameRequests (br s)); [|discriminate].
  split; [exact H1|]. exists h, d. auto.
Qed.

Lemma frame_one_loop (s : State) :
  one_loop s -> one_loop (after_call s Frame).
Proof.
  intros (Hs & h & d & Hq & Ha).
  unfold after_call, avatar_call. rewrite animation_frame_unfold, Hq.
  cbn [run_frame]. unfold bind.
  destruct (drawMouth_returns d (set_frameRequests [] s)) as [s1 E].
  destruct (drawMouth_speaking d (set_frameRequests [] s) Hs) as (H1 & H2 & H3).
  rewrite E in *. simpl in H1, H2, H3 |- *.
  split; [exact H1|]. eauto.
Qed.

Lemma frames_one_loop (n : nat) :
  forall s, one_loop s -> one_loop (after_calls s (repeat Frame n)).
Proof.
  induction n as [|n IH]; intros s H; [exact H|].
  simpl. apply IH, frame_one_loop, H.
Qed.

Lemma stop_silent (s : State) : isSpeaking (sp (after_call s CallStop)) = false.
Proof.
  destruct s as [r se [spk au [c|] [[|h]|]] a p b]; reflexivity.
Qed.

(** [stopSpeaking] cancels the one loop. *)
Lemma stop_one_loop (s : State) :
  one_loop s -> live_loops (after_call s CallStop) = 0.
Proof.
  intros (Hs & h & d & Hq & Ha).
  destruct s as [r se [spk au c af] a p [rl fr ti iv ta se' ni un ms mi]].
  simpl in Hs, Hq, Ha. subst spk fr af.
  unfold live_loops.
  destruct c as [c|]; cbn; now rewrite Nat.eqb_refl.
Qed.

Lemma after_calls_app (s : State) (cs cs' : list AvatarCall) :
  after_calls s (cs ++ cs') = after_calls (after_calls s cs) cs'.
Proof. apply fold_left_app. Qed.

(** C4, as the code has it.  From a state with no draw loop alive, a call
    of [startSpeaking] starts one loop; it is the only one through any number
    of frames, and the call of [stopSpeaking] that follows leaves none.
    [startSpeaking] has no guard on [isSpeaking]: every call starts a loop
    of its own, so that without a call of [stopSpeaking] as many loops are
    alive as there were calls of [startSpeaking].  Once [stopSpeaking] has
    been called, whatever came before, the next frame ends every loop. *)
Theorem C4_one_loop_per_start (s : State) :
  live_loops s = 0 ->
  (forall n,
     let s1 := after_calls s (CallStart :: repeat Frame n) in
     live_loops s1 = 1 /\ live_loops (after_call s1 CallStop) = 0)
  /\ (forall cs,
        forallb (fun c => negb (is_stop c)) cs = true ->
        live_loops (after_calls s cs) = List.length (filter is_start cs))
  /\ (forall cs, live_loops (after_calls s (cs ++ [CallStop; Frame])) = 0).
Proof.
  intros H0. split; [|split].
  - intros n s1.
    assert (H1 : one_loop s1).
    { unfold s1. cbn [after_calls fold_left].
      apply (frames_one_loop n), start_one_loop, H0. }
    split; [|apply stop_one_loop, H1].
    destruct H1 as (_ & h & d & Hq & _). unfold live_loops. now rewrite Hq.
  - intros cs Hcs. rewrite loops_count by auto. now rewrite H0.
  - intros cs. rewrite after_calls_app. cbn [after_calls fold_left].
    apply frame_silent, stop_silent.
Qed.

Lemma C4_one_loop_witness :
  live_loops example_page = 0
  /\ (let s1 := after_calls example_page (CallStart :: repeat Frame 2) in
      live_loops s1 = 1 /\ live_loops (after_call s1 CallStop) = 0).
Proof.
  split; [reflexivity|].
  exact (proj1 (C4_one_loop_per_start example_page eq_refl) 2).
Defined.

(** C4 as stated fails: a second call of [startSpeaking] with no
    [stopSpeaking] between is not a no-op, two loops are alive after it; and
    [stopSpeaking] cancels the newer one only, so one is alive after it. *)
Lemma C4_second_start_spawns_second_loop :
  live_loops (after_calls example_page [CallStart; CallStart]) = 2
  /\ live_loops (after_calls example_page [CallStart; CallStart; CallStop]) = 1.
Proof. vm_compute. split; reflexivity. Qed.

(** ** The avatar's canvas and its resize listeners *)

(** One call: the first canvas with the id is removed, a new one is
    appended, and one more listener is registered. *)
Lemma setupAvatarAnimations_once (s : State) :
  let s' := state_of (setupAvatarAnimations s) in
  canvases (page s') = tl (canvases (page s)) ++ [S (nextId (br s))]
  /\ resizeListeners (br s') = resizeListeners (br s) ++ [S (nextId (br s))]
  /\ setupAvatarAnimations s = Ok (S (nextId (br s))) s'.
Proof.
  destruct s as [r se spk a p b]. cbn. auto.
Qed.

Lemma setup_times_listeners (n : nat) (s : State) :
  resize_listeners (setup_times n s) = resize_listeners s + n.
Proof.
  unfold resize_listeners.
  induction n as [|n IH]; cbn [setup_times]; [lia|].
  destruct (setupAvatarAnimations_once (setup_times n s)) as (_ & H & _).
  rewrite H, length_app, IH. cbn [List.length]. lia.
Qed.

Lemma setup_times_surfaces (n : nat) (s : State) :
  surfaces (setup_times (S n) s) = Nat.max 1 (surfaces s).
Proof.
  unfold surfaces.
  induction n as [|n IH].
  - cbn [setup_times]. destruct (setupAvatarAnimations_once s) as (H & _).
    rewrite H, length_app. destruct (canvases (page s)); simpl; lia.
  - change (setup_times (S (S n)) s)
      with (state_of (setupAvatarAnimations (setup_times (S n) s))).
    destruct (setupAvatarAnimations_once (setup_times (S n) s)) as (H & _).
    rewrite H, length_app.
    destruct (canvases (page (setup_times (S n) s))) as [|c cs];
      cbn [List.length tl] in *; lia.
Qed.

Lemma setCanvasDimensions_eq (c : nat) (s : State) :
  setCanvasDimensions c s
  = Ok tt (set_drawing
             (drawing (page s)
              ++ [SetDimensions c (fst (containerRect (page s)))
                    (snd (containerRect (page s)))]) s).
Proof. reflexivity. Qed.

(** Every listener sets the dimensions of its canvas when the window is
    resized. *)
Lemma run_listeners_settings (ls : list nat) :
  forall s,
    dimension_settings (state_of (run_listeners ls s))
    = dimension_settings s + List.length ls.
Proof.
  induction ls as [|c ls IH]; intros s.
  - cbn [run_listeners state_of skip ret List.length]. symmetry. apply Nat.add_0_r.
  - cbn [run_listeners]. unfold bind at 1.
    rewrite setCanvasDimensions_eq, IH.
    unfold dimension_settings. cbn [set_drawing upd_page page drawing].
    rewrite filter_app, length_app. cbn [filter is_set_dimensions List.length].
    lia.
Qed.

Lemma window_resized_settings (rect : float * float) (s : State) :
  dimension_settings (state_of (window_resized rect s))
  = dimension_settings s + resize_listeners s.
Proof.
  unfold window_resized, bind, modify, gets.
  rewrite run_listeners_settings. reflexivity.
Qed.

(** C8, as the code has it.  A call of [setupAvatarAnimations] removes the
    canvas there was before it adds its own, so that after one call or more
    the page holds one canvas (or as many as it held, if it held several).
    It also registers a [resize] listener and removes none: after [n] calls
    there are [n] listeners more, and a resize of the window sets canvas
    dimensions once for each of them. *)
Theorem C8_one_surface_n_listeners (s : State) (n : nat) :
  surfaces (setup_times (S n) s) = Nat.max 1 (surfaces s)
  /\ resize_listeners (setup_times n s) = resize_listeners s + n
  /\ (forall rect,
        dimension_settings (state_of (window_resized rect (setup_times n s)))
        = dimension_settings (setup_times n s) + (resize_listeners s + n)).
Proof.
  split; [apply setup_times_surfaces|].
  split; [apply setup_times_listeners|].
  intros rect. now rewrite window_resized_settings, setup_times_listeners.
Qed.

(** C8 as stated fails: when the avatar image fails to load and its
    placeholder loads, the avatar has been set up twice; one canvas is in the
    page and two [resize] listeners are registered. *)
Lemma C8_two_listeners_after_two_setups :
  let s := run example_page [ImageFailed; ImageLoaded] in
  surfaces s = 1 /\ resize_listeners s = 2.
Proof. vm_compute. split; reflexivity. Qed.

(** ** The mouth *)

Lemma SFmul_comm (prec emax : Z) (x y : spec_float) :
  SFmul prec emax x y = SFmul prec emax y x.
Proof.
  destruct x as [sx|sx| |sx mx ex], y as [sy|sy| |sy my ey]; simpl;
    try reflexivity; try (now rewrite xorb_comm).
  now rewrite xorb_comm, Pos.mul_comm, Z.add_comm.
Qed.

(** Multiplication of binary64 numbers commutes. *)
Lemma float_mul_comm (x y : float) : (x * y = y * x)%float.
Proof.
  rewrite <- (SF2Prim_Prim2SF (x * y)), <- (SF2Prim_Prim2SF (y * x)).
  rewrite !mul_spec. unfold SF64mul. now rewrite SFmul_comm.
Qed.

Lemma mouthHeight_formula (sin : float -> float) (d : DrawMouth) :
  mouthHeight sin d
  = (mouthBaseHeight d
     + 3 * mouthBaseHeight d
       * (sin (frameCount d * 0.3) * intensity d + intensity d))%float.
Proof.
  unfold mouthHeight, openAmount.
  now rewrite (float_mul_comm (mouthBaseHeight d) 3).
Qed.

(** C9. A frame callback with base height [base], intensity [i] and frame
    counter [f], run while the avatar speaks, draws the mouth with the height
    [base + 3 * base * (sin (f * 0.3) * i + i)] and asks for the next frame
    with the counter at [f + 1] and nothing else changed.  Run while the
    avatar does not speak, it clears the canvas, draws no mouth and asks for
    no frame. *)
Theorem C9_mouth_height_and_frame_counter (d : DrawMouth) (s : State) :
  let s' := state_of (drawMouth d s) in
  let sin := Math_sin (br s) in
  let base := mouthBaseHeight d in
  let i := intensity d in
  let f := frameCount d in
  let height := (base + 3 * base * (sin (f * 0.3) * i + i))%float in
  drawMouth d s = Ok tt s'
  /\ if isSpeaking (sp s) then
       drawing (page s')
       = drawing (page s)
         ++ [ClearRect (canvas d);
             Lips (canvas d) (mouthX d) (mouthY d) (mouthWidth d) height;
             InnerMouth (canvas d) (mouthX d) (mouthY d)
               (mouthWidth d * 0.7 / 2) (height * 0.7 / 2)]
       /\ frameRequests (br s')
          = frameRequests (br s)
            ++ [(S (nextId (br s)),
                 {| canvas := canvas d; intensity := i;
                    mouthX := mouthX d; mouthY := mouthY d;
                    mouthWidth := mouthWidth d; mouthBaseHeight := base;
                    frameCount := f + 1 |})]
     else
       drawing (page s') = drawing (page s) ++ [ClearRect (canvas d)]
       /\ frameRequests (br s') = frameRequests (br s).
Proof.
  cbv zeta. rewrite <- mouthHeight_formula.
  destruct s as [r se [[|] au c af] a p b].
  - cbn. rewrite <- !app_assoc. auto.
  - cbn. auto.
Qed.

(** ** The question index of an upload *)




(** The recorder's events reach their handlers: the media is stored, and
    [saveRecording] uploads it with the index current then. *)
Lemma run_task_uploads (s : State) (data : Blob) :
  tasks (br s) = [RecorderStopped data] ->
  data <> [] ->
  recordedChunks (rec s) = [] ->
  uploads (step s RunTask)
  = uploads s
    ++ [PostUploadRecording data (currentQuestionIndex (ses s))
          (candidateId (ses s))].
Proof.
  destruct s as [[mr chunks recg st tfi] [k qs aq idata cid] spk a p
                 [rl fr ti iv ta se ni un ms mi]].
  simpl. intros -> Hdata ->.
  destruct data as [|x data]; [congruence|].
  unfold uploads. cbn. rewrite filter_app. cbn. now rewrite app_nil_r.
Qed.




(** ** Advancing to the next question *)

Lemma stopRecording_leaves (s : State) :
  exists s1,
    stopRecording s = Ok tt s1
    /\ ses s1 = ses s
    /\ an s1 = an s
    /\ timers (br s1) = timers (br s)
    /\ sent (br s1) = sent (br s).
Proof.
  destruct s as [[mr chunks recg st tfi] se spk a p b].
  destruct mr as [[[| |] g]|], tfi as [[|h]|];
    eexists; (split; [reflexivity|]); cbn; auto.
Qed.

Lemma stopInterview_leaves (s : State) :
  let s' := state_of (stopInterview s) in
  ses s' = ses s /\ next_timers s' = next_timers s.
Proof.
  destruct s as [[mr chunks recg st tfi] se [spk au ec af] a p
                 [rl fr ti iv ta sn ni un ms mi]].
  unfold next_timers.
  destruct mr as [[[| |] g]|], tfi as [[|h]|], ec as [c|], af as [[|h']|].
  all: cbn.
  all: rewrite ?filter_app; cbn; rewrite ?app_nil_r.
  all: auto.
Qed.

(** [nextQuestion] on the last question, or past it, ends the interview:
    the analysis is requested and no recording of a further question is set
    up.  Before the last question it shows the next one and sets the timeout
    of 1000 ms that will record it, and requests no analysis. *)
Theorem nextQuestion_last_or_not (s : State) :
  let s' := state_of (nextQuestion s) in
  returned (nextQuestion s) = true
  /\ currentQuestionIndex (ses s') = currentQuestionIndex (ses s) + 1
  /\ if List.length (questions (ses s)) <=? currentQuestionIndex (ses s) + 1
     then next_timers s' = next_timers s
          /\ analyzingData (an s') = true
          /\ analysis_requests s' = analysis_requests s + 1
     else next_timers s' = next_timers s ++ [(1000, StartNextQuestion)]
          /\ analysis_requests s' = analysis_requests s.
Proof.
  cbv zeta. split; [apply nextQuestion_safe|].
  destruct (stopRecording_leaves s) as (s1 & E & Hses & Han & Hti & Hse).
  rewrite (nextQuestion_unfold s s1 E), Hses.
  set (s2 := set_currentQuestionIndex (currentQuestionIndex (ses s) + 1) s1).
  assert (Hti2 : next_timers s2 = next_timers s)
    by (unfold next_timers, s2; cbn; now rewrite Hti).
  assert (Hse2 : analysis_requests s2 = analysis_requests s)
    by (unfold analysis_requests, s2; cbn; now rewrite Hse).
  assert (Hi2 : currentQuestionIndex (ses s2) = currentQuestionIndex (ses s) + 1)
    by reflexivity.
  assert (Hq2 : questions (ses s2) = questions (ses s))
    by (unfold s2; cbn; now rewrite Hses).
  clearbody s2.
  destruct (_ <=? _) eqn:L.
  - destruct (stopInterview_submits s2) as (_ & Hd & Hq & _).
    destruct (stopInterview_leaves s2) as (Hs & Hn).
    rewrite Hs, Hn, Hd, Hq, Hi2, Hti2, Hse2. auto.
  - apply Nat.leb_gt in L. rewrite <- Hq2, <- Hi2 in L.
    destruct (question_at_Ok _ s2 L) as [q Eq].
    rewrite <- Hi2. rewrite (bind_Ok _ _ _ _ _ Eq).
    unfold next_timers, analysis_requests in *. cbn.
    rewrite filter_app, Hti2, Hse2. auto.
Qed.

(** ** Rendering the results *)

Lemma displayResults_invalid (data : Value) (s : State) :
  invalid_result data = true ->
  displayResults data s
  = showMessage (fst invalid_result_message) error s.
Proof. unfold displayResults. now intros ->. Qed.

Lemma showMessage_error (m : jsstring) (s : State) :
  showMessage m error s
  = Ok tt (set_messages (messages (page s) ++ [(m, error)]) s).
Proof. reflexivity. Qed.

(** C7, as the code has it.  A result that is absent, or whose
    [overall_assessment] or [question_assessments] is missing or falsy, is
    not rendered: [displayResults] shows the error message for invalid result
    data and returns, with no exception and the document as it was. *)
Theorem C7_refuses_result_without_assessments (data : Value) (s : State) :
  to_boolean data = false
  \/ to_boolean (prop data "overall_assessment") = false
  \/ to_boolean (prop data "question_assessments") = false ->
  let s' := state_of (displayResults data s) in
  returned (displayResults data s) = true
  /\ dom (page s') = dom (page s)
  /\ messages (page s') = messages (page s) ++ [invalid_result_message].
Proof.
  intros H.
  assert (Hinv : invalid_result data = true).
  { unfold invalid_result.
    destruct H as [-> | [-> | ->]]; cbn [negb orb];
      rewrite ?orb_true_r; reflexivity. }
  cbv zeta. rewrite (displayResults_invalid _ _ Hinv), showMessage_error.
  repeat split.
Qed.

Lemma C7_refuses_witness :
  let data := result_without_overall_assessment in
  to_boolean (prop data "overall_assessment") = false
  /\ returned (displayResults data example_page) = true
  /\ dom (page (state_of (displayResults data example_page)))
     = dom (page example_page).
Proof.
  split; [reflexivity|].
  pose proof (C7_refuses_result_without_assessments
                result_without_overall_assessment example_page
                (or_intror (or_introl eq_refl))) as (H1 & H2 & _).
  split; [exact H1|exact H2].
Defined.

(** C7 as stated fails: a result without [strengths] passes the check;
    the results container is shown, then reading [strengths.map] throws, and
    no message is shown. *)
Lemma C7_result_without_strengths_throws :
  let r := displayResults result_without_strengths example_page in
  returned r = false
  /\ results_mutations (state_of r) = [RemoveClass "resultsContainer" "hidden"]
  /\ messages (page (state_of r)) = []
  /\ uncaught
       (br (run example_page [AnalyzeAnswered (Some result_without_strengths)]))
     = [TypeError].
Proof. vm_compute. repeat split. Qed.

(** ** Speaking a question *)


(** [speakQuestion]: the bubble is set, the avatar starts to speak, and
    the request goes out; nothing is played yet. *)
Lemma speakQuestion_starts_speaking (q : jsstring) (s : State) :
  let s' := state_of (speakQuestion q s) in
  returned (speakQuestion q s) = true
  /\ isSpeaking (sp s') = true
  /\ (exists h d,
        frameRequests (br s') = frameRequests (br s) ++ [(S h, d)]
        /\ intensity d = 0.8%float
        /\ frameCount d = 1%float)
  /\ sent (br s') = sent (br s) ++ [PostSpeakQuestion q (candidateId (ses s))]
  /\ audioElement (sp s') = audioElement (sp s).
Proof.
  destruct s as [r se [spk au [c|] af] a p b]; cbn; repeat split; eauto.
Qed.









(** ** The PDF download *)

(** While a PDF is being generated a further click on the download button
    sends nothing: two clicks make one request.  The answer, whatever it is,
    frees the button again. *)
Theorem downloadPdf_single_flight (s : State) :
  downloadingPdf (an s) = false ->
  pdf_requests (run s [ClickDownloadPdf]) = pdf_requests s + 1
  /\ pdf_requests (run s [ClickDownloadPdf; ClickDownloadPdf])
     = pdf_requests s + 1
  /\ downloadingPdf (an (run s [ClickDownloadPdf; ClickDownloadPdf])) = true
  /\ downloadingPdf
       (an (run s [ClickDownloadPdf; ClickDownloadPdf; PdfAnswered None]))
     = false.
Proof.
  destruct s as [r se spk [ad arc dp] p b]. cbn [an downloadingPdf].
  intros ->. unfold pdf_requests. cbn.
  rewrite filter_app, length_app. auto.
Qed.

Lemma downloadPdf_single_flight_witness :
  downloadingPdf (an example_page) = false
  /\ pdf_requests (run example_page [ClickDownloadPdf; ClickDownloadPdf]) = 1.
Proof.
  split; [reflexivity|].
  exact (proj1 (proj2 (downloadPdf_single_flight example_page eq_refl))).
Defined.

(** ** More on the question parser *)

Lemma non_blank_true (s : jsstring) :
  non_blank s = true <-> forallb is_ws s = false.
Proof.
  pose proof (non_blank_false s) as H.
  destruct (non_blank s), (forallb is_ws s); intuition congruence.
Qed.

Lemma non_blank_app_r (a l : jsstring) :
  non_blank l = true -> non_blank (a ++ l) = true.
Proof.
  rewrite !non_blank_true, forallb_app. intros ->. apply andb_false_r.
Qed.

Lemma non_blank_truthy (l : jsstring) : non_blank l = true -> truthy l = true.
Proof. destruct l; [discriminate|reflexivity]. Qed.

(** What is stored as a question: not empty, and trimmed. *)
Lemma stored_question (cur : jsstring) :
  non_blank cur = true ->
  trim cur <> [] /\ trimmed (trim cur) = true /\ trim (trim cur) = trim cur.
Proof.
  intros H. split; [|split; [apply trim_trimmed|apply trim_idempotent]].
  unfold non_blank in H. now destruct (trim cur).
Qed.

Lemma numbered_from_stored (lines : list jsstring) :
  Forall (fun l => non_blank l = true) lines ->
  forall acc cur,
    Forall (fun q => q <> [] /\ trimmed q = true /\ trim q = q) acc ->
    cur = [] \/ non_blank cur = true ->
    Forall (fun q => q <> [] /\ trimmed q = true /\ trim q = q)
           (numbered_from (acc, cur) lines).
Proof.
  unfold numbered_from.
  induction 1 as [|l lines Hl _ IH]; intros acc cur Hacc Hcur.
  - cbn [fold_left parse_flush]. destruct Hcur as [-> | Hcur]; [exact Hacc|].
    rewrite (non_blank_truthy _ Hcur).
    apply Forall_app. split; [exact Hacc|].
    constructor; [now apply stored_question|constructor].
  - cbn [fold_left parse_step]. destruct (numbered_re l).
    + apply IH; [|now right].
      destruct Hcur as [-> | Hcur]; [exact Hacc|].
      rewrite (non_blank_truthy _ Hcur).
      apply Forall_app. split; [exact Hacc|].
      constructor; [now apply stored_question|constructor].
    + apply IH; [exact Hacc|right].
      change (cur ++ SP :: l) with (cur ++ [SP] ++ l).
      rewrite app_assoc. now apply non_blank_app_r.
Qed.

Lemma questionLines_non_blank (text : jsstring) :
  Forall (fun l => non_blank l = true) (questionLines text).
Proof.
  unfold questionLines. apply Forall_forall. intros l H.
  now apply filter_In in H.
Qed.

Lemma numbered_nil_paragraphs (text : jsstring) :
  numbered (questionLines text) = [] -> paragraphs text = [].
Proof.
  intros H.
  assert (Hl : questionLines text = []).
  { destruct (questionLines text) as [|l ls]; [reflexivity|].
    now apply numbered_cons_not_nil in H. }
  assert (Hws : forallb is_ws text = true).
  { rewrite <- (split_join [LF] text) by discriminate.
    apply forallb_join; [reflexivity|].
    apply filter_none in Hl.
    eapply Forall_impl; [|exact Hl]. intros p. apply non_blank_false. }
  unfold paragraphs. apply filter_none.
  rewrite <- (split_join [LF; LF] text) in Hws by discriminate.
  apply forallb_join_inv in Hws.
  eapply Forall_impl; [|exact Hws]. intros p. apply non_blank_false.
Qed.

(** Every question the parser returns, for any text, is a non-empty string
    with no white space at either end. *)
Theorem parsed_questions_are_trimmed (text : jsstring) :
  Forall (fun q => q <> [] /\ trimmed q = true /\ trim q = q)
         (parseQuestionsText text).
Proof.
  unfold parseQuestionsText.
  destruct (numbered (questionLines text)) as [|q qs] eqn:E.
  - rewrite (numbered_nil_paragraphs text E). constructor.
  - rewrite <- E. unfold numbered.
    apply numbered_from_stored;
      [apply questionLines_non_blank|constructor|now left].
Qed.

(** *** How many questions *)

Lemma numbered_from_length (lines : list jsstring) :
  forall acc cur,
    List.length (numbered_from (acc, cur) lines)
    = List.length acc + count_numbered lines
      + (if truthy cur then 1 else preamble lines).
Proof.
  unfold numbered_from, count_numbered.
  induction lines as [|l lines IH]; intros acc cur.
  - cbn [fold_left parse_flush filter List.length preamble].
    destruct (truthy cur); [rewrite length_app; cbn [List.length]|]; lia.
  - cbn [fold_left parse_step filter preamble].
    destruct (numbered_re l) eqn:E.
    + rewrite IH. cbn [List.length].
      assert (Hl : truthy l = true) by (destruct l; [discriminate|reflexivity]).
      rewrite Hl.
      destruct (truthy cur); [rewrite length_app; cbn [List.length]|]; lia.
    + rewrite IH.
      assert (Hc : truthy (cur ++ SP :: l) = true) by now destruct cur.
      rewrite Hc. destruct (truthy cur) eqn:Ec; [lia|].
      lia.
Qed.

(** The parser returns one question for each numbered line, and one more
    when the text opens with a line that is not numbered. *)
Theorem parsed_question_count (text : jsstring) :
  List.length (parseQuestionsText text)
  = count_numbered (questionLines text) + preamble (questionLines text).
Proof.
  assert (H : List.length (numbered (questionLines text))
              = count_numbered (questionLines text)
                + preamble (questionLines text)).
  { unfold numbered. rewrite numbered_from_length. reflexivity. }
  unfold parseQuestionsText.
  destruct (numbered (questionLines text)) as [|q qs] eqn:E; [|exact H].
  rewrite (numbered_nil_paragraphs text E). exact H.
Qed.

(** *** Lists that parse to themselves *)

Lemma split_go_line (c : codeunit) (l : jsstring) :
  existsb (N.eqb c) l = false ->
  forall cur,
    split_go [c] 0 cur l = [rev cur ++ l]
    /\ forall more,
         split_go [c] 0 cur (l ++ c :: more)
         = (rev cur ++ l) :: split_go [c] 0 [] more.
Proof.
  induction l as [|a l IH]; intros H cur.
  - cbn [split_go app is_prefix List.length Nat.sub].
    rewrite app_nil_r, N.eqb_refl. split; reflexivity.
  - cbn [existsb] in H. apply orb_false_elim in H as [Ha Hl].
    cbn [split_go app is_prefix]. rewrite Ha. cbn [andb].
    destruct (IH Hl (a :: cur)) as [IH1 IH2].
    cbn [rev] in IH1, IH2. rewrite <- app_assoc in IH1, IH2.
    split; [exact IH1|exact IH2].
Qed.

(** Joining lines that hold no line feed and splitting the text at the line
    feeds gives the lines back. *)
Lemma split_join_lines (ls : list jsstring) :
  ls <> [] ->
  Forall (fun l => existsb (N.eqb LF) l = false) ls ->
  split [LF] (join [LF] ls) = ls.
Proof.
  unfold split. intros Hne H. induction H as [|l ls Hl H IH]; [easy|].
  destruct ls as [|l2 ls].
  - cbn [join]. apply (split_go_line LF l Hl []).
  - change (join [LF] (l :: l2 :: ls)) with (l ++ LF :: join [LF] (l2 :: ls)).
    rewrite (proj2 (split_go_line LF l Hl [])).
    cbn [rev app]. f_equal. apply IH. discriminate.
Qed.

Lemma numbered_all (ls : list jsstring) :
  Forall (fun l => numbered_re l = true) ls -> numbered ls = map trim ls.
Proof.
  induction 1 as [|l ls Hl H IH]; [reflexivity|].
  unfold numbered at 1. rewrite (numbered_from_question l ls Hl).
  cbn [parse_flush truthy app map].
  rewrite numbered_at_question.
  - now rewrite IH.
  - destruct H as [|l2 ls2 H2 _]; [exact I|exact H2].
  - destruct l; [discriminate|reflexivity].
Qed.

Lemma list_line_spec (l : jsstring) :
  list_line l = true ->
  numbered_re l = true /\ trim l = l /\ non_blank l = true
  /\ existsb (N.eqb LF) l = false.
Proof.
  unfold list_line. intros H.
  apply andb_prop in H as [H H3]. apply andb_prop in H as [H1 H2].
  apply negb_true_iff in H3.
  pose proof (trimmed_trim l H2) as Ht.
  repeat split; try assumption.
  unfold non_blank. rewrite Ht. destruct l; [discriminate|reflexivity].
Qed.

Lemma filter_all {A} (f : A -> bool) (l : list A) :
  Forall (fun x => f x = true) l -> filter f l = l.
Proof.
  induction 1 as [|x l Hx _ IH]; [reflexivity|].
  cbn [filter]. now rewrite Hx, IH.
Qed.

Lemma map_fixed {A} (f : A -> A) (l : list A) :
  Forall (fun x => f x = x) l -> map f l = l.
Proof.
  induction 1 as [|x l Hx _ IH]; [reflexivity|].
  cbn [map]. now rewrite Hx, IH.
Qed.

(** A list of numbered, trimmed questions written one per line, the form the
    service is asked for, is parsed into exactly its lines. *)
Theorem parse_numbered_list (ls : list jsstring) :
  ls <> [] ->
  forallb list_line ls = true ->
  parseQuestionsText (join [LF] ls) = ls.
Proof.
  intros Hne H.
  assert (HF : Forall (fun l => list_line l = true) ls)
    by (apply Forall_forall; apply forallb_forall; exact H).
  assert (Hq : questionLines (join [LF] ls) = ls).
  { unfold questionLines. rewrite split_join_lines; [|exact Hne|].
    - apply filter_all. eapply Forall_impl; [|exact HF].
      intros l Hl. apply (list_line_spec l Hl).
    - eapply Forall_impl; [|exact HF].
      intros l Hl. apply (list_line_spec l Hl). }
  assert (Hn : numbered ls = ls).
  { rewrite numbered_all.
    - apply map_fixed. eapply Forall_impl; [|exact HF].
      intros l Hl. apply (list_line_spec l Hl).
    - eapply Forall_impl; [|exact HF].
      intros l Hl. apply (list_line_spec l Hl). }
  unfold parseQuestionsText. rewrite Hq, Hn.
  destruct ls; [contradiction|reflexivity].
Qed.

Lemma parse_numbered_list_witness :
  parseQuestionsText
    (join [LF] [lit "1. Tell me about yourself."; lit "2) Why this role?"])
  = [lit "1. Tell me about yourself."; lit "2) Why this role?"].
Proof.
  apply (parse_numbered_list
           [lit "1. Tell me about yourself."; lit "2) Why this role?"]);
    [discriminate|reflexivity].
Defined.

(** ** A recording from its start to its upload *)

(** With a stream and a supported format, [setupRecording] and
    [startRecording] leave a new recorder recording, and the focus check
    running. *)
Lemma begin_recording_records (s : State) :
  stream (rec s) = true ->
  mimeSupported (br s) = true ->
  exists s1,
    begin_recording s = Ok tt s1
    /\ mediaRecorder (rec s1) = Some {| state := rs_recording; gathered := [] |}
    /\ recording (rec s1) = true
    /\ recordedChunks (rec s1) = []
    /\ stream (rec s1) = true
    /\ tabFocusInterval (rec s1) = Some (S (nextId (br s)))
    /\ intervals (br s1)
       = intervals (br s) ++ [(S (nextId (br s)), TabFocusCheck)]
    /\ ses s1 = ses s
    /\ sp s1 = sp s
    /\ an s1 = an s
    /\ tasks (br s1) = tasks (br s)
    /\ sent (br s1) = sent (br s)
    /\ timers (br s1) = timers (br s)
    /\ messages (page s1) = messages (page s)
    /\ mimeSupported (br s1) = true.
Proof.
  destruct s as [[mr chunks recg st tfi] se spk a p
                 [rl fr ti iv ta sn ni un ms mi]].
  cbn [rec br stream mimeSupported]. intros -> ->.
  eexists. split; [reflexivity|]. cbn. repeat split.
Qed.

Lemma gathering_appends (ds : list Blob) :
  forall (s : State) (g : Blob),
    mediaRecorder (rec s) = Some {| state := rs_recording; gathered := g |} ->
    run s (gathering ds)
    = set_mediaRecorder
        (Some {| state := rs_recording; gathered := g ++ List.concat ds |}) s.
Proof.
  induction ds as [|d ds IH]; intros s g H.
  - destruct s as [[mr chunks recg st tfi] se spk a p b].
    cbn in H |- *. subst mr. now rewrite app_nil_r.
  - cbn [gathering map run fold_left].
    assert (E : step s (MediaGathered d)
                = set_mediaRecorder
                    (Some {| state := rs_recording; gathered := g ++ d |}) s).
    { unfold step. cbn [handler]. unfold media_gathered, bind, gets.
      rewrite H. reflexivity. }
    rewrite E. fold (run (set_mediaRecorder
                            (Some {| state := rs_recording;
                                     gathered := g ++ d |}) s)
                         (map MediaGathered ds)).
    change (map MediaGathered ds) with (gathering ds).
    rewrite (IH _ (g ++ d)).
    + cbn [List.concat]. rewrite app_assoc.
      destruct s as [[mr chunks recg st tfi] se spk a p b]. reflexivity.
    + destruct s as [[mr chunks recg st tfi] se spk a p b]. reflexivity.
Qed.

Lemma remove_handle_fresh {A} (n : nat) (l : list (nat * A)) (x : A) :
  Forall (fun p => fst p <= n) l ->
  remove_handle (S n) (l ++ [(S n, x)]) = l.
Proof.
  unfold remove_handle. intros H. rewrite filter_app.
  cbn [filter fst]. rewrite Nat.eqb_refl. cbn [negb]. rewrite app_nil_r.
  induction H as [|p l Hp _ IH]; [reflexivity|].
  cbn [filter]. rewrite IH.
  destruct (Nat.eqb_spec (fst p) (S n)) as [E|_]; [lia|reflexivity].
Qed.

(** [stopRecording] while the recording of [begin_recording] runs. *)
Lemma stopRecording_running (s : State) (g : Blob) (h : nat) :
  mediaRecorder (rec s) = Some {| state := rs_recording; gathered := g |} ->
  tabFocusInterval (rec s) = Some (S h) ->
  exists s1,
    stopRecording s = Ok tt s1
    /\ mediaRecorder (rec s1) = Some {| state := inactive; gathered := [] |}
    /\ recording (rec s1) = false
    /\ recordedChunks (rec s1) = recordedChunks (rec s)
    /\ tabFocusInterval (rec s1) = None
    /\ intervals (br s1) = remove_handle (S h) (intervals (br s))
    /\ ses s1 = ses s
    /\ tasks (br s1) = tasks (br s) ++ [RecorderStopped g]
    /\ sent (br s1) = sent (br s)
    /\ messages (page s1) = messages (page s).
Proof.
  destruct s as [[mr chunks recg st tfi] se spk a p
                 [rl fr ti iv ta sn ni un ms mi]].
  cbn [rec mediaRecorder tabFocusInterval]. intros -> ->.
  eexists. split; [reflexivity|]. cbn. repeat split.
Qed.

(** The recorder's events with no media: nothing is uploaded. *)
Lemma run_task_no_data (s : State) :
  tasks (br s) = [RecorderStopped []] ->
  recordedChunks (rec s) = [] ->
  uploads (step s RunTask) = uploads s
  /\ messages (page (step s RunTask)) = messages (page s) ++ [no_data_message].
Proof.
  destruct s as [[mr chunks recg st tfi] [k qs aq idata cid] spk a p
                 [rl fr ti iv ta se ni un ms mi]].
  cbn [br rec tasks recordedChunks]. intros -> ->.
  split; reflexivity.
Qed.

(** A recording from its start to its upload.  With the stream granted and
    the format supported, [setupRecording] and [startRecording] start a
    recording; once it is stopped the flag is down and the focus check is
    gone; and when the recorder's events are handled, what it gathered in
    between is uploaded as one recording, or reported missing when it
    gathered nothing. *)
Theorem recording_round_trip (s : State) (ds : list Blob) :
  stream (rec s) = true ->
  mimeSupported (br s) = true ->
  tasks (br s) = [] ->
  handles_given s ->
  let s1 := state_of (begin_recording s) in
  let s2 := run s1 (gathering ds) in
  let s3 := state_of (stopRecording s2) in
  let s4 := step s3 RunTask in
  recording (rec s1) = true
  /\ recording (rec s3) = false
  /\ intervals (br s3) = intervals (br s)
  /\ if truthy (List.concat ds)
     then uploads s4
          = uploads s
            ++ [PostUploadRecording (List.concat ds)
                  (currentQuestionIndex (ses s)) (candidateId (ses s))]
     else uploads s4 = uploads s
          /\ messages (page s4) = messages (page s) ++ [no_data_message].
Proof.
  intros Hst Hmime Htasks Hh s1 s2 s3 s4.
  destruct (begin_recording_records s Hst Hmime)
    as (t1 & E1 & Hmr1 & Hrec1 & Hch1 & _ & Htfi1 & Hiv1 & Hses1 & _ & _
        & Hta1 & Hsent1 & _ & Hmsg1 & _).
  assert (Es1 : s1 = t1) by (unfold s1; now rewrite E1).
  clearbody s1. subst t1.
  pose proof (gathering_appends ds s1 [] Hmr1) as E2. cbn [app] in E2.
  fold s2 in E2.
  assert (V2 : mediaRecorder (rec s2)
               = Some {| state := rs_recording; gathered := List.concat ds |}
               /\ tabFocusInterval (rec s2) = tabFocusInterval (rec s1)
               /\ recordedChunks (rec s2) = recordedChunks (rec s1)
               /\ intervals (br s2) = intervals (br s1)
               /\ ses s2 = ses s1 /\ tasks (br s2) = tasks (br s1)
               /\ sent (br s2) = sent (br s1)
               /\ messages (page s2) = messages (page s1)).
  { rewrite E2. destruct s1 as [[mr chunks recg st tfi] se spk a p b].
    cbn. repeat split. }
  clearbody s2. clear E2.
  destruct V2 as (Hmr2 & Htfi2 & Hch2 & Hiv2 & Hses2 & Hta2 & Hsent2 & Hmsg2).
  rewrite Htfi1 in Htfi2.
  destruct (stopRecording_running s2 _ _ Hmr2 Htfi2)
    as (t3 & E3 & Hmr3 & Hrec3 & Hch3 & _ & Hiv3 & Hses3 & Hta3 & Hsent3
        & Hmsg3).
  assert (Es3 : s3 = t3) by (unfold s3; now rewrite E3).
  clearbody s3. subst t3.
  split; [exact Hrec1|]. split; [exact Hrec3|]. split.
  { rewrite Hiv3, Hiv2, Hiv1. now apply remove_handle_fresh. }
  assert (Ht : tasks (br s3) = [RecorderStopped (List.concat ds)])
    by now rewrite Hta3, Hta2, Hta1, Htasks.
  assert (Hc : recordedChunks (rec s3) = [])
    by now rewrite Hch3, Hch2, Hch1.
  assert (Hu : uploads s3 = uploads s)
    by (unfold uploads; now rewrite Hsent3, Hsent2, Hsent1).
  destruct (List.concat ds) as [|x data] eqn:Ed; cbn [truthy].
  - destruct (run_task_no_data s3 Ht Hc) as [U Mg]. fold s4 in U, Mg.
    split; [now rewrite U|].
    now rewrite Mg, Hmsg3, Hmsg2, Hmsg1.
  - unfold s4. rewrite (run_task_uploads s3 (x :: data) Ht); [|discriminate|exact Hc].
    now rewrite Hu, Hses3, Hses2, Hses1.
Qed.

Lemma recording_round_trip_witness :
  let s := granted_page in
  let ds := [[1%N; 2%N]; []; [3%N]] in
  let s1 := state_of (begin_recording s) in
  let s2 := run s1 (gathering ds) in
  let s3 := state_of (stopRecording s2) in
  let s4 := step s3 RunTask in
  recording (rec s1) = true
  /\ recording (rec s3) = false
  /\ intervals (br s3) = intervals (br s)
  /\ if truthy (List.concat ds)
     then uploads s4
          = uploads s
            ++ [PostUploadRecording (List.concat ds)
                  (currentQuestionIndex (ses s)) (candidateId (ses s))]
     else uploads s4 = uploads s
          /\ messages (page s4) = messages (page s) ++ [no_data_message].
Proof.
  apply (recording_round_trip granted_page [[1%N; 2%N]; []; [3%N]]);
    [reflexivity|reflexivity|reflexivity|constructor].
Defined.

(** ** The interview with questions to ask *)

(** What [speakQuestion] leaves alone. *)
Lemma speakQuestion_frame (q : jsstring) (s : State) :
  let s' := state_of (speakQuestion q s) in
  rec s' = rec s /\ ses s' = ses s /\ an s' = an s
  /\ messages (page s') = messages (page s)
  /\ timers (br s') = timers (br s)
  /\ tasks (br s') = tasks (br s)
  /\ uncaught (br s') = uncaught (br s)
  /\ mimeSupported (br s') = mimeSupported (br s).
Proof.
  destruct s as [r se [spk au [c|] af] a p b]; cbn; repeat split.
Qed.

Lemma question_at_nth (i : nat) (s : State) (q : QuestionObj) :
  nth_error (questions (ses s)) i = Some q ->
  question_at i s = Ok (question q) s.
Proof. intros H. unfold question_at, bind, gets. now rewrite H. Qed.

(** [setupRecording] makes a recorder when it has a stream and the format
    is supported, and says why not otherwise. *)
Lemma setupRecording_result (s : State) :
  exists s1,
    setupRecording s = Ok tt s1
    /\ ses s1 = ses s /\ sp s1 = sp s /\ an s1 = an s
    /\ sent (br s1) = sent (br s)
    /\ timers (br s1) = timers (br s)
    /\ tasks (br s1) = tasks (br s)
    /\ uncaught (br s1) = uncaught (br s)
    /\ intervals (br s1) = intervals (br s)
    /\ nextId (br s1) = nextId (br s)
    /\ stream (rec s1) = stream (rec s)
    /\ mimeSupported (br s1) = mimeSupported (br s)
    /\ recording (rec s1) = recording (rec s)
    /\ tabFocusInterval (rec s1) = tabFocusInterval (rec s)
    /\ if stream (rec s) && mimeSupported (br s)
       then mediaRecorder (rec s1)
            = Some {| state := inactive; gathered := [] |}
            /\ messages (page s1) = messages (page s)
       else rec s1 = rec s
            /\ messages (page s1)
               = messages (page s) ++ [setup_failure (stream (rec s))].
Proof.
  destruct s as [[mr chunks recg st tfi] se spk a p
                 [rl fr ti iv ta sn ni un ms mi]].
  destruct st, mi; (eexists; split; [reflexivity|]); cbn; repeat split.
Qed.

(** [startRecording] without a recorder. *)
Lemma startRecording_none (s : State) :
  mediaRecorder (rec s) = None ->
  startRecording s
  = Ok tt (set_messages (messages (page s) ++ [not_set_up_message]) s).
Proof.
  unfold startRecording, bind, gets. intros ->. reflexivity.
Qed.

(** [startRecording] with the recorder [setupRecording] has made. *)
Lemma startRecording_fresh (s : State) (g : Blob) :
  mediaRecorder (rec s) = Some {| state := inactive; gathered := g |} ->
  exists s1,
    startRecording s = Ok tt s1
    /\ mediaRecorder (rec s1) = Some {| state := rs_recording; gathered := [] |}
    /\ recording (rec s1) = true
    /\ recordedChunks (rec s1) = []
    /\ stream (rec s1) = stream (rec s)
    /\ tabFocusInterval (rec s1) = Some (S (nextId (br s)))
    /\ intervals (br s1)
       = intervals (br s) ++ [(S (nextId (br s)), TabFocusCheck)]
    /\ ses s1 = ses s /\ sp s1 = sp s /\ an s1 = an s
    /\ sent (br s1) = sent (br s)
    /\ timers (br s1) = timers (br s)
    /\ tasks (br s1) = tasks (br s)
    /\ uncaught (br s1) = uncaught (br s)
    /\ messages (page s1) = messages (page s)
    /\ mimeSupported (br s1) = mimeSupported (br s).
Proof.
  destruct s as [[mr chunks recg st tfi] se spk a p
                 [rl fr ti iv ta sn ni un ms mi]].
  cbn [rec mediaRecorder]. intros ->.
  eexists. split; [reflexivity|]. cbn. repeat split.
Qed.

(** The first half of [startInterview], up to [startRecording]. *)
Lemma startInterview_prepares (s : State) :
  recorder_needs_stream s ->
  exists s1,
    (forall k : M unit,
        (setupRecording ;;
         jq (SetDisabled "startBtn" true) ;;
         jq (SetDisabled "nextBtn" false) ;;
         jq (SetDisabled "stopBtn" false) ;;
         startRecording ;;
         k) s = k s1)
    /\ ses s1 = ses s /\ sp s1 = sp s /\ sent (br s1) = sent (br s)
    /\ if stream (rec s) && mimeSupported (br s)
       then recording (rec s1) = true
            /\ mediaRecorder (rec s1)
               = Some {| state := rs_recording; gathered := [] |}
            /\ messages (page s1) = messages (page s)
       else rec s1 = rec s
            /\ messages (page s1)
               = messages (page s)
                 ++ [setup_failure (stream (rec s)); not_set_up_message].
Proof.
  intros Hinv.
  destruct (setupRecording_result s)
    as (sa & Ea & Hses & Hsp & _ & Hsent & _ & _ & _ & _ & _ & _ & _ & _ & _
        & Hcase).
  set (sb := set_dom (dom (page (set_dom (dom (page (set_dom (dom (page sa)
               ++ [SetDisabled "startBtn" true]) sa))
               ++ [SetDisabled "nextBtn" false])
               (set_dom (dom (page sa) ++ [SetDisabled "startBtn" true]) sa)))
               ++ [SetDisabled "stopBtn" false])
             (set_dom (dom (page (set_dom (dom (page sa)
               ++ [SetDisabled "startBtn" true]) sa))
               ++ [SetDisabled "nextBtn" false])
               (set_dom (dom (page sa) ++ [SetDisabled "startBtn" true]) sa))).
  assert (Hb : rec sb = rec sa /\ ses sb = ses sa /\ sp sb = sp sa
               /\ sent (br sb) = sent (br sa)
               /\ messages (page sb) = messages (page sa))
    by (repeat split).
  destruct Hb as (Brec & Bses & Bsp & Bsent & Bmsg).
  assert (Eb : forall k : M unit,
             (setupRecording ;;
              jq (SetDisabled "startBtn" true) ;;
              jq (SetDisabled "nextBtn" false) ;;
              jq (SetDisabled "stopBtn" false) ;;
              startRecording ;;
              k) s = (startRecording ;; k) sb).
  { intros k. rewrite (bind_Ok _ _ _ _ _ Ea).
    rewrite (bind_Ok _ _ _ _ _ (jq_Ok _ _)).
    rewrite (bind_Ok _ _ _ _ _ (jq_Ok _ _)).
    rewrite (bind_Ok _ _ _ _ _ (jq_Ok _ _)).
    reflexivity. }
  clearbody sb.
  destruct (stream (rec s) && mimeSupported (br s)) eqn:Hok.
  - destruct Hcase as [Hmr Hmsg].
    rewrite <- Brec in Hmr.
    destruct (startRecording_fresh sb [] Hmr)
      as (sc & Ec & Cmr & Crec & _ & _ & _ & _ & Cses & Csp & _ & Csent & _
          & _ & _ & Cmsg & _).
    exists sc. split.
    { intros k. rewrite Eb.
      exact (bind_Ok startRecording (fun _ => k) sb sc tt Ec). }
    rewrite Cses, Bses, Csp, Bsp, Csent, Bsent, Cmsg, Bmsg.
    repeat split; assumption.
  - destruct Hcase as [Hrec Hmsg].
    assert (Hmr : mediaRecorder (rec sb) = None)
      by (rewrite Brec, Hrec; exact (Hinv Hok)).
    exists (set_messages (messages (page sb) ++ [not_set_up_message]) sb).
    split.
    { intros k. rewrite Eb.
      exact (bind_Ok startRecording (fun _ => k) sb _ tt
               (startRecording_none sb Hmr)). }
    change (ses sb = ses s /\ sp sb = sp s /\ sent (br sb) = sent (br s)
            /\ rec sb = rec s
            /\ messages (page sb) ++ [not_set_up_message]
               = messages (page s)
                 ++ [setup_failure (stream (rec s)); not_set_up_message]).
    rewrite Bses, Bsp, Bsent, Brec, Bmsg, Hmsg, <- app_assoc.
    repeat split; assumption.
Qed.

(** [startInterview] with a question to ask.  It never throws; the question
    is spoken and its speech requested; the answer is recorded when the
    stream is granted and the format supported, and otherwise the interview
    goes on without a recording, after two error messages. *)
Theorem startInterview_records_and_speaks (s : State) (q : QuestionObj) :
  nth_error (questions (ses s)) (currentQuestionIndex (ses s)) = Some q ->
  recorder_needs_stream s ->
  let s' := state_of (startInterview s) in
  returned (startInterview s) = true
  /\ isSpeaking (sp s') = true
  /\ sent (br s')
     = sent (br s) ++ [PostSpeakQuestion (question q) (candidateId (ses s))]
  /\ if stream (rec s) && mimeSupported (br s)
     then recording (rec s') = true
          /\ mediaRecorder (rec s')
             = Some {| state := rs_recording; gathered := [] |}
          /\ messages (page s') = messages (page s)
     else rec s' = rec s
          /\ messages (page s')
             = messages (page s)
               ++ [setup_failure (stream (rec s)); not_set_up_message].
Proof.
  intros Hq Hinv.
  assert (Hi : currentQuestionIndex (ses s) < List.length (questions (ses s)))
    by (apply nth_error_Some; congruence).
  rewrite (startInterview_proceeds s Hi).
  destruct (startInterview_prepares s Hinv)
    as (s1 & E & Hses & Hsp & Hsent & Hrec).
  rewrite E.
  rewrite <- Hses in Hq at 1.
  rewrite (bind_Ok _ _ _ _ _
             (question_at_nth (currentQuestionIndex (ses s)) s1 q Hq)).
  destruct (speakQuestion_starts_speaking (question q) s1)
    as (R & Sp & _ & Se & _).
  destruct (speakQuestion_frame (question q) s1)
    as (Fr & _ & _ & Fm & _).
  cbv zeta. split; [exact R|]. split; [exact Sp|]. split.
  { rewrite Se, Hsent, Hses. reflexivity. }
  rewrite Fr, Fm. exact Hrec.
Qed.

Lemma startInterview_witness :
  let s := asking two_questions granted_page in
  let q := {| question := lit "Tell me about yourself" |} in
  let s' := state_of (startInterview s) in
  returned (startInterview s) = true
  /\ isSpeaking (sp s') = true
  /\ sent (br s')
     = sent (br s) ++ [PostSpeakQuestion (question q) (candidateId (ses s))]
  /\ if stream (rec s) && mimeSupported (br s)
     then recording (rec s') = true
          /\ mediaRecorder (rec s')
             = Some {| state := rs_recording; gathered := [] |}
          /\ messages (page s') = messages (page s)
     else rec s' = rec s
          /\ messages (page s')
             = messages (page s)
               ++ [setup_failure (stream (rec s)); not_set_up_message].
Proof.
  apply (startInterview_records_and_speaks
           (asking two_questions granted_page)
           {| question := lit "Tell me about yourself" |});
    [reflexivity|intros H; discriminate H].
Defined.

(** *** A timeout of [nextQuestion] that fires after the end *)

Lemma question_at_beyond (i : nat) (s : State) :
  List.length (questions (ses s)) <= i ->
  question_at i s = Thrown TypeError s.
Proof.
  intros H. unfold question_at, bind, gets.
  apply nth_error_None in H. now rewrite H.
Qed.

Lemma timer_fires_runs (i ms : nat) (cb : TimerCb) (s : State) :
  nth_error (timers (br s)) i = Some (ms, cb) ->
  timer_fires i s
  = timer_callback cb (set_timers (remove_nth i (timers (br s))) s).
Proof.
  intros H. unfold timer_fires, bind, gets. now rewrite H.
Qed.

(** [nextQuestion] starts the next recording from a timeout, and nothing
    takes the timeout back.  When it fires with the index past the last
    question, as it does after a second click on the next button has ended
    the interview, a new recording starts and the callback then ends with a
    [TypeError] at [questions[currentQuestionIndex].question]: the question
    is not spoken, and the recording stays on. *)
Theorem late_timeout_records_after_the_end (s : State) (i ms : nat) :
  nth_error (timers (br s)) i = Some (ms, StartNextQuestion) ->
  List.length (questions (ses s)) <= currentQuestionIndex (ses s) ->
  stream (rec s) = true ->
  mimeSupported (br s) = true ->
  let s' := step s (TimerFires i) in
  recording (rec s') = true
  /\ mediaRecorder (rec s') = Some {| state := rs_recording; gathered := [] |}
  /\ uncaught (br s') = uncaught (br s) ++ [TypeError]
  /\ sent (br s') = sent (br s)
  /\ sp s' = sp s.
Proof.
  intros Ht Hn Hst Hmi.
  unfold step. cbn [handler]. rewrite (timer_fires_runs i ms _ s Ht).
  cbn [timer_callback].
  set (s0 := set_timers (remove_nth i (timers (br s))) s).
  assert (H0 : rec s0 = rec s /\ ses s0 = ses s /\ sp s0 = sp s
               /\ sent (br s0) = sent (br s)
               /\ uncaught (br s0) = uncaught (br s)
               /\ mimeSupported (br s0) = mimeSupported (br s))
    by (repeat split).
  clearbody s0. destruct H0 as (Hrec0 & Hses0 & Hsp0 & Hsent0 & Hun0 & Hmi0).
  destruct (setupRecording_result s0)
    as (sa & Ea & Hses & Hsp & _ & Hsent & _ & _ & Hun & _ & _ & _ & _ & _ & _
        & Hcase).
  rewrite Hrec0, Hmi0, Hst, Hmi in Hcase. cbn [andb] in Hcase.
  destruct Hcase as [Hmr _].
  destruct (startRecording_fresh sa [] Hmr)
    as (sc & Ec & Cmr & Crec & _ & _ & _ & _ & Cses & Csp & _ & Csent & _
        & _ & Cun & _ & _).
  assert (E : nextQuestion_timeout s0 = Thrown TypeError sc).
  { unfold nextQuestion_timeout.
    rewrite (bind_Ok _ _ _ _ _ Ea), (bind_Ok _ _ _ _ _ Ec).
    unfold bind at 1, gets.
    apply bind_Thrown, question_at_beyond.
    now rewrite Cses, Hses, Hses0. }
  rewrite E.
  change (recording (rec sc) = true
          /\ mediaRecorder (rec sc)
             = Some {| state := rs_recording; gathered := [] |}
          /\ uncaught (br sc) ++ [TypeError] = uncaught (br s) ++ [TypeError]
          /\ sent (br sc) = sent (br s)
          /\ sp sc = sp s).
  rewrite Cun, Hun, Hun0, Csent, Hsent, Hsent0, Csp, Hsp, Hsp0.
  repeat split; assumption.
Qed.

Lemma late_timeout_witness :
  let s := run (asking two_questions granted_page) [ClickNext; ClickNext] in
  let s' := step s (TimerFires 0) in
  recording (rec s') = true
  /\ mediaRecorder (rec s') = Some {| state := rs_recording; gathered := [] |}
  /\ uncaught (br s') = uncaught (br s) ++ [TypeError]
  /\ sent (br s') = sent (br s)
  /\ sp s' = sp s.
Proof.
  apply (late_timeout_records_after_the_end
           (run (asking two_questions granted_page) [ClickNext; ClickNext])
           0 1000);
    [reflexivity|apply le_n|reflexivity|reflexivity].
Defined.

(** *** Handlers that end normally *)

Lemma startCheatingDetection_safe : safe startCheatingDetection.
Proof. unfold startCheatingDetection; unfold_prims. safe_body. Qed.
#[local] Hint Resolve startCheatingDetection_safe : safe.

Lemma setupRecording_safe : safe setupRecording.
Proof. unfold setupRecording; unfold_prims. safe_body. Qed.
#[local] Hint Resolve setupRecording_safe : safe.

Lemma startRecording_safe : safe startRecording.
Proof. unfold startRecording; unfold_prims. safe_body. Qed.
#[local] Hint Resolve startRecording_safe : safe.

Lemma saveRecording_safe : safe saveRecording.
Proof. unfold saveRecording; unfold_prims. safe_body. Qed.
#[local] Hint Resolve saveRecording_safe : safe.

Lemma setCanvasDimensions_safe c : safe (setCanvasDimensions c).
Proof. unfold setCanvasDimensions; unfold_prims. safe_body. Qed.
#[local] Hint Resolve setCanvasDimensions_safe : safe.

Lemma setupAvatarAnimations_safe : safe setupAvatarAnimations.
Proof. unfold setupAvatarAnimations; unfold_prims. safe_body. Qed.
#[local] Hint Resolve setupAvatarAnimations_safe : safe.

Lemma animateSpeech_safe c i : safe (animateSpeech c i).
Proof. unfold animateSpeech. safe_body. Qed.
#[local] Hint Resolve animateSpeech_safe : safe.

Lemma drawMouth_safe d : safe (drawMouth d).
Proof. unfold drawMouth; unfold_prims. safe_body. Qed.
#[local] Hint Resolve drawMouth_safe : safe.

Lemma startSpeaking_safe : safe startSpeaking.
Proof. unfold startSpeaking; unfold_prims. safe_body. Qed.
#[local] Hint Resolve startSpeaking_safe : safe.

Lemma speakQuestion_safe q : safe (speakQuestion q).
Proof. unfold speakQuestion; unfold_prims. safe_body. Qed.
#[local] Hint Resolve speakQuestion_safe : safe.

Lemma run_frame_safe cbs : safe (run_frame cbs).
Proof.
  induction cbs as [|[h d] cbs IH]; cbn [run_frame]; unfold skip; safe_body.
Qed.
#[local] Hint Resolve run_frame_safe : safe.

Lemma run_listeners_safe ls : safe (run_listeners ls).
Proof.
  induction ls as [|c ls IH]; cbn [run_listeners]; unfold skip; safe_body.
Qed.
#[local] Hint Resolve run_listeners_safe : safe.

(** [startInterview] reads [questions[i]] only for an [i] below the
    length. *)
Lemma startInterview_safe : safe startInterview.
Proof.
  intros s.
  destruct (le_lt_dec (List.length (questions (ses s)))
              (currentQuestionIndex (ses s))) as [H|H].
  - rewrite (startInterview_refuses s H). apply showMessage_safe.
  - rewrite (startInterview_proceeds s H).
    destruct (setupRecording_result s) as (sa & Ea & Hses & _).
    rewrite (bind_Ok _ _ _ _ _ Ea).
    rewrite (bind_Ok _ _ _ _ _ (jq_Ok _ _)).
    rewrite (bind_Ok _ _ _ _ _ (jq_Ok _ _)).
    rewrite (bind_Ok _ _ _ _ _ (jq_Ok _ _)).
    match goal with |- returned (bind _ _ ?t) = true => set (sb := t) end.
    assert (Hb : ses sb = ses s) by exact Hses.
    clearbody sb.
    assert (Hc : keeps ses startRecording)
      by (unfold startRecording, startCheatingDetection, showMessage;
          unfold_prims; keeps_body).
    pose proof (startRecording_safe sb) as R. specialize (Hc sb).
    destruct (startRecording sb) as [[] sc|] eqn:Ec; [|discriminate R].
    cbn [state_of] in Hc.
    rewrite (bind_Ok _ _ _ _ _ Ec).
    assert (H' : currentQuestionIndex (ses s)
                 < List.length (questions (ses sc)))
      by (rewrite Hc, Hb; exact H).
    destruct (question_at_Ok _ sc H') as [q Eq].
    rewrite (bind_Ok _ _ _ _ _ Eq). apply speakQuestion_safe.
Qed.

Lemma handler_quiet (e : Event) : quiet e = true -> safe (handler e).
Proof.
  destruct e as [role|role| |[r|]| | | |[data|]| | |data| | |i|[data|]|
                 |[response|]| |rect| |];
    cbn [handler quiet]; intros Hq; try discriminate Hq;
    first [ exact startInterview_safe | exact nextQuestion_safe
          | exact stopInterview_safe | idtac ].
  all: unfold startSetup, startSetup_granted, startSetup_denied,
         startSetup_error,
         speakQuestion_error, speakQuestion_play_rejected, audio_ended,
         media_gathered, recorder_ends, run_task, ondataavailable, onstop,
         analyze_error,
         downloadPdf, downloadPdf_error, animation_frame, window_resized,
         avatar_image_ready;
       unfold_prims; safe_body.
Qed.

(** ** What the events leave alone *)

Lemma mapM_keeps {A B C} (f : State -> C) (g : A -> M B) (l : list A) :
  (forall a, keeps f (g a)) -> keeps f (mapM g l).
Proof.
  intros Hg. induction l as [|x l IH]; cbn [mapM]; keeps_body.
Qed.

(** The script with its non-recursive functions unfolded, callers first. *)
Ltac unfold_script :=
  unfold timer_fires, timer_callback, run_task, recorder_ends, onstop,
    ondataavailable, media_gathered, animation_frame, window_resized, avatar_image_ready,
    nextQuestion_timeout, nextQuestion, startInterview, stopInterview,
    analyze_success, analyze_error, analyzeInterviewResponses,
    displayResults, result_section, question_evaluation,
    downloadPdf, downloadPdf_success, downloadPdf_error,
    startSetup, startSetup_granted, startSetup_denied, startSetup_success,
    startSetup_error, displayQuestions,
    speakQuestion, speakQuestion_success, speakQuestion_error,
    speakQuestion_play_rejected, audio_ended, audio_pause,
    question_at, get_prop, as_array, as_string, can_push, str,
    setupRecording, startRecording, stopRecording, saveRecording,
    new_MediaRecorder, mr_start, mr_stop,
    startCheatingDetection, stopCheatingDetection,
    startSpeaking, stopSpeaking, drawMouth, animateSpeech,
    setupAvatarAnimations, setCanvasDimensions, showMessage;
  unfold_prims; unfold setTimeout.

Section Fixed.

Lemma run_frame_fixed cbs : keeps fixed (run_frame cbs).
Proof.
  induction cbs as [|[h d] cbs IH]; cbn [run_frame]; unfold_script;
    keeps_body.
Qed.

Lemma run_listeners_fixed ls : keeps fixed (run_listeners ls).
Proof.
  induction ls as [|c ls IH]; cbn [run_listeners]; unfold_script; keeps_body.
Qed.

Lemma mapM_fixed {A B} (g : A -> M B) (l : list A) :
  (forall a, keeps fixed (g a)) -> keeps fixed (mapM g l).
Proof. apply mapM_keeps. Qed.

#[local] Hint Resolve run_frame_fixed run_listeners_fixed : keeps.

(** No handler assigns [questions], nor touches the candidate's id; and an
    exception is reported by the event loop only. *)
Lemma handler_fixed (e : Event) : keeps fixed (handler e).
Proof.
  destruct e as [role|role| |[r|]| | | |[data|]| | |data| | |i|[data|]|
                 |[response|]| |rect| |];
    cbn [handler]; unfold_script; keeps_body;
    apply mapM_fixed; keeps_body.
Qed.

End Fixed.

Lemma step_constants (s : State) (e : Event) : constants (step s e) = constants s.
Proof.
  pose proof (handler_fixed e s) as H. unfold step.
  destruct (handler e s) as [a s'|x s']; cbn [state_of] in H;
    exact (f_equal fst H).
Qed.

Lemma run_constants (es : list Event) :
  forall s, constants (run s es) = constants s.
Proof.
  induction es as [|e es IH]; intros s; [reflexivity|].
  cbn [run fold_left]. fold (run (step s e) es).
  now rewrite IH, step_constants.
Qed.

(** No sequence of events, from any state of the page, changes the
    questions the interview asks: [questions] is read by [startInterview],
    [nextQuestion] and [analyzeInterviewResponses], and assigned nowhere.
    Nor does it change the candidate's id or what the browser supports. *)
Theorem questions_never_assigned (s : State) (es : list Event) :
  questions (ses (run s es)) = questions (ses s)
  /\ candidateId (ses (run s es)) = candidateId (ses s)
  /\ mimeSupported (br (run s es)) = mimeSupported (br s).
Proof.
  pose proof (run_constants es s) as H.
  repeat split.
  - exact (f_equal (fun c => fst (fst c)) H).
  - exact (f_equal (fun c => snd (fst c)) H).
  - exact (f_equal snd H).
Qed.

(** Every handler but five ends normally in every state, so that no click,
    no refused request and no event of the recorder, the audio element, the
    window or the frame clock leaves an uncaught exception.  The five are
    the success callbacks of the four requests, which read the answer the
    server gave, and the timeouts. *)
Theorem quiet_handlers_end_normally (e : Event) (s : State) :
  quiet e = true ->
  returned (handler e s) = true
  /\ uncaught (br (step s e)) = uncaught (br s).
Proof.
  intros H. pose proof (handler_quiet e H s) as R.
  split; [exact R|].
  pose proof (handler_fixed e s) as F. unfold step.
  destruct (handler e s) as [a s'|x s']; [|discriminate R].
  exact (f_equal snd F).
Qed.

Lemma quiet_handlers_witness :
  returned (handler ClickNext (asking two_questions granted_page)) = true
  /\ uncaught (br (step (asking two_questions granted_page) ClickNext))
     = uncaught (br (asking two_questions granted_page)).
Proof.
  exact (quiet_handlers_end_normally ClickNext
           (asking two_questions granted_page) eq_refl).
Defined.

(** ** The recording flag *)

Lemma preserves_bind {A B} (P : State -> Prop) (m : M A) (k : A -> M B) :
  preserves P m -> (forall a, preserves P (k a)) -> preserves P (bind m k).
Proof.
  intros Hm Hk s H. unfold bind. specialize (Hm s H).
  destruct (m s) as [a s'|x s']; [apply Hk|]; exact Hm.
Qed.

Lemma preserves_flag_of_keeps {A} (m : M A) :
  keeps recorder_vars m -> preserves (fun s => flag_agrees s = true) m.
Proof. intros H s. unfold flag_agrees. now rewrite H. Qed.

Lemma preserves_covers_of_keeps {A} (m : M A) :
  keeps recorder_vars m -> preserves (fun s => flag_covers s = true) m.
Proof. intros H s. unfold flag_covers. now rewrite H. Qed.

Section RecorderVars.

Lemma run_frame_vars cbs : keeps recorder_vars (run_frame cbs).
Proof.
  induction cbs as [|[h d] cbs IH]; cbn [run_frame]; unfold_script;
    keeps_body.
Qed.

Lemma run_listeners_vars ls : keeps recorder_vars (run_listeners ls).
Proof.
  induction ls as [|c ls IH]; cbn [run_listeners]; unfold_script; keeps_body.
Qed.

#[local] Hint Resolve run_frame_vars run_listeners_vars : keeps.

Lemma handler_vars (e : Event) :
  calm e = true -> keeps recorder_vars (handler e).
Proof.
  destruct e as [role|role| |[r|]| | | |[data|]| | |data| | |i|[data|]|
                 |[response|]| |rect| |];
    cbn [handler calm]; intros Hc; try discriminate Hc;
    unfold_script; keeps_body;
    apply mapM_keeps; keeps_body.
Qed.

Lemma speak_at_vars (i : nat) :
  keeps recorder_vars (q <- question_at i ;; speakQuestion q).
Proof. unfold_script; keeps_body. Qed.

Lemma stopInterview_rest_vars :
  keeps recorder_vars
    (jq (SetDisabled "startBtn" true) ;;
     jq (SetDisabled "nextBtn" true) ;;
     jq (SetDisabled "stopBtn" true) ;;
     showMessage (lit "Analyzing interview responses...") info ;;
     jq (RemoveClass "progressContainer" "hidden") ;;
     jq (SetWidth "progressBar" (lit "0%")) ;;
     jq (SetText "progressBar" (lit "Analyzing...")) ;;
     audio_pause ;;
     stopSpeaking ;;
     modify (set_analyzingData true) ;;
     modify (set_analysisRetryCount 0) ;;
     _ <- setInterval AnalysisProgress ;;
     analyzeInterviewResponses).
Proof. unfold_script; keeps_body. Qed.

End RecorderVars.

Lemma stopRecording_flag :
  preserves (fun s => flag_agrees s = true) stopRecording.
Proof.
  intros s.
  destruct s as [[mr chunks recg st tfi] se spk a p
                 [rl fr ti iv ta sn ni un ms mi]].
  destruct mr as [[[] g]|], tfi as [[|h]|], recg, st, mi;
    cbn; intros H; try discriminate H; reflexivity.
Qed.

Lemma stopInterview_flag :
  preserves (fun s => flag_agrees s = true) stopInterview.
Proof.
  unfold stopInterview.
  apply preserves_bind; [exact stopRecording_flag|intros _].
  apply preserves_flag_of_keeps, stopInterview_rest_vars.
Qed.

Lemma nextQuestion_flag :
  preserves (fun s => flag_agrees s = true) nextQuestion.
Proof.
  unfold nextQuestion.
  apply preserves_bind; [exact stopRecording_flag|intros _].
  apply preserves_bind;
    [apply preserves_flag_of_keeps; keeps_body|intros _].
  apply preserves_bind;
    [apply preserves_flag_of_keeps; keeps_body|intros i].
  apply preserves_bind;
    [apply preserves_flag_of_keeps; keeps_body|intros n].
  destruct (n <=? i); [exact stopInterview_flag|].
  apply preserves_flag_of_keeps. unfold_script; keeps_body.
Qed.

(** From a state where the flag agrees, [setupRecording] and, after steps
    that leave the recording alone, [startRecording] end in one where it
    agrees. *)
Lemma setup_then_start (s sa sb : State) :
  flag_agrees s = true ->
  setupRecording s = Ok tt sa ->
  recorder_vars sb = recorder_vars sa ->
  exists sc, startRecording sb = Ok tt sc /\ flag_agrees sc = true.
Proof.
  intros H Ea Hb.
  destruct (setupRecording_result s)
    as (sa' & Ea' & _ & _ & _ & _ & _ & _ & _ & _ & _ & Hst & Hmi & Hrecg
        & Htfi & Hcase).
  rewrite Ea in Ea'. injection Ea' as <-.
  unfold flag_agrees in H. unfold recorder_vars in H, Hb.
  injection Hb as Bmr Brecg Bst Btfi Bmi.
  destruct (stream (rec s) && mimeSupported (br s)) eqn:Hok.
  - destruct Hcase as [Hmr _]. rewrite <- Bmr in Hmr.
    destruct (startRecording_fresh sb [] Hmr)
      as (sc & Ec & Cmr & Crec & _ & Cst & Ctfi & _ & _ & _ & _ & _ & _ & _
          & _ & _ & Cmi).
    exists sc. split; [exact Ec|].
    unfold flag_agrees, recorder_vars.
    rewrite Cmr, Crec, Cst, Ctfi, Cmi, Bst, Bmi, Hst, Hmi.
    apply andb_prop in Hok as [-> ->]. reflexivity.
  - destruct Hcase as [Hrec _].
    assert (Hmr : mediaRecorder (rec s) = None).
    { destruct (mediaRecorder (rec s)) as [[[] g]|],
               (tabFocusInterval (rec s)) as [[|h]|]; cbn in H;
        try discriminate H; try reflexivity;
        rewrite <- andb_assoc, Hok, andb_false_r in H; discriminate H. }
    assert (Hmrb : mediaRecorder (rec sb) = None)
      by now rewrite Bmr, Hrec.
    eexists. split; [exact (startRecording_none sb Hmrb)|].
    unfold flag_agrees, recorder_vars.
    change (agrees (mediaRecorder (rec sb), recording (rec sb),
                    stream (rec sb), tabFocusInterval (rec sb),
                    mimeSupported (br sb)) = true).
    now rewrite Bmr, Brecg, Bst, Btfi, Bmi, Hrec, Hmi.
Qed.

Lemma startInterview_flag :
  preserves (fun s => flag_agrees s = true) startInterview.
Proof.
  intros s H.
  destruct (le_lt_dec (List.length (questions (ses s)))
              (currentQuestionIndex (ses s))) as [L|L].
  - rewrite (startInterview_refuses s L).
    revert H. apply preserves_flag_of_keeps. unfold_script; keeps_body.
  - rewrite (startInterview_proceeds s L).
    destruct (setupRecording_result s) as (sa & Ea & _).
    rewrite (bind_Ok _ _ _ _ _ Ea).
    rewrite (bind_Ok _ _ _ _ _ (jq_Ok _ _)).
    rewrite (bind_Ok _ _ _ _ _ (jq_Ok _ _)).
    rewrite (bind_Ok _ _ _ _ _ (jq_Ok _ _)).
    match goal with |- context [bind _ _ ?t] => set (sb := t) end.
    assert (Hb : recorder_vars sb = recorder_vars sa) by reflexivity.
    clearbody sb.
    destruct (setup_then_start s sa sb H Ea Hb) as (sc & Ec & Hc).
    rewrite (bind_Ok _ _ _ _ _ Ec).
    revert Hc. apply preserves_flag_of_keeps, speak_at_vars.
Qed.

Lemma nextQuestion_timeout_flag :
  preserves (fun s => flag_agrees s = true) nextQuestion_timeout.
Proof.
  intros s H. unfold nextQuestion_timeout.
  destruct (setupRecording_result s) as (sa & Ea & _).
  rewrite (bind_Ok _ _ _ _ _ Ea).
  destruct (setup_then_start s sa sa H Ea eq_refl) as (sc & Ec & Hc).
  rewrite (bind_Ok _ _ _ _ _ Ec).
  revert Hc. apply preserves_flag_of_keeps. unfold_script; keeps_body.
Qed.

Lemma timer_fires_flag (i : nat) :
  preserves (fun s => flag_agrees s = true) (timer_fires i).
Proof.
  unfold timer_fires.
  apply preserves_bind;
    [apply preserves_flag_of_keeps; keeps_body|intros ts].
  destruct (nth_error ts i) as [[ms cb]|];
    [|apply preserves_flag_of_keeps; keeps_body].
  apply preserves_bind;
    [apply preserves_flag_of_keeps; keeps_body|intros _].
  destruct cb; cbn [timer_callback];
    [apply preserves_flag_of_keeps; keeps_body
    |exact nextQuestion_timeout_flag
    |apply preserves_flag_of_keeps; unfold_script; keeps_body
    |apply preserves_flag_of_keeps; unfold_script; keeps_body].
Qed.

Lemma startSetup_granted_flag role :
  preserves (fun s => flag_agrees s = true) (startSetup_granted role).
Proof.
  intros s.
  destruct s as [[mr chunks recg st tfi] se spk a p
                 [rl fr ti iv ta sn ni un ms mi]].
  destruct mr as [[[] g]|], tfi as [[|h]|], recg, st, mi;
    cbn; intros H; try discriminate H; reflexivity.
Qed.

Lemma media_gathered_flag data :
  preserves (fun s => flag_agrees s = true) (media_gathered data).
Proof.
  intros s.
  destruct s as [[mr chunks recg st tfi] se spk a p
                 [rl fr ti iv ta sn ni un ms mi]].
  destruct mr as [[[] g]|], tfi as [[|h]|], recg, st, mi;
    cbn; intros H; try discriminate H; reflexivity.
Qed.

Lemma handler_flag (e : Event) :
  scripted e = true ->
  preserves (fun s => flag_agrees s = true) (handler e).
Proof.
  intros Hs.
  destruct (calm e) eqn:Hc;
    [apply preserves_flag_of_keeps, handler_vars, Hc|].
  destruct e as [role|role| |[r|]| | | |[data|]| | |data| | |i|[data|]|
                 |[response|]| |rect| |];
    try discriminate Hc; try discriminate Hs; cbn [handler].
  - apply startSetup_granted_flag.
  - exact startInterview_flag.
  - exact nextQuestion_flag.
  - exact stopInterview_flag.
  - apply media_gathered_flag.
  - apply timer_fires_flag.
Qed.

Lemma step_flag (s : State) (e : Event) :
  scripted e = true ->
  flag_agrees s = true -> flag_agrees (step s e) = true.
Proof.
  intros Hs H. pose proof (handler_flag e Hs s H) as F. unfold step.
  destruct (handler e s); exact F.
Qed.

Lemma run_flag (es : list Event) :
  forallb scripted es = true ->
  forall s, flag_agrees s = true -> flag_agrees (run s es) = true.
Proof.
  induction es as [|e es IH]; intros Hs s H; [exact H|].
  cbn [forallb] in Hs. apply andb_prop in Hs as [He Hs].
  cbn [run fold_left]. fold (run (step s e) es).
  apply (IH Hs), step_flag; assumption.
Qed.


(** *** With a recorder that may end by itself *)

Lemma stopRecording_covers :
  preserves (fun s => flag_covers s = true) stopRecording.
Proof.
  intros s.
  destruct s as [[mr chunks recg st tfi] se spk a p
                 [rl fr ti iv ta sn ni un ms mi]].
  destruct mr as [[[] g]|], tfi as [[|h]|], recg, st, mi;
    cbn; intros H; try discriminate H; reflexivity.
Qed.

Lemma stopInterview_covers :
  preserves (fun s => flag_covers s = true) stopInterview.
Proof.
  unfold stopInterview.
  apply preserves_bind; [exact stopRecording_covers|intros _].
  apply preserves_covers_of_keeps, stopInterview_rest_vars.
Qed.

Lemma nextQuestion_covers :
  preserves (fun s => flag_covers s = true) nextQuestion.
Proof.
  unfold nextQuestion.
  apply preserves_bind; [exact stopRecording_covers|intros _].
  apply preserves_bind;
    [apply preserves_covers_of_keeps; keeps_body|intros _].
  apply preserves_bind;
    [apply preserves_covers_of_keeps; keeps_body|intros i].
  apply preserves_bind;
    [apply preserves_covers_of_keeps; keeps_body|intros n].
  destruct (n <=? i); [exact stopInterview_covers|].
  apply preserves_covers_of_keeps. unfold_script; keeps_body.
Qed.

(** From a state the flag covers, [setupRecording] and, after steps
    that leave the recording alone, [startRecording] end in one it
    covers. *)
Lemma setup_then_start_covers (s sa sb : State) :
  flag_covers s = true ->
  setupRecording s = Ok tt sa ->
  recorder_vars sb = recorder_vars sa ->
  exists sc, startRecording sb = Ok tt sc /\ flag_covers sc = true.
Proof.
  intros H Ea Hb.
  destruct (setupRecording_result s)
    as (sa' & Ea' & _ & _ & _ & _ & _ & _ & _ & _ & _ & Hst & Hmi & Hrecg
        & Htfi & Hcase).
  rewrite Ea in Ea'. injection Ea' as <-.
  unfold flag_covers in H. unfold recorder_vars in H, Hb.
  injection Hb as Bmr Brecg Bst Btfi Bmi.
  destruct (stream (rec s) && mimeSupported (br s)) eqn:Hok.
  - destruct Hcase as [Hmr _]. rewrite <- Bmr in Hmr.
    destruct (startRecording_fresh sb [] Hmr)
      as (sc & Ec & Cmr & Crec & _ & Cst & Ctfi & _ & _ & _ & _ & _ & _ & _
          & _ & _ & Cmi).
    exists sc. split; [exact Ec|].
    unfold flag_covers, recorder_vars.
    rewrite Cmr, Crec, Cst, Ctfi, Cmi, Bst, Bmi, Hst, Hmi.
    apply andb_prop in Hok as [-> ->]. reflexivity.
  - destruct Hcase as [Hrec _].
    assert (Hmr : mediaRecorder (rec s) = None).
    { destruct (mediaRecorder (rec s)) as [[[] g]|],
               (tabFocusInterval (rec s)) as [[|h]|]; cbn in H;
        try discriminate H; try reflexivity;
        rewrite <- andb_assoc, Hok, andb_false_r in H; discriminate H. }
    assert (Hmrb : mediaRecorder (rec sb) = None)
      by now rewrite Bmr, Hrec.
    eexists. split; [exact (startRecording_none sb Hmrb)|].
    unfold flag_covers, recorder_vars.
    change (covers (mediaRecorder (rec sb), recording (rec sb),
                    stream (rec sb), tabFocusInterval (rec sb),
                    mimeSupported (br sb)) = true).
    now rewrite Bmr, Brecg, Bst, Btfi, Bmi, Hrec, Hmi.
Qed.

Lemma startInterview_covers :
  preserves (fun s => flag_covers s = true) startInterview.
Proof.
  intros s H.
  destruct (le_lt_dec (List.length (questions (ses s)))
              (currentQuestionIndex (ses s))) as [L|L].
  - rewrite (startInterview_refuses s L).
    revert H. apply preserves_covers_of_keeps. unfold_script; keeps_body.
  - rewrite (startInterview_proceeds s L).
    destruct (setupRecording_result s) as (sa & Ea & _).
    rewrite (bind_Ok _ _ _ _ _ Ea).
    rewrite (bind_Ok _ _ _ _ _ (jq_Ok _ _)).
    rewrite (bind_Ok _ _ _ _ _ (jq_Ok _ _)).
    rewrite (bind_Ok _ _ _ _ _ (jq_Ok _ _)).
    match goal with |- context [bind _ _ ?t] => set (sb := t) end.
    assert (Hb : recorder_vars sb = recorder_vars sa) by reflexivity.
    clearbody sb.
    destruct (setup_then_start_covers s sa sb H Ea Hb) as (sc & Ec & Hc).
    rewrite (bind_Ok _ _ _ _ _ Ec).
    revert Hc. apply preserves_covers_of_keeps, speak_at_vars.
Qed.

Lemma nextQuestion_timeout_covers :
  preserves (fun s => flag_covers s = true) nextQuestion_timeout.
Proof.
  intros s H. unfold nextQuestion_timeout.
  destruct (setupRecording_result s) as (sa & Ea & _).
  rewrite (bind_Ok _ _ _ _ _ Ea).
  destruct (setup_then_start_covers s sa sa H Ea eq_refl) as (sc & Ec & Hc).
  rewrite (bind_Ok _ _ _ _ _ Ec).
  revert Hc. apply preserves_covers_of_keeps. unfold_script; keeps_body.
Qed.

Lemma timer_fires_covers (i : nat) :
  preserves (fun s => flag_covers s = true) (timer_fires i).
Proof.
  unfold timer_fires.
  apply preserves_bind;
    [apply preserves_covers_of_keeps; keeps_body|intros ts].
  destruct (nth_error ts i) as [[ms cb]|];
    [|apply preserves_covers_of_keeps; keeps_body].
  apply preserves_bind;
    [apply preserves_covers_of_keeps; keeps_body|intros _].
  destruct cb; cbn [timer_callback];
    [apply preserves_covers_of_keeps; keeps_body
    |exact nextQuestion_timeout_covers
    |apply preserves_covers_of_keeps; unfold_script; keeps_body
    |apply preserves_covers_of_keeps; unfold_script; keeps_body].
Qed.

Lemma startSetup_granted_covers role :
  preserves (fun s => flag_covers s = true) (startSetup_granted role).
Proof.
  intros s.
  destruct s as [[mr chunks recg st tfi] se spk a p
                 [rl fr ti iv ta sn ni un ms mi]].
  destruct mr as [[[] g]|], tfi as [[|h]|], recg, st, mi;
    cbn; intros H; try discriminate H; reflexivity.
Qed.

Lemma media_gathered_covers data :
  preserves (fun s => flag_covers s = true) (media_gathered data).
Proof.
  intros s.
  destruct s as [[mr chunks recg st tfi] se spk a p
                 [rl fr ti iv ta sn ni un ms mi]].
  destruct mr as [[[] g]|], tfi as [[|h]|], recg, st, mi;
    cbn; intros H; try discriminate H; reflexivity.
Qed.

(** The recorder ends by itself: the flag stays up and the interval goes
    on, with the recorder inactive. *)
Lemma recorder_ends_covers :
  preserves (fun s => flag_covers s = true) recorder_ends.
Proof.
  intros s H. unfold recorder_ends. unfold bind at 1, gets.
  destruct (mediaRecorder (rec s)) as [[[] g]|] eqn:E;
    [exact H| |exact H|exact H].
  rewrite (bind_Ok _ _ _ _ _ (modify_Ok _ _)).
  match goal with |- context [bind _ _ ?t] => set (s1 := t) end.
  assert (H1 : flag_covers s1 = true).
  { unfold flag_covers, recorder_vars in H |- *.
    change (covers (Some {| state := inactive; gathered := [] |},
                    recording (rec s), stream (rec s),
                    tabFocusInterval (rec s), mimeSupported (br s)) = true).
    rewrite E in H.
    destruct (tabFocusInterval (rec s)) as [[|h]|];
      [discriminate H|exact H|discriminate H]. }
  clearbody s1. revert H1.
  apply preserves_covers_of_keeps. unfold_script; keeps_body.
Qed.

Lemma handler_covers (e : Event) :
  preserves (fun s => flag_covers s = true) (handler e).
Proof.
  destruct (calm e) eqn:Hc;
    [apply preserves_covers_of_keeps, handler_vars, Hc|].
  destruct e as [role|role| |[r|]| | | |[data|]| | |data| | |i|[data|]|
                 |[response|]| |rect| |];
    try discriminate Hc; cbn [handler].
  - apply startSetup_granted_covers.
  - exact startInterview_covers.
  - exact nextQuestion_covers.
  - exact stopInterview_covers.
  - apply media_gathered_covers.
  - exact recorder_ends_covers.
  - apply timer_fires_covers.
Qed.

Lemma step_covers (s : State) (e : Event) :
  flag_covers s = true -> flag_covers (step s e) = true.
Proof.
  intros H. pose proof (handler_covers e s H) as F. unfold step.
  destruct (handler e s); exact F.
Qed.

Lemma run_covers (es : list Event) :
  forall s, flag_covers s = true -> flag_covers (run s es) = true.
Proof.
  induction es as [|e es IH]; intros s H; [exact H|].
  cbn [run fold_left]. fold (run (step s e) es).
  apply IH, step_covers, H.
Qed.

Lemma flag_agrees_recording (s : State) :
  flag_agrees s = true ->
  recording (rec s) = is_recording (mediaRecorder (rec s))
  /\ (recording (rec s) = true <-> tabFocusInterval (rec s) <> None).
Proof.
  unfold flag_agrees, recorder_vars, agrees, is_recording.
  destruct (mediaRecorder (rec s)) as [[[] g]|],
           (tabFocusInterval (rec s)) as [[|h]|],
           (recording (rec s)); cbn; intros H; try discriminate H;
    (split; [reflexivity|split; congruence]).
Qed.

Lemma flag_covers_recording (s : State) :
  flag_covers s = true ->
  (is_recording (mediaRecorder (rec s)) = true -> recording (rec s) = true)
  /\ (recording (rec s) = true <-> tabFocusInterval (rec s) <> None).
Proof.
  unfold flag_covers, recorder_vars, covers, is_recording.
  destruct (mediaRecorder (rec s)) as [[[] g]|],
           (tabFocusInterval (rec s)) as [[|h]|],
           (recording (rec s)); cbn; intros H; try discriminate H;
    (split; [congruence|split; congruence]).
Qed.

Lemma flag_agrees_covers (s : State) :
  flag_agrees s = true -> flag_covers s = true.
Proof.
  unfold flag_agrees, flag_covers, recorder_vars, agrees, covers.
  destruct (mediaRecorder (rec s)) as [[[] g]|],
           (tabFocusInterval (rec s)) as [[|h]|];
    intros H; try discriminate H; exact H.
Qed.

(** The flag [recording] and the recorder.  The script lowers the flag, and
    clears [tabFocusInterval], in [stopRecording] only, and raises them in
    [startRecording]; a recorder that ends by itself leaves both as they
    are.  So, whatever the events: while the recorder records the flag is
    up, and the flag is up exactly when [tabFocusInterval] holds a handle;
    and as long as no recorder has ended by itself, the flag is up exactly
    while the recorder records.  This is so after every sequence of events
    from a page where it is so, as the loaded page is. *)
Theorem recording_flag_invariant (s : State) (es : list Event) :
  flag_covers s = true ->
  let s' := run s es in
  flag_covers s' = true
  /\ (is_recording (mediaRecorder (rec s')) = true -> recording (rec s') = true)
  /\ (recording (rec s') = true <-> tabFocusInterval (rec s') <> None)
  /\ (flag_agrees s = true ->
      forallb scripted es = true ->
      flag_agrees s' = true
      /\ recording (rec s') = is_recording (mediaRecorder (rec s'))).
Proof.
  intros H s'. pose proof (run_covers es s H) as F.
  split; [exact F|].
  destruct (flag_covers_recording s' F) as [C1 C2].
  split; [exact C1|]. split; [exact C2|].
  intros Ha Hs. pose proof (run_flag es Hs s Ha) as G.
  split; [exact G|]. apply flag_agrees_recording, G.
Qed.

(** The recorder ends by itself during the first question: the flag stays
    up and the interval goes on. *)
Lemma recording_flag_witness :
  let s' := run (asking two_questions granted_page)
                [ClickStart; MediaGathered [1%N]; RecorderEnds] in
  flag_covers s' = true
  /\ (is_recording (mediaRecorder (rec s')) = true -> recording (rec s') = true)
  /\ (recording (rec s') = true <-> tabFocusInterval (rec s') <> None)
  /\ (flag_agrees (asking two_questions granted_page) = true ->
      forallb scripted [ClickStart; MediaGathered [1%N]; RecorderEnds] = true ->
      flag_agrees s' = true
      /\ recording (rec s') = is_recording (mediaRecorder (rec s'))).
Proof.
  exact (recording_flag_invariant (asking two_questions granted_page)
           [ClickStart; MediaGathered [1%N]; RecorderEnds]
           eq_refl).
Defined.
(** ** Cheating detection *)

(** The two observers report a candidate who is away exactly while the flag
    [recording] is up.  Whatever events came before, the flag is up while
    the recorder records, so that no recording goes unobserved; and as long
    as no recorder has ended by itself, the flag is up exactly while the
    recorder records.  After a recorder has ended by itself the observers go
    on reporting, with the recorder inactive. *)
Theorem observers_report_while_recording
  (s : State) (es : list Event) (away : bool) :
  flag_covers s = true ->
  let s' := run s es in
  let on := away && recording (rec s') in
  visibilitychange away s'
  = Ok (if on then Some (LogTabSwitch (candidateId (ses s))) else None) s'
  /\ tabFocusCheck (negb away) s'
     = Ok (if on
           then Some (LogCheating (candidateId (ses s))
                        (currentQuestionIndex (ses s')))
           else None) s'
  /\ (is_recording (mediaRecorder (rec s')) = true -> recording (rec s') = true)
  /\ (flag_agrees s = true ->
      forallb scripted es = true ->
      recording (rec s') = is_recording (mediaRecorder (rec s'))).
Proof.
  intros H s' on.
  destruct (flag_covers_recording s' (run_covers es s H)) as [Hr _].
  assert (Hc : candidateId (ses s') = candidateId (ses s))
    by exact (f_equal (fun c => snd (fst c))
                (eq_trans (y := constants s')
                   eq_refl (run_constants es s))).
  unfold visibilitychange, tabFocusCheck, bind, gets, ret, on.
  rewrite negb_involutive.
  split; [destruct (away && _); [rewrite Hc|]; reflexivity|].
  split; [destruct (away && _); [rewrite Hc|]; reflexivity|].
  split; [exact Hr|].
  intros Ha Hs. apply flag_agrees_recording, (run_flag es Hs s Ha).
Qed.

(** The recorder ends by itself during the first question, and the
    candidate is away: the observers report, the recorder being inactive. *)
Lemma observers_witness :
  (let s' := run (asking two_questions granted_page)
                 [ClickStart; RecorderEnds] in
   let on := true && recording (rec s') in
   visibilitychange true s'
   = Ok (if on
         then Some (LogTabSwitch
                      (candidateId (ses (asking two_questions granted_page))))
         else None) s'
   /\ tabFocusCheck (negb true) s'
      = Ok (if on
            then Some (LogCheating
                         (candidateId (ses (asking two_questions granted_page)))
                         (currentQuestionIndex (ses s')))
            else None) s'
   /\ (is_recording (mediaRecorder (rec s')) = true
       -> recording (rec s') = true)
   /\ (flag_agrees (asking two_questions granted_page) = true ->
       forallb scripted [ClickStart; RecorderEnds] = true ->
       recording (rec s') = is_recording (mediaRecorder (rec s'))))
  /\ (let s' := run (asking two_questions granted_page)
                    [ClickStart; RecorderEnds] in
      mediaRecorder (rec s') = Some {| state := inactive; gathered := [] |}
      /\ recording (rec s') = true
      /\ visibilitychange true s'
         = Ok (Some (LogTabSwitch (lit "candidate_1"))) s'
      /\ tabFocusCheck false s'
         = Ok (Some (LogCheating (lit "candidate_1") 0)) s').
Proof.
  split.
  - exact (observers_report_while_recording
             (asking two_questions granted_page) [ClickStart; RecorderEnds]
             true eq_refl).
  - vm_compute. repeat split.
Defined.

(** On the page as it is loaded no recorder is ever made, so the observers
    never report, whatever the candidate does. *)
Theorem observers_silent_on_loaded_page
  (cid : jsstring) (rect : float * float) (sin : float -> float)
  (mime : bool) (es : list Event) (away : bool) :
  let s := run (loaded cid rect sin mime) es in
  visibilitychange away s = Ok None s
  /\ tabFocusCheck (negb away) s = Ok None s.
Proof.
  intros s.
  assert (Hf : flag_covers (loaded cid rect sin mime) = true) by reflexivity.
  pose proof (run_covers es _ Hf) as F. fold s in F.
  assert (Hv : recording_view s = recording_view (loaded cid rect sin mime)).
  { apply run_recording_view. repeat split. }
  assert (Hm : mediaRecorder (rec s) = None)
    by exact (f_equal (fun v => snd (fst (fst (fst v)))) Hv).
  assert (Hr : recording (rec s) = false).
  { unfold flag_covers, recorder_vars, covers in F. rewrite Hm in F.
    destruct (tabFocusInterval (rec s)); [discriminate F|].
    now destruct (recording (rec s)). }
  unfold visibilitychange, tabFocusCheck, bind, gets, ret.
  rewrite Hr, !andb_false_r. split; reflexivity.
Qed.

(** ** Showing the results *)

(** One assessment is written when its properties can be read and the
    three it shows have a text. *)
Lemma question_evaluation_eq (i : nat) (a : Value) (s : State) :
  question_evaluation (i, a) s
  = if entry_ok a
    then Ok (QuestionEvaluation (i + 1) (text_of (prop a "question"))
               (text_of (prop a "assessment")) (text_of (prop a "score"))) s
    else Thrown TypeError s.
Proof.
  unfold question_evaluation, entry_ok.
  destruct (readable a) eqn:Ha; cbn [andb];
    [|now rewrite (bind_Thrown _ _ _ _ _ (get_prop_unreadable a _ s Ha))].
  rewrite (bind_Ok _ _ _ _ _ (get_prop_readable a _ s Ha)).
  destruct (stringable (prop a "question")) eqn:H1; cbn [andb];
    [|now rewrite (bind_Thrown _ _ _ _ _ (str_Thrown _ s H1))].
  rewrite (bind_Ok _ _ _ _ _ (str_Ok _ s H1)).
  rewrite (bind_Ok _ _ _ _ _ (get_prop_readable a _ s Ha)).
  destruct (stringable (prop a "assessment")) eqn:H2; cbn [andb];
    [|now rewrite (bind_Thrown _ _ _ _ _ (str_Thrown _ s H2))].
  rewrite (bind_Ok _ _ _ _ _ (str_Ok _ s H2)).
  rewrite (bind_Ok _ _ _ _ _ (get_prop_readable a _ s Ha)).
  destruct (stringable (prop a "score")) eqn:H3;
    [|now rewrite (bind_Thrown _ _ _ _ _ (str_Thrown _ s H3))].
  now rewrite (bind_Ok _ _ _ _ _ (str_Ok _ s H3)).
Qed.

(** The loop over the assessments writes the entries in their order,
    numbered from one, and stops at the first it cannot write. *)
Lemma mapM_evaluations (entries : list Value) (s : State) :
  forall i,
    mapM question_evaluation
      (combine (seq i (List.length entries)) entries) s
    = if forallb entry_ok entries
      then Ok (evaluations_from i entries) s
      else Thrown TypeError s.
Proof.
  induction entries as [|a entries IH]; intros i; [reflexivity|].
  cbn [List.length seq combine mapM forallb evaluations_from].
  unfold bind at 1. rewrite question_evaluation_eq.
  destruct (entry_ok a); cbn [andb]; [|reflexivity].
  unfold bind at 1. rewrite (IH (S i)).
  destruct (forallb entry_ok entries); reflexivity.
Qed.

Lemma result_section_eq (data : Value) (k title : string) (s : State) :
  readable data = true ->
  result_section data k title s
  = if list_ok (prop data k)
    then Ok (section_of data k title) s
    else Thrown TypeError s.
Proof.
  intros H. unfold result_section.
  rewrite (bind_Ok _ _ _ _ _ (get_prop_readable data k s H)).
  unfold section_of, list_ok.
  destruct (prop data k) as [| |b|repr|text|items|props];
    cbn [is_array items_of andb as_array]; try reflexivity.
  rewrite (bind_Ok _ _ _ _ _ (eq_refl : ret items s = Ok items s)).
  unfold bind at 1. rewrite mapM_str.
  destruct (forallb stringable items); reflexivity.
Qed.

Lemma displayResults_eq (data : Value) (s : State) :
  invalid_result data = false ->
  displayResults data s
  = (jq (AddClass "interviewContainer" "hidden") ;;
     jq (RemoveClass "resultsContainer" "hidden") ;;
     if renderable data
     then jq (SetHtml "resultsContent" (results_html data)) ;;
          jq (BindClick "downloadPdfBtn")
     else throw TypeError) s.
Proof.
  intros Hinv.
  assert (Hr : readable data = true).
  { apply truthy_readable. unfold invalid_result in Hinv.
    destruct (to_boolean data); [reflexivity|discriminate Hinv]. }
  unfold displayResults. rewrite Hinv.
  rewrite !(bind_Ok _ _ _ _ _ (jq_Ok _ _)).
  match goal with |- context [bind _ _ ?t] => generalize t; intros s1 end.
  unfold renderable, results_html.
  rewrite (bind_Ok _ _ _ _ _ (get_prop_readable data _ s1 Hr)).
  destruct (stringable (prop data "overall_assessment")) eqn:H1; cbn [andb];
    [|now rewrite (bind_Thrown _ _ _ _ _ (str_Thrown _ s1 H1))].
  rewrite (bind_Ok _ _ _ _ _ (str_Ok _ s1 H1)).
  rewrite (bind_Ok _ _ _ _ _ (get_prop_readable data _ s1 Hr)).
  destruct (stringable (prop data "overall_score")) eqn:H2; cbn [andb];
    [|now rewrite (bind_Thrown _ _ _ _ _ (str_Thrown _ s1 H2))].
  rewrite (bind_Ok _ _ _ _ _ (str_Ok _ s1 H2)).
  rewrite (bind_Ok _ _ _ _ _ (get_prop_readable data _ s1 Hr)).
  destruct (prop data "question_assessments") as [| | | | |entries|];
    cbn [is_array items_of andb as_array]; try reflexivity.
  rewrite (bind_Ok _ _ _ _ _ (eq_refl : ret entries s1 = Ok entries s1)).
  unfold bind at 1. rewrite (mapM_evaluations entries s1 0).
  destruct (forallb entry_ok entries); cbn [andb]; [|reflexivity].
  unfold bind at 1. rewrite (result_section_eq data _ _ s1 Hr).
  destruct (list_ok (prop data "strengths")); cbn [andb]; [|reflexivity].
  unfold bind at 1. rewrite (result_section_eq data _ _ s1 Hr).
  destruct (list_ok (prop data "areas_for_improvement")); cbn [andb];
    [|reflexivity].
  unfold bind at 1. rewrite (result_section_eq data _ _ s1 Hr).
  destruct (list_ok (prop data "recommended_resources")); cbn [andb];
    reflexivity.
Qed.

(** What [displayResults] does with a result it does not refuse.  It hides
    the interview and shows the results container first.  Then it returns
    exactly when the result can be rendered, and has then written the page
    of results, the assessments numbered from one; otherwise it ends with a
    [TypeError] and leaves the container empty, with no message. *)
Theorem displayResults_renders_or_throws (data : Value) (s : State) :
  invalid_result data = false ->
  let s' := state_of (displayResults data s) in
  returned (displayResults data s) = renderable data
  /\ messages (page s') = messages (page s)
  /\ dom (page s')
     = dom (page s)
       ++ [AddClass "interviewContainer" "hidden";
           RemoveClass "resultsContainer" "hidden"]
       ++ if renderable data
          then [SetHtml "resultsContent" (results_html data);
                BindClick "downloadPdfBtn"]
          else [].
Proof.
  intros Hinv. rewrite (displayResults_eq data s Hinv).
  destruct (renderable data); cbn; repeat split;
    now rewrite <- ?app_assoc.
Qed.

Lemma displayResults_witness :
  let s' := state_of (displayResults sample_result example_page) in
  returned (displayResults sample_result example_page)
  = renderable sample_result
  /\ messages (page s') = messages (page example_page)
  /\ dom (page s')
     = dom (page example_page)
       ++ [AddClass "interviewContainer" "hidden";
           RemoveClass "resultsContainer" "hidden"]
       ++ if renderable sample_result
          then [SetHtml "resultsContent" (results_html sample_result);
                BindClick "downloadPdfBtn"]
          else [].
Proof.
  exact (displayResults_renders_or_throws sample_result example_page eq_refl).
Defined.

(** ** The answer of an analysis *)

(** An answer to the analysis request ends the analysis whatever it holds:
    the flag is reset, the progress bar is left to be hidden after a second,
    and no retry is set.  The results are shown or refused by
    [displayResults]; the only exception that can escape is its [TypeError]
    on a result it can neither refuse nor render. *)
Theorem analysis_answer_ends_analysis (data : Value) (s : State) :
  let s' := step s (AnalyzeAnswered (Some data)) in
  analyzingData (an s') = false
  /\ timers (br s') = timers (br s) ++ [(1000, HideProgress)]
  /\ analysis_requests s' = analysis_requests s
  /\ uncaught (br s')
     = uncaught (br s) ++ if breaks_display data then [TypeError] else [].
Proof.
  unfold step. cbn [handler]. unfold analyze_success, breaks_display.
  rewrite (bind_Ok _ _ _ _ _
             (eq_refl : modify (set_analyzingData false) s = Ok tt _)).
  rewrite !(bind_Ok _ _ _ _ _ (jq_Ok _ _)).
  rewrite (bind_Ok _ _ _ _ _
             (eq_refl : setTimeout HideProgress 1000 _ = Ok tt _)).
  match goal with |- context [displayResults data ?t] => set (s1 := t) end.
  assert (H1 : analyzingData (an s1) = false
               /\ timers (br s1) = timers (br s) ++ [(1000, HideProgress)]
               /\ analysis_requests s1 = analysis_requests s
               /\ uncaught (br s1) = uncaught (br s))
    by (repeat split).
  clearbody s1. destruct H1 as (Ha & Ht & Hn & Hu).
  destruct (invalid_result data) eqn:Hinv; cbn [orb negb].
  - unfold displayResults. rewrite Hinv.
    cbn. rewrite app_nil_r. auto.
  - rewrite (displayResults_eq data s1 Hinv).
    destruct (renderable data); cbn; rewrite ?app_nil_r, Hu; auto.
Qed.

(** ** The PDF answer *)

(** The answer to a PDF request gives the download back, with a link to the
    document or with a notice, when its properties can be read and the
    locator, if any, has a text.  An answer that is [null] or [undefined],
    or whose locator has no text, ends the callback with a [TypeError]
    before the flag is reset: the clicks that follow send nothing. *)
Theorem pdf_answer_unlocks_unless_it_throws
  (response : Value) (s : State) (n : nat) :
  downloadingPdf (an s) = true ->
  let s' := step s (PdfAnswered (Some response)) in
  downloadingPdf (an s') = negb (pdf_unlocks response)
  /\ uncaught (br s')
     = uncaught (br s) ++ (if pdf_unlocks response then [] else [TypeError])
  /\ pdf_requests (run s' (repeat ClickDownloadPdf (S n)))
     = pdf_requests s + if pdf_unlocks response then 1 else 0.
Proof.
  intros Hbusy s'.
  assert (Hclicks : forall k t,
             downloadingPdf (an t) = true ->
             run t (repeat ClickDownloadPdf k) = t).
  { induction k as [|k IH]; intros t Ht; [reflexivity|].
    cbn [repeat run fold_left].
    assert (E : step t ClickDownloadPdf = t).
    { unfold step. cbn [handler]. unfold downloadPdf, bind, gets.
      now rewrite Ht. }
    rewrite E. apply IH, Ht. }
  assert (Hclick : forall t,
             downloadingPdf (an t) = false ->
             downloadingPdf (an (step t ClickDownloadPdf)) = true
             /\ pdf_requests (step t ClickDownloadPdf) = pdf_requests t + 1).
  { intros t Ht. unfold step. cbn [handler]. unfold downloadPdf, bind, gets.
    rewrite Ht. cbn. unfold pdf_requests. cbn.
    rewrite filter_app, length_app. cbn. auto. }
  assert (E : if pdf_unlocks response
              then downloadingPdf (an s') = false
                   /\ uncaught (br s') = uncaught (br s)
                   /\ pdf_requests s' = pdf_requests s
              else s' = set_uncaught (uncaught (br s) ++ [TypeError]) s).
  { unfold s', step, pdf_unlocks. cbn [handler]. unfold downloadPdf_success.
    destruct (readable response) eqn:Hr; cbn [andb];
      [|now rewrite (bind_Thrown _ _ _ _ _
                       (get_prop_unreadable response "pdf_url" s Hr))].
    rewrite (bind_Ok _ _ _ _ _ (get_prop_readable response _ s Hr)).
    destruct (to_boolean (prop response "pdf_url")); cbn [negb orb];
      [|cbn; unfold pdf_requests; cbn; auto].
    destruct (stringable (prop response "pdf_url")) eqn:Ht;
      [|now rewrite (bind_Thrown _ _ _ _ _ (str_Thrown _ s Ht))].
    rewrite (bind_Ok _ _ _ _ _ (str_Ok _ s Ht)).
    cbn; unfold pdf_requests; cbn; auto. }
  clearbody s'.
  destruct (pdf_unlocks response); cbn [negb].
  - destruct E as (Ed & Eu & Ep).
    split; [exact Ed|]. split; [now rewrite Eu, app_nil_r|].
    cbn [repeat run fold_left].
    destruct (Hclick s' Ed) as [Hd Hp].
    fold (run (step s' ClickDownloadPdf) (repeat ClickDownloadPdf n)).
    rewrite (Hclicks n _ Hd), Hp, Ep. reflexivity.
  - subst s'.
    split; [exact Hbusy|]. split; [reflexivity|].
    rewrite (Hclicks (S n)
               (set_uncaught (uncaught (br s) ++ [TypeError]) s) Hbusy).
    unfold pdf_requests. cbn. lia.
Qed.

(** A locator without a text: the download stays locked. *)
Lemma pdf_answer_witness :
  let s := step example_page ClickDownloadPdf in
  let s' := step s (PdfAnswered (Some pdf_without_text)) in
  downloadingPdf (an s') = negb (pdf_unlocks pdf_without_text)
  /\ uncaught (br s')
     = uncaught (br s)
       ++ (if pdf_unlocks pdf_without_text then [] else [TypeError])
  /\ pdf_requests (run s' (repeat ClickDownloadPdf (S 2)))
     = pdf_requests s + if pdf_unlocks pdf_without_text then 1 else 0.
Proof.
  exact (pdf_answer_unlocks_unless_it_throws pdf_without_text
           (step example_page ClickDownloadPdf) 2 eq_refl).
Defined.

(** ** The list shown after the setup *)

(** The success callback of [startSetup] on any answer.  It ends normally
    exactly on the answers it can read to the end; otherwise it ends with a
    [TypeError], the answer stored and nothing shown.  When it ends
    normally it has kept the list the service sent, or parsed the text when
    that list is empty; it has shown the list it stored and moved the page
    to the second step.  The parser pushes into the empty list of the
    answer itself, so that the answer stored in [interviewData] then holds
    the questions too.  The list goes to [allQuestions]: [questions], which
    the interview reads, stays as it was. *)
Theorem setup_shows_received_questions (response : Value) (s : State) :
  let s' := state_of (startSetup_success response s) in
  returned (startSetup_success response s) = setup_ok response
  /\ uncaught (br (step s (StartInterviewAnswered (Some response))))
     = uncaught (br s) ++ (if setup_ok response then [] else [TypeError])
  /\ questions (ses s') = questions (ses s)
  /\ messages (page s') = messages (page s)
  /\ if setup_ok response
     then allQuestions (ses s') = received_questions response
          /\ interviewData (ses s') = Some (kept_response response)
          /\ dom (page s')
             = dom (page s)
               ++ SetHtml "questions-container"
                    [QuestionList
                       (map text_of (items_of (received_questions response)))]
               :: setup_done
     else interviewData (ses s') = Some response
          /\ dom (page s') = dom (page s).
Proof.
  destruct (startSetup_success_result response s)
    as (s1 & E & _ & _ & _ & Hbr & Hq & _ & _ & Hm & Hcase).
  unfold step. cbn [handler]. rewrite E.
  destruct (setup_ok response); cbn [state_of returned];
    (split; [reflexivity|]);
    (split; [cbn; now rewrite Hbr, ?app_nil_r|]);
    (split; [exact Hq|]); (split; [exact Hm|]); exact Hcase.
Qed.

(** The answer with two numbered questions in its text and an empty list:
    the questions are stored, and the answer kept in [interviewData] holds
    them in its own list. *)
Lemma setup_pushes_into_the_answer :
  let s' := state_of (startSetup_success two_question_response example_page) in
  allQuestions (ses s')
  = VArr [VStr (lit "1. Tell me about yourself");
          VStr (lit "2. Describe a challenge you solved")]
  /\ interviewData (ses s')
     = Some (VObj [("questions"%string,
                    VStr (lit "1. Tell me about yourself" ++ LF
                            :: lit "2. Describe a challenge you solved"));
                   ("question_list"%string,
                    VArr [VStr (lit "1. Tell me about yourself");
                          VStr (lit "2. Describe a challenge you solved")])]).
Proof. vm_compute. split; reflexivity. Qed.

(** ** A recording started again before it was stopped *)

Lemma begin_recording_nextId (s : State) :
  stream (rec s) = true ->
  mimeSupported (br s) = true ->
  nextId (br (state_of (begin_recording s))) = S (nextId (br s)).
Proof.
  destruct s as [[mr chunks recg st tfi] se spk a p
                 [rl fr ti iv ta sn ni un ms mi]].
  cbn [rec br stream mimeSupported]. intros -> ->. reflexivity.
Qed.

Lemma remove_handle_newest {A} (n : nat) (l : list (nat * A)) (x y : A) :
  Forall (fun p => fst p <= n) l ->
  remove_handle (S (S n)) ((l ++ [(S n, x)]) ++ [(S (S n), y)])
  = l ++ [(S n, x)].
Proof.
  intros H. apply remove_handle_fresh.
  apply Forall_app. split.
  - eapply Forall_impl; [|exact H]. cbn. intros p Hp. lia.
  - constructor; [cbn; lia|constructor].
Qed.

Lemma focus_checks_app (l : list (nat * IntervalCb)) (h : nat) :
  List.length (filter is_focus_check (l ++ [(h, TabFocusCheck)]))
  = List.length (filter is_focus_check l) + 1.
Proof. rewrite filter_app, length_app. reflexivity. Qed.

(** [setupRecording] makes a new recorder whether or not the one before is
    still recording.  A recording started again without [stopRecording] in
    between is lost: its recorder is dropped with what it gathered, no event
    of it is queued, and so nothing of it is uploaded.  Its focus check is
    lost too: [tabFocusInterval] holds the new handle, and [stopRecording]
    ends the new check only. *)
Theorem restart_loses_recording (s : State) (ds : list Blob) :
  stream (rec s) = true ->
  mimeSupported (br s) = true ->
  handles_given s ->
  let s1 := state_of (begin_recording s) in
  let s2 := run s1 (gathering ds) in
  let s3 := state_of (begin_recording s2) in
  let s4 := state_of (stopRecording s3) in
  mediaRecorder (rec s3) = Some {| state := rs_recording; gathered := [] |}
  /\ tasks (br s3) = tasks (br s)
  /\ focus_checks s3 = focus_checks s + 2
  /\ tasks (br s4) = tasks (br s) ++ [RecorderStopped []]
  /\ tabFocusInterval (rec s4) = None
  /\ focus_checks s4 = focus_checks s + 1.
Proof.
  intros Hst Hmime Hh s1 s2 s3 s4.
  pose proof (begin_recording_nextId s Hst Hmime) as Hn1. fold s1 in Hn1.
  destruct (begin_recording_records s Hst Hmime)
    as (t1 & E1 & Hmr1 & _ & _ & Hst1 & _ & Hiv1 & _ & _ & _
        & Hta1 & _ & _ & _ & Hmi1).
  assert (Es1 : s1 = t1) by (unfold s1; now rewrite E1).
  clearbody s1. subst t1.
  pose proof (gathering_appends ds s1 [] Hmr1) as E2. cbn [app] in E2.
  fold s2 in E2.
  assert (V2 : stream (rec s2) = stream (rec s1)
               /\ mimeSupported (br s2) = mimeSupported (br s1)
               /\ intervals (br s2) = intervals (br s1)
               /\ nextId (br s2) = nextId (br s1)
               /\ tasks (br s2) = tasks (br s1)).
  { rewrite E2. destruct s1 as [[mr chunks recg st tfi] se spk a p b].
    cbn. repeat split. }
  clearbody s2. clear E2.
  destruct V2 as (Hst2 & Hmi2 & Hiv2 & Hn2 & Hta2).
  rewrite Hst1 in Hst2. rewrite Hmi1 in Hmi2.
  destruct (begin_recording_records s2 Hst2 Hmi2)
    as (t3 & E3 & Hmr3 & _ & _ & _ & Htfi3 & Hiv3 & _ & _ & _
        & Hta3 & _ & _ & _ & _).
  assert (Es3 : s3 = t3) by (unfold s3; now rewrite E3).
  clearbody s3. subst t3.
  rewrite Hn2, Hn1 in Htfi3, Hiv3. rewrite Hiv2, Hiv1 in Hiv3.
  destruct (stopRecording_running s3 _ _ Hmr3 Htfi3)
    as (t4 & E4 & _ & _ & _ & Htfi4 & Hiv4 & _ & Hta4 & _ & _).
  assert (Es4 : s4 = t4) by (unfold s4; now rewrite E4).
  clearbody s4. subst t4.
  rewrite Hiv3, (remove_handle_newest _ _ _ _ Hh) in Hiv4.
  unfold focus_checks.
  rewrite Hiv3, Hiv4, Hta4, Hta3, Hta2, Hta1.
  rewrite !focus_checks_app.
  repeat split; try assumption; lia.
Qed.

Lemma restart_loses_recording_witness :
  let s := granted_page in
  let ds := [[1%N; 2%N]] in
  let s1 := state_of (begin_recording s) in
  let s2 := run s1 (gathering ds) in
  let s3 := state_of (begin_recording s2) in
  let s4 := state_of (stopRecording s3) in
  mediaRecorder (rec s3) = Some {| state := rs_recording; gathered := [] |}
  /\ tasks (br s3) = tasks (br s)
  /\ focus_checks s3 = focus_checks s + 2
  /\ tasks (br s4) = tasks (br s) ++ [RecorderStopped []]
  /\ tabFocusInterval (rec s4) = None
  /\ focus_checks s4 = focus_checks s + 1.
Proof.
  apply (restart_loses_recording granted_page [[1%N; 2%N]]);
    [reflexivity|reflexivity|constructor].
Defined.

(** ** The end of the interview *)

Lemma stopRecording_stops (s : State) :
  flag_agrees s = true ->
  exists s1,
    stopRecording s = Ok tt s1
    /\ recording (rec s1) = false
    /\ is_recording (mediaRecorder (rec s1)) = false
    /\ tabFocusInterval (rec s1) = None
    /\ sp s1 = sp s.
Proof.
  unfold flag_agrees, recorder_vars, agrees.
  destruct s as [[mr chunks recg st tfi] se spk a p b].
  cbn [rec mediaRecorder recording stream tabFocusInterval].
  destruct mr as [[[] g]|], tfi as [[|h]|], recg;
    intros H; try discriminate H;
    (eexists; split; [reflexivity|]); cbn; repeat split.
Qed.

Lemma stopInterview_rest_silences (s : State) :
  let rest :=
    jq (SetDisabled "startBtn" true) ;;
    jq (SetDisabled "nextBtn" true) ;;
    jq (SetDisabled "stopBtn" true) ;;
    showMessage (lit "Analyzing interview responses...") info ;;
    jq (RemoveClass "progressContainer" "hidden") ;;
    jq (SetWidth "progressBar" (lit "0%")) ;;
    jq (SetText "progressBar" (lit "Analyzing...")) ;;
    audio_pause ;;
    stopSpeaking ;;
    modify (set_analyzingData true) ;;
    modify (set_analysisRetryCount 0) ;;
    _ <- setInterval AnalysisProgress ;;
    analyzeInterviewResponses in
  let s' := state_of (rest s) in
  returned (rest s) = true
  /\ rec s' = rec s
  /\ isSpeaking (sp s') = false
  /\ playing (audioElement (sp s')) = false
  /\ analyzingData (an s') = true
  /\ analysisRetryCount (an s') = 0.
Proof.
  destruct s as [r se [spk au ec af] a p b].
  destruct ec as [c|], af as [[|h]|]; cbn; repeat split.
Qed.

(** A click on the stop button, in a state where the flag agrees with the
    recorder: the handler ends normally, nothing records, plays or speaks
    any more, the focus check is off, and the analysis has begun with its
    retry count at zero. *)
Theorem stopInterview_quiesces (s : State) :
  flag_agrees s = true ->
  let s' := step s ClickStop in
  returned (handler ClickStop s) = true
  /\ recording (rec s') = false
  /\ is_recording (mediaRecorder (rec s')) = false
  /\ tabFocusInterval (rec s') = None
  /\ isSpeaking (sp s') = false
  /\ playing (audioElement (sp s')) = false
  /\ analyzingData (an s') = true
  /\ analysisRetryCount (an s') = 0.
Proof.
  intros H. unfold step. cbn [handler].
  destruct (stopRecording_stops s H) as (s1 & E & Hrec & Hmr & Htfi & _).
  unfold stopInterview. rewrite (bind_Ok _ _ _ _ _ E).
  destruct (stopInterview_rest_silences s1)
    as (R & Frec & Hsp & Hau & Han & Hn).
  cbv zeta in R, Frec, Hsp, Hau, Han, Hn.
  match goal with
  | |- context [returned ?r] => destruct r as [[] s2|x s2]
  end; [|discriminate R].
  cbn [state_of] in *. rewrite Frec.
  repeat split; assumption.
Qed.

Lemma stopInterview_quiesces_witness :
  let s := run (asking two_questions granted_page) [ClickStart] in
  let s' := step s ClickStop in
  returned (handler ClickStop s) = true
  /\ recording (rec s') = false
  /\ is_recording (mediaRecorder (rec s')) = false
  /\ tabFocusInterval (rec s') = None
  /\ isSpeaking (sp s') = false
  /\ playing (audioElement (sp s')) = false
  /\ analyzingData (an s') = true
  /\ analysisRetryCount (an s') = 0.
Proof.
  exact (stopInterview_quiesces
           (run (asking two_questions granted_page) [ClickStart]) eq_refl).
Defined.

(** ** From one question to the next *)

(** [stopRecording] where the flag agrees. *)
Lemma stopRecording_next (s : State) :
  flag_agrees s = true ->
  exists s1,
    stopRecording s = Ok tt s1
    /\ recording (rec s1) = false
    /\ stream (rec s1) = stream (rec s)
    /\ mimeSupported (br s1) = mimeSupported (br s)
    /\ ses s1 = ses s
    /\ timers (br s1) = timers (br s)
    /\ sent (br s1) = sent (br s)
    /\ uncaught (br s1) = uncaught (br s)
    /\ recordedChunks (rec s1) = recordedChunks (rec s)
    /\ tasks (br s1) = tasks (br s) ++ stop_task s.
Proof.
  unfold flag_agrees, recorder_vars, agrees, stop_task.
  destruct s as [[mr chunks recg st tfi] se spk a p b].
  cbn [rec mediaRecorder recording stream tabFocusInterval].
  destruct mr as [[[] g]|], tfi as [[|h]|], recg;
    intros H; try discriminate H;
    (eexists; split; [reflexivity|]); cbn; rewrite ?app_nil_r;
    repeat split.
Qed.

(** The recorder's task: what it gathered joins [recordedChunks], and
    [saveRecording] uploads them with the index current then. *)
Lemma run_task_saves (s : State) :
  let s' := step s RunTask in
  recorder_vars s' = recorder_vars s
  /\ ses s' = ses s
  /\ timers (br s') = timers (br s)
  /\ uncaught (br s') = uncaught (br s)
  /\ sent (br s')
     = sent (br s)
       ++ match tasks (br s) with
          | [] => []
          | RecorderStopped g :: _ =>
              upload_of (chunks_with (recordedChunks (rec s)) g)
                (currentQuestionIndex (ses s)) (candidateId (ses s))
          end.
Proof.
  destruct s as [[mr chunks recg st tfi] [k qs aq idata cid] spk a p
                 [rl fr ti iv ta se ni un ms mi]].
  destruct ta as [|[g] ta]; [cbn; rewrite app_nil_r; repeat split|].
  destruct g as [|x g], chunks as [|c chunks]; cbn;
    rewrite ?app_nil_r; repeat split.
Qed.

(** [setupRecording] and [startRecording] where the flag agrees. *)
Lemma begin_recording_result (s : State) :
  flag_agrees s = true ->
  exists sc,
    begin_recording s = Ok tt sc
    /\ flag_agrees sc = true
    /\ (if stream (rec s) && mimeSupported (br s)
        then recording (rec sc) = true
        else recording (rec sc) = recording (rec s))
    /\ ses sc = ses s
    /\ timers (br sc) = timers (br s)
    /\ sent (br sc) = sent (br s)
    /\ uncaught (br sc) = uncaught (br s).
Proof.
  intros H. unfold begin_recording.
  destruct (setupRecording_result s)
    as (sa & Ea & Hses & _ & _ & Hsent & Hti & _ & Hun & _ & _ & _ & _
        & Hrecg & _ & Hcase).
  destruct (setup_then_start s sa sa H Ea eq_refl) as (sc & Ec & Hc).
  exists sc. rewrite (bind_Ok _ _ _ _ _ Ea). split; [exact Ec|].
  split; [exact Hc|].
  destruct (stream (rec s) && mimeSupported (br s)) eqn:Hok.
  - destruct Hcase as [Hmr _].
    destruct (startRecording_fresh sa [] Hmr)
      as (sc' & Ec' & _ & Crec & _ & _ & _ & _ & Cses & _ & _ & Csent & Cti
          & _ & Cun & _ & _).
    rewrite Ec in Ec'. injection Ec' as <-.
    rewrite Cses, Cti, Csent, Cun. auto.
  - destruct Hcase as [Hrec _].
    assert (Hmr : mediaRecorder (rec sa) = None).
    { rewrite Hrec. unfold flag_agrees, recorder_vars, agrees in H.
      destruct (mediaRecorder (rec s)) as [[[] g]|],
               (tabFocusInterval (rec s)) as [[|h]|];
        try discriminate H; try reflexivity;
        rewrite <- andb_assoc, Hok, andb_false_r in H; discriminate H. }
    rewrite (startRecording_none sa Hmr) in Ec. injection Ec as <-.
    cbn. rewrite Hrec. auto.
Qed.

(** A click on the next button before the last question, the task the
    recorder has queued, and then the timeout of the click: the index has
    advanced by one; the recording the click has stopped is uploaded, with
    the index advanced already, when it holds any media; the next question
    is spoken and its speech requested; and its answer is recorded when the
    stream is granted and the format supported.  No timeout is left behind
    and no exception is reported. *)
Theorem next_question_cycle (s : State) (q : QuestionObj) :
  flag_agrees s = true ->
  tasks (br s) = [] ->
  nth_error (questions (ses s)) (currentQuestionIndex (ses s) + 1) = Some q ->
  let s' := run s [ClickNext; RunTask;
                   TimerFires (List.length (timers (br s)))] in
  currentQuestionIndex (ses s') = currentQuestionIndex (ses s) + 1
  /\ sent (br s')
     = sent (br s) ++ next_upload s
       ++ [PostSpeakQuestion (question q) (candidateId (ses s))]
  /\ isSpeaking (sp s') = true
  /\ recording (rec s') = stream (rec s) && mimeSupported (br s)
  /\ timers (br s') = timers (br s)
  /\ uncaught (br s') = uncaught (br s).
Proof.
  intros H Hta Hq.
  destruct (stopRecording_next s H)
    as (s1 & E1 & Hrec1 & Hst1 & Hmi1 & Hses1 & Hti1 & Hsent1 & Hun1
        & Hch1 & Hta1).
  rewrite Hta in Hta1. cbn [app] in Hta1.
  assert (F1 : flag_agrees s1 = true).
  { pose proof (stopRecording_flag s H) as F. now rewrite E1 in F. }
  (* the click *)
  assert (Hlt : (List.length (questions (ses s1))
                 <=? currentQuestionIndex (ses s1) + 1) = false).
  { apply Nat.leb_gt. rewrite Hses1. apply nth_error_Some. congruence. }
  pose proof (nextQuestion_unfold s s1 E1) as En. cbv zeta in En.
  rewrite Hlt in En.
  set (s2 := set_currentQuestionIndex (currentQuestionIndex (ses s1) + 1) s1)
    in En.
  assert (Hq2 : nth_error (questions (ses s2))
                  (currentQuestionIndex (ses s1) + 1) = Some q).
  { change (questions (ses s2)) with (questions (ses s1)).
    now rewrite Hses1. }
  rewrite (bind_Ok _ _ _ _ _ (question_at_nth _ s2 q Hq2)) in En.
  rewrite (bind_Ok _ _ _ _ _ (jq_Ok _ _)) in En.
  match type of En with _ = setTimeout _ _ ?t =>
    set (s3 := set_timers (timers (br t) ++ [(1000, StartNextQuestion)]) t)
      in *
  end.
  assert (En' : nextQuestion s = Ok tt s3) by exact En. clear En.
  assert (V3 : recorder_vars s3 = recorder_vars s1
               /\ currentQuestionIndex (ses s3)
                  = currentQuestionIndex (ses s1) + 1
               /\ questions (ses s3) = questions (ses s1)
               /\ candidateId (ses s3) = candidateId (ses s1)
               /\ timers (br s3)
                  = timers (br s1) ++ [(1000, StartNextQuestion)]
               /\ sent (br s3) = sent (br s1)
               /\ uncaught (br s3) = uncaught (br s1)
               /\ recordedChunks (rec s3) = recordedChunks (rec s1)
               /\ tasks (br s3) = tasks (br s1))
    by (repeat split).
  clearbody s3. clear s2 Hq2.
  destruct V3 as (Hv3 & Hi3 & Hqs3 & Hcid3 & Hti3 & Hsent3 & Hun3 & Hch3
                  & Hta3).
  assert (Es : step s ClickNext = s3)
    by (unfold step; cbn [handler]; now rewrite En').
  cbn [run fold_left]. rewrite Es.
  (* the recorder's task *)
  destruct (run_task_saves s3) as (Wv & Wses & Wti & Wun & Wsent).
  assert (Wup : sent (br (step s3 RunTask)) = sent (br s) ++ next_upload s).
  { rewrite Wsent, Hta3, Hta1, Hch3, Hch1, Hi3, Hcid3, Hsent3, Hsent1, Hses1.
    unfold stop_task, next_upload.
    destruct (mediaRecorder (rec s)) as [[[] g]|]; reflexivity. }
  clear Wsent.
  assert (Wi : currentQuestionIndex (ses (step s3 RunTask))
               = currentQuestionIndex (ses s1) + 1) by now rewrite Wses.
  assert (Wqs : questions (ses (step s3 RunTask)) = questions (ses s1))
    by now rewrite Wses.
  assert (Wcid : candidateId (ses (step s3 RunTask)) = candidateId (ses s1))
    by now rewrite Wses.
  rewrite Hti3 in Wti. rewrite Hun3 in Wun. rewrite Hv3 in Wv.
  clear Hv3 Hi3 Hqs3 Hcid3 Hsent3 Hch3 Hta3 Es En' Wses.
  revert Wv Wti Wun Wup Wi Wqs Wcid.
  generalize (step s3 RunTask). clear s3 Hti3 Hun3.
  intros s3 Hv3 Hti3 Hun3 Hsent3 Hi3 Hqs3 Hcid3.
  (* the timeout *)
  assert (Hnth : nth_error (timers (br s3)) (List.length (timers (br s)))
                 = Some (1000, StartNextQuestion))
    by (rewrite Hti3, Hti1; apply nth_error_last).
  pose proof (timer_fires_runs _ _ _ s3 Hnth) as Ef.
  cbn [timer_callback] in Ef.
  set (s4 := set_timers (remove_nth (List.length (timers (br s)))
                          (timers (br s3))) s3) in Ef.
  assert (V4 : recorder_vars s4 = recorder_vars s3
               /\ ses s4 = ses s3
               /\ timers (br s4) = timers (br s)
               /\ sent (br s4) = sent (br s3)
               /\ uncaught (br s4) = uncaught (br s3)).
  { repeat split. cbn. rewrite Hti3, Hti1. apply remove_nth_last. }
  clearbody s4. destruct V4 as (Hv4 & Hses4 & Hti4 & Hsent4 & Hun4).
  assert (F4 : flag_agrees s4 = true)
    by (unfold flag_agrees; now rewrite Hv4, Hv3).
  assert (R4 : recording (rec s4) = false
               /\ stream (rec s4) = stream (rec s)
               /\ mimeSupported (br s4) = mimeSupported (br s)).
  { rewrite Hv3 in Hv4. unfold recorder_vars in Hv4.
    injection Hv4 as _ A B _ C. now rewrite A, B, C. }
  destruct R4 as (Hrec4 & Hst4 & Hmi4).
  destruct (begin_recording_result s4 F4)
    as (sc & Ec & Fc & Hrecc & Hsesc & Htic & Hsentc & Hunc).
  rewrite Hst4, Hmi4, Hrec4 in Hrecc.
  assert (Et : nextQuestion_timeout s4
               = speakQuestion (question q) sc).
  { unfold nextQuestion_timeout.
    rewrite <- (bind_assoc setupRecording (fun _ => startRecording)
                  (fun _ => i <- gets (fun s => currentQuestionIndex (ses s)) ;;
                            q0 <- question_at i ;; speakQuestion q0) s4).
    fold begin_recording. rewrite (bind_Ok _ _ _ _ _ Ec).
    unfold bind at 1, gets.
    apply bind_Ok, question_at_nth.
    now rewrite Hsesc, Hses4, Hqs3, Hi3, Hses1. }
  rewrite Et in Ef.
  destruct (speakQuestion_starts_speaking (question q) sc)
    as (R & Sp & _ & Se & _).
  destruct (speakQuestion_frame (question q) sc)
    as (Fr & Fs & _ & _ & Ft & _ & Fu & _).
  cbv zeta in R, Sp, Se, Fr, Fs, Ft, Fu.
  assert (E5 : step s3 (TimerFires (List.length (timers (br s))))
               = state_of (speakQuestion (question q) sc)).
  { unfold step. cbn [handler]. rewrite Ef.
    destruct (speakQuestion (question q) sc); [reflexivity|discriminate R]. }
  rewrite E5.
  rewrite Fs, Se, Fr, Ft, Fu, Hsesc, Hses4, Hi3, Hcid3, Hses1.
  rewrite Hsentc, Hsent4, Hsent3, Htic, Hti4, Hunc, Hun4, Hun3, Hun1.
  rewrite <- app_assoc.
  repeat split; try assumption.
  destruct (stream (rec s) && mimeSupported (br s)); assumption.
Qed.

(** During the first of two questions, with one byte gathered: the
    recording is uploaded with the index 1, and the second question is
    spoken. *)
Lemma next_question_cycle_witness :
  (let s := run (asking two_questions granted_page)
                [ClickStart; MediaGathered [7%N]] in
   let q := {| question := lit "Why this role?" |} in
   let s' := run s [ClickNext; RunTask;
                    TimerFires (List.length (timers (br s)))] in
   currentQuestionIndex (ses s') = currentQuestionIndex (ses s) + 1
   /\ sent (br s')
      = sent (br s) ++ next_upload s
        ++ [PostSpeakQuestion (question q) (candidateId (ses s))]
   /\ isSpeaking (sp s') = true
   /\ recording (rec s') = stream (rec s) && mimeSupported (br s)
   /\ timers (br s') = timers (br s)
   /\ uncaught (br s') = uncaught (br s))
  /\ next_upload (run (asking two_questions granted_page)
                    [ClickStart; MediaGathered [7%N]])
     = [PostUploadRecording [7%N] 1 (lit "candidate_1")].
Proof.
  split.
  - exact (next_question_cycle
             (run (asking two_questions granted_page)
                [ClickStart; MediaGathered [7%N]])
             {| question := lit "Why this role?" |} eq_refl eq_refl eq_refl).
  - reflexivity.
Defined.
